(** * githooks.git: commits, committed files and their lazily resolved attributes

    A shallow embedding of [githooks/git.py] and the properties of its
    parsers, caches and equalities.

    Text is modelled as the code has it: a Python [str] is a list of code
    points, a [bytes] object a list of byte values, both over [N].  A method
    that mutates [self] or runs a command is a function in a state and
    exception monad over the object and the log of the commands run so far.

    The classes [CommitList], [Contributor], [CommittedFile] and [Commit]
    are embedded with their methods, but for [Commit.get_contributors] (a
    generator), [CommittedFile.get_extension] (a function of
    [githooks.utils]) and [CommittedFile.__str__]. *)

From Stdlib Require Import List NArith ZArith Bool Ascii Lia.
From Stdlib Require String.
Import ListNotations.
Import String.StringSyntax.
Local Open Scope string_scope.
Local Open Scope list_scope.

Set Implicit Arguments.

(** ** The Python values and builtins the module uses *)

Module Py.

Abbreviation str := (list N) (only parsing).
Abbreviation bytes := (list N) (only parsing).

(** A literal of the source, ['push'] or [b'author '], as code points. *)
Definition lit (s : String.string) : list N :=
  map N_of_ascii (String.list_ascii_of_string s).

(** A value that is [None], a [str] or a [bytes]: what a commit id, an
    object id or a command argument can be. *)
Inductive pyval :=
| PNone
| PStr (s : str)
| PBytes (b : bytes).

Inductive exn :=
| AssertionError
| AttributeError
| IndexError
| TypeError
| ValueError
| UnicodeDecodeError
| CalledProcessError (returncode : Z)
| OSError
| OtherException (name : String.string).

Inductive result (A : Type) :=
| Ok (a : A)
| Raise (e : exn).
Arguments Ok {A} a.
Arguments Raise {A} e.

Definition rbind {A B} (r : result A) (k : A -> result B) : result B :=
  match r with
  | Ok a => k a
  | Raise e => Raise e
  end.

(** [==] on two [str] (or two [bytes]) values. *)
Fixpoint eqb_seq (a b : list N) : bool :=
  match a, b with
  | [], [] => true
  | x :: a', y :: b' => (x =? y)%N && eqb_seq a' b'
  | _, _ => false
  end.

(** [==] on values that may be of different types: a [str] never equals a
    [bytes], and [None] equals only [None]. *)
Definition eqb_val (a b : pyval) : bool :=
  match a, b with
  | PNone, PNone => true
  | PStr s, PStr t => eqb_seq s t
  | PBytes s, PBytes t => eqb_seq s t
  | _, _ => false
  end.

(** [s.startswith(p)] *)
Fixpoint startswith (p s : list N) : bool :=
  match p, s with
  | [], _ => true
  | x :: p', y :: s' => (x =? y)%N && startswith p' s'
  | _ :: _, [] => false
  end.

(** [s.endswith(p)] *)
Definition endswith (p s : list N) : bool :=
  startswith (rev p) (rev s).

(** [s.find(p)]: the lowest index at which [p] occurs in [s]. *)
Fixpoint find (p s : list N) : option nat :=
  if startswith p s then Some 0
  else match s with
       | [] => None
       | _ :: s' => option_map S (find p s')
       end.

(** [p in s] *)
Definition contains (p s : list N) : bool :=
  match find p s with Some _ => true | None => false end.

(** [s.index(p)] *)
Definition index (p s : list N) : result nat :=
  match find p s with Some i => Ok i | None => Raise ValueError end.

(** [s.rfind(c)] for a one-character [c]. *)
Fixpoint rfind_char (c : N) (s : list N) : option nat :=
  match s with
  | [] => None
  | x :: s' =>
      match rfind_char c s' with
      | Some i => Some (S i)
      | None => if (x =? c)%N then Some 0 else None
      end
  end.

(** [s.split(c)] for a one-character separator [c]. *)
Fixpoint split_char (c : N) (s : list N) : list (list N) :=
  match s with
  | [] => [[]]
  | x :: s' =>
      if (x =? c)%N then [] :: split_char c s'
      else match split_char c s' with
           | h :: t => (x :: h) :: t
           | [] => [[x]]
           end
  end.

(** [s.split(sep, 1)] *)
Definition split_once (sep s : list N) : list (list N) :=
  match find sep s with
  | Some i => [firstn i s; skipn (i + length sep) s]
  | None => [s]
  end.

(** [s.rsplit(c, 1)] for a one-character separator [c]. *)
Definition rsplit_once (c : N) (s : list N) : list (list N) :=
  match rfind_char c s with
  | Some i => [firstn i s; skipn (S i) s]
  | None => [s]
  end.

(** [s.replace(a, b)] for one-character [a] and [b]. *)
Definition replace_char (a b : N) (s : list N) : list N :=
  map (fun x => if (x =? a)%N then b else x) s.

(** [sep.join(parts)] *)
Fixpoint join (sep : list N) (parts : list (list N)) : list N :=
  match parts with
  | [] => []
  | [p] => p
  | p :: rest => p ++ sep ++ join sep rest
  end.

(** Whitespace of [bytes] methods: space, tab, newline, return, VT, FF. *)
Definition isspace_bytes (c : N) : bool :=
  ((9 <=? c) && (c <=? 13) || (c =? 32))%N.

(** Whitespace of [str] methods: the Unicode white-space characters. *)
Definition isspace_str (c : N) : bool :=
  ((9 <=? c) && (c <=? 13) || (28 <=? c) && (c <=? 32)
   || (c =? 133) || (c =? 160) || (c =? 5760)
   || (8192 <=? c) && (c <=? 8202)
   || (c =? 8232) || (c =? 8233) || (c =? 8239) || (c =? 8287)
   || (c =? 12288))%N.

(** Line boundaries of [bytes.splitlines]; a return followed by a newline
    is one boundary, which [splitlines] handles. *)
Definition islinebreak_bytes (c : N) : bool :=
  ((c =? 10) || (c =? 13))%N.

(** Line boundaries of [str.splitlines]. *)
Definition islinebreak_str (c : N) : bool :=
  ((10 <=? c) && (c <=? 13) || (28 <=? c) && (c <=? 30)
   || (c =? 133) || (c =? 8232) || (c =? 8233))%N.

(** The longest prefix of characters satisfying [p], and the rest. *)
Fixpoint span (p : N -> bool) (s : list N) : list N * list N :=
  match s with
  | [] => ([], [])
  | x :: s' =>
      if p x then let (a, b) := span p s' in (x :: a, b) else ([], s)
  end.

Fixpoint dropwhile (p : N -> bool) (s : list N) : list N :=
  match s with
  | [] => []
  | x :: s' => if p x then dropwhile p s' else s
  end.

(** [s.lstrip()], [s.rstrip()], [s.strip()] *)
Definition lstrip (sp : N -> bool) (s : list N) : list N := dropwhile sp s.
Definition rstrip (sp : N -> bool) (s : list N) : list N :=
  rev (dropwhile sp (rev s)).
Definition strip (sp : N -> bool) (s : list N) : list N :=
  rstrip sp (lstrip sp s).

(** [s.split(None, maxsplit)]: at most [maxsplit] fields are cut off at
    runs of whitespace; what is left, without its leading whitespace, is the
    last field when it is not empty. *)
Fixpoint split_ws (sp : N -> bool) (maxsplit : nat) (s : list N)
  : list (list N) :=
  match maxsplit with
  | O => match dropwhile sp s with
         | [] => []
         | r => [r]
         end
  | S n =>
      match dropwhile sp s with
      | [] => []
      | r => let (field, rest) := span (fun c => negb (sp c)) r in
             field :: split_ws sp n rest
      end
  end.

(** [s.splitlines()]: [cur] is the line being read, reversed. *)
Fixpoint splitlines_from (brk : N -> bool) (cur s : list N)
  : list (list N) :=
  match s with
  | [] => match cur with [] => [] | _ => [rev cur] end
  | c :: s' =>
      if (c =? 13)%N then
        match s' with
        | 10%N :: s'' => rev cur :: splitlines_from brk [] s''
        | _ => rev cur :: splitlines_from brk [] s'
        end
      else if brk c then rev cur :: splitlines_from brk [] s'
      else splitlines_from brk (c :: cur) s'
  end.

Definition splitlines (brk : N -> bool) (s : list N) : list (list N) :=
  splitlines_from brk [] s.

(** Subscripts: [l[0]], [l[i]], [l[-1]]. *)
Definition item {A} (l : list A) (i : nat) : result A :=
  match nth_error l i with
  | Some x => Ok x
  | None => Raise IndexError
  end.

Definition item_last {A} (l : list A) : result A :=
  match rev l with
  | x :: _ => Ok x
  | [] => Raise IndexError
  end.

(** [s[-k]] for [k >= 1]. *)
Definition item_from_end {A} (l : list A) (k : nat) : result A :=
  match nth_error (rev l) (k - 1) with
  | Some x => Ok x
  | None => Raise IndexError
  end.

(** [a, b = l] *)
Definition unpack2 {A} (l : list A) : result (A * A) :=
  match l with
  | [a; b] => Ok (a, b)
  | _ => Raise ValueError
  end.

(** [int(b)] for a [bytes] value: optional whitespace around an optional
    sign and decimal digits, in which single underscores may separate
    digits. *)
Definition digit_of (c : N) : option Z :=
  if ((48 <=? c) && (c <=? 57))%N then Some (Z.of_N (c - 48)) else None.

Fixpoint int_digits (after_underscore : bool) (acc : Z) (s : list N)
  : option Z :=
  match s with
  | [] => if after_underscore then None else Some acc
  | c :: s' =>
      if (c =? 95)%N then
        if after_underscore then None else int_digits true acc s'
      else match digit_of c with
           | Some d => int_digits false (10 * acc + d)%Z s'
           | None => None
           end
  end.

Definition int_unsigned (s : list N) : option Z :=
  match s with
  | c :: s' =>
      match digit_of c with
      | Some d => int_digits false d s'
      | None => None
      end
  | [] => None
  end.

Definition int_of_bytes (b : bytes) : result Z :=
  let s := strip isspace_bytes b in
  let parsed :=
    match s with
    | 43%N :: r => int_unsigned r
    | 45%N :: r => option_map Z.opp (int_unsigned r)
    | _ => int_unsigned s
    end in
  match parsed with
  | Some v => Ok v
  | None => Raise ValueError
  end.

(** [repr(b)] of a [bytes] value, which ['{}'.format(b)] prints. *)
Definition hex_digit (n : N) : N :=
  (if n <? 10 then 48 + n else 87 + n)%N.

Definition repr_byte (quote c : N) : list N :=
  if ((c =? quote) || (c =? 92))%N then [92%N; c]
  else if (c =? 9)%N then lit "\t"
  else if (c =? 10)%N then lit "\n"
  else if (c =? 13)%N then lit "\r"
  else if ((c <? 32) || (127 <=? c))%N
       then lit "\x" ++ [hex_digit (c / 16); hex_digit (c mod 16)]
  else [c].

Definition repr_bytes (b : bytes) : str :=
  let quote :=
    if existsb (N.eqb 39) b && negb (existsb (N.eqb 34) b)
    then 34%N else 39%N in
  lit "b" ++ [quote] ++ flat_map (repr_byte quote) b ++ [quote].

(** ['{}'.format(v)] *)
Definition format (v : pyval) : str :=
  match v with
  | PNone => lit "None"
  | PStr s => s
  | PBytes b => repr_bytes b
  end.

End Py.

(** ** [os.path] on a POSIX system *)

Module posixpath.
Import Py.

(** [isabs(s)] *)
Definition isabs (s : list N) : bool := startswith (lit "/") s.

(** One round of the loop of [join(a, *p)]. *)
Definition join_step (path b : str) : str :=
  if startswith (lit "/") b then b
  else if match path with [] => true | _ => endswith (lit "/") path end
       then path ++ b
  else path ++ lit "/" ++ b.

(** [join(a, *p)] *)
Definition join (a : str) (p : list str) : str :=
  fold_left join_step p a.

(** One round of the loop of [normpath] over the components. *)
Definition norm_step (initial_slashes : nat) (new_comps : list str)
  (comp : str) : list str :=
  if eqb_seq comp [] || eqb_seq comp (lit ".") then new_comps
  else if negb (eqb_seq comp (lit ".."))
          || (Nat.eqb initial_slashes 0
              && match new_comps with [] => true | _ => false end)
          || match rev new_comps with
             | top :: _ => eqb_seq top (lit "..")
             | [] => false
             end
       then new_comps ++ [comp]
  else match new_comps with
       | [] => new_comps
       | _ => removelast new_comps
       end.

(** [normpath(path)] *)
Definition normpath (path : str) : str :=
  match path with
  | [] => lit "."
  | _ =>
      let initial_slashes :=
        if startswith (lit "/") path then
          if startswith (lit "//") path && negb (startswith (lit "///") path)
          then 2 else 1
        else 0 in
      let comps := split_char 47 path in
      let new_comps := fold_left (norm_step initial_slashes) comps [] in
      let path := Py.join (lit "/") new_comps in
      let path := concat (repeat (lit "/") initial_slashes) ++ path in
      match path with
      | [] => lit "."
      | _ => path
      end
  end.

End posixpath.

(** ** UTF-8, as [str(b, encoding='utf-8')] decodes it *)

Module utf8.
Import Py.

Definition continuation (c : N) : bool := ((128 <=? c) && (c <=? 191))%N.

(** The strict decoder: no overlong forms, no surrogates, nothing above
    U+10FFFF. *)
Fixpoint decode_points (b : bytes) : option str :=
  match b with
  | [] => Some []
  | c0 :: r0 =>
      if (c0 <? 128)%N then option_map (cons c0) (decode_points r0)
      else if ((194 <=? c0) && (c0 <=? 223))%N then
        match r0 with
        | c1 :: r1 =>
            if continuation c1
            then option_map (cons ((c0 - 192) * 64 + (c1 - 128))%N)
                            (decode_points r1)
            else None
        | _ => None
        end
      else if ((224 <=? c0) && (c0 <=? 239))%N then
        match r0 with
        | c1 :: c2 :: r2 =>
            let cp := ((c0 - 224) * 4096 + (c1 - 128) * 64 + (c2 - 128))%N in
            if continuation c1 && continuation c2 && (2048 <=? cp)%N
               && negb ((55296 <=? cp) && (cp <=? 57343))%N
            then option_map (cons cp) (decode_points r2)
            else None
        | _ => None
        end
      else if ((240 <=? c0) && (c0 <=? 244))%N then
        match r0 with
        | c1 :: c2 :: c3 :: r3 =>
            let cp := ((c0 - 240) * 262144 + (c1 - 128) * 4096
                       + (c2 - 128) * 64 + (c3 - 128))%N in
            if continuation c1 && continuation c2 && continuation c3
               && (65536 <=? cp)%N && (cp <=? 1114111)%N
            then option_map (cons cp) (decode_points r3)
            else None
        | _ => None
        end
      else None
  end.

(** [str(b, encoding='utf-8')] *)
Definition decode (b : bytes) : result str :=
  match decode_points b with
  | Some s => Ok s
  | None => Raise UnicodeDecodeError
  end.

End utf8.

(** ** What the module takes from outside *)

(** The argument vector of a command. *)
Definition argv := list Py.pyval.

(** [git_exe_path] is the module's global, [get_exe_path('git')];
    [decode_str] is imported from [githooks.utils]; [check_output] is
    [subprocess.check_output], whose outcome may depend on the commands run
    before (listed oldest first); [str_decimal] is the value [int] gives a
    [str] character that is a decimal digit of the Unicode database. *)
Class Env := {
  git_exe_path : Py.pyval;
  decode_str : Py.bytes -> Py.result Py.str;
  check_output : list argv -> argv -> Py.result Py.bytes;
  str_decimal : N -> option Z
}.

(** ** Methods as computations on [self] and the command log *)

Module Method.
Import Py.

Record state (O : Type) := mkState {
  self : O;
  calls : list argv
}.

Definition M (O A : Type) := state O -> result A * state O.

Definition ret {O A} (a : A) : M O A := fun s => (Ok a, s).

Definition raise {O A} (e : exn) : M O A := fun s => (Raise e, s).

Definition bind {O A B} (m : M O A) (k : A -> M O B) : M O B :=
  fun s =>
    match m s with
    | (Ok a, s') => k a s'
    | (Raise e, s') => (Raise e, s')
    end.

(** A pure step that may raise. *)
Definition lift {O A} (r : result A) : M O A := fun s => (r, s).

Definition get_self {O} : M O O := fun s => (Ok (self s), s).

(** An assignment to attributes of [self]. *)
Definition update {O} (f : O -> O) : M O unit :=
  fun s => (Ok tt, mkState (f (self s)) (calls s)).

(** A call of [check_output]: the command is run and logged, whatever its
    outcome. *)
Definition run {O} `{Env} (args : argv) : M O bytes :=
  fun s => (check_output (calls s) args, mkState (self s) (calls s ++ [args])).

(** [try: m except Exception: h] *)
Definition try_except {O A} (m : M O A) (h : exn -> M O A) : M O A :=
  fun s =>
    match m s with
    | (Ok a, s') => (Ok a, s')
    | (Raise e, s') => h e s'
    end.

(** [assert b] *)
Definition assert (b : bool) : result unit :=
  if b then Ok tt else Raise AssertionError.

End Method.

Declare Scope method_scope.
Delimit Scope method_scope with method.
Notation "x <- m ;; k" := (Method.bind m (fun x => k))
  (at level 61, m at next level, right associativity) : method_scope.
Notation "m ;; k" := (Method.bind m (fun _ => k))
  (at level 61, right associativity) : method_scope.

Declare Scope result_scope.
Delimit Scope result_scope with result.
Notation "x <- m ;; k" := (Py.rbind m (fun x => k))
  (at level 61, m at next level, right associativity) : result_scope.
Notation "m ;; k" := (Py.rbind m (fun _ => k))
  (at level 61, right associativity) : result_scope.

Import Py Method.
Local Open Scope method_scope.

(** Unfolding the plumbing of a method, leaving its steps. *)
Ltac method :=
  cbv beta iota delta [bind ret raise lift get_self update run try_except];
  cbn [self calls fst snd].

(** A [CommittedFile] holds a reference to the [Commit] object it belongs
    to.  Its methods read one thing through that reference, the commit's
    [commit_id], which no method assigns after construction: the reference is
    modelled by that id. *)
Record CommitRef := { ref_commit_id : pyval }.

(** ** class Contributor *)

Module Contributor.

Record t := mk {
  name : str;
  email : str;
  timestamp : Z
}.

Section Methods.
Context `{Env}.

(** [Contributor.parse(line)], on the text after [b'author '] or
    [b'committer ']. *)
Definition parse (line : bytes) : result t :=
  (p <- unpack2 (split_once (lit " <") line) ;;
   let (name, line) := p in
   p <- unpack2 (split_once (lit "> ") line) ;;
   let (email, line) := p in
   p <- unpack2 (split_once (lit " ") line) ;;
   let (timestamp, line) := p in
   n <- decode_str name ;;
   e <- decode_str email ;;
   ts <- int_of_bytes timestamp ;;
   Ok (mk n e ts))%result.

(** [get_email_domain()] *)
Definition get_email_domain (self : t) : result str :=
  item_last (split_once (lit "@") (email self)).

End Methods.
End Contributor.

(** ** The remote listing, read by [_get_project_info] of both classes *)

(** The command of [_get_project_info]. *)
Definition remote_command `{Env} : argv :=
  [git_exe_path; PStr (lit "remote"); PStr (lit "-v")].

(** The list comprehension
    [[str(_, encoding='utf-8') for _ in lines if "push" in str(_, encoding='utf-8')]]. *)
Fixpoint push_lines (lines : list bytes) : result (list str) :=
  match lines with
  | [] => Ok []
  | l :: rest =>
      (d <- utf8.decode l ;;
       if contains (lit "push") d then
         d' <- utf8.decode l ;;
         tl <- push_lines rest ;;
         Ok (d' :: tl)
       else push_lines rest)%result
  end.

(** The four lines that follow [lines = iter(content.splitlines())], up to
    the value assigned to [self._projects]. *)
Definition project_of_remotes (content : bytes) : result str :=
  (let lines := splitlines islinebreak_bytes content in
   matching <- push_lines lines ;;
   temp <- item matching 0 ;;
   line <- item (split_char 9 (replace_char 32 9 temp)) 1 ;;
   project_name <- item_last (split_char 47 line) ;;
   item (split_char 46 project_name) 0)%result.

(** ** class CommittedFile *)

Module CommittedFile.

Record t := mk {
  path : str;
  commit : option CommitRef;
  mode : option str;
  content : option bytes;
  object_id : pyval;
  project_fetched : bool;
  _projects : option (option str)
}.

Definition set_content (v : option bytes) (f : t) : t :=
  mk (path f) (commit f) (mode f) v (object_id f) (project_fetched f)
     (_projects f).
Definition set_project_fetched (v : bool) (f : t) : t :=
  mk (path f) (commit f) (mode f) (content f) (object_id f) v (_projects f).
Definition set_projects (v : option str) (f : t) : t :=
  mk (path f) (commit f) (mode f) (content f) (object_id f)
     (project_fetched f) (Some v).

(** [CommittedFile(path, commit=None, mode=None, object_id=None)] *)
Definition __init__ (path : str) (commit : option CommitRef)
  (mode : option str) (object_id : pyval) : result t :=
  (assert (match mode with
           | None => true
           | Some m => Nat.eqb (length m) 6
           end) ;;
   Ok (mk path commit mode None object_id false None))%result.

(** [self.commit == other.commit]: [Commit.__eq__] compares the ids of two
    commits; [None] equals [None] and no commit. *)
Definition commit_eq (a b : option CommitRef) : bool :=
  match a, b with
  | Some x, Some y => eqb_val (ref_commit_id x) (ref_commit_id y)
  | None, None => true
  | _, _ => false
  end.

(** [__eq__(self, other)]; [other] is [Some f] when it is a
    [CommittedFile], [None] when [isinstance] fails. *)
Definition __eq__ (self : t) (other : option t) : bool :=
  match other with
  | Some o => eqb_seq (path self) (path o) && commit_eq (commit self) (commit o)
  | None => false
  end.

(** [self.mode[:2] == '10'] *)
Definition regular (self : t) : result bool :=
  match mode self with
  | None => Raise TypeError
  | Some m => Ok (eqb_seq (firstn 2 m) (lit "10"))
  end.

(** [self.mode[:2] == '12'] *)
Definition symlink (self : t) : result bool :=
  match mode self with
  | None => Raise TypeError
  | Some m => Ok (eqb_seq (firstn 2 m) (lit "12"))
  end.

Definition get_object_id (self : t) : pyval := object_id self.

(** [self.path.rsplit('/', 1)[-1]], the body of [get_filename] and of
    [get_path]. *)
Definition get_filename (self : t) : result str :=
  item_last (rsplit_once 47 (path self)).

Definition get_path (self : t) : result str :=
  item_last (rsplit_once 47 (path self)).

Definition get_framework (self : t) : bool :=
  if contains (lit ".framework") (path self) then false else true.

Section Methods.
Context `{Env}.

(** [int(c)] for a one-character [str]. *)
Definition int_of_char (c : N) : result Z :=
  match str_decimal c with
  | Some d => Ok d
  | None => Raise ValueError
  end.

(** [bool(int(self.mode[-3]) & 1)] *)
Definition owner_can_execute (self : t) : result bool :=
  match mode self with
  | None => Raise TypeError
  | Some m =>
      (c <- item_from_end m 3 ;;
       owner_bits <- int_of_char c ;;
       Ok (negb (Z.land owner_bits 1 =? 0)%Z))%result
  end.

Definition _get_project_info : M t unit :=
  content <- run remote_command ;;
  update (set_projects None) ;;
  p <- lift (project_of_remotes content) ;;
  update (set_projects (Some p)) ;;
  update (set_project_fetched true).

Definition get_projects : M t (option str) :=
  self <- get_self ;;
  (if project_fetched self then ret tt else _get_project_info) ;;
  self <- get_self ;;
  match _projects self with
  | Some p => ret p
  | None => raise AttributeError
  end.

(** [self.commit.commit_id + ':' + self.path] *)
Definition revision_path (self : t) : result pyval :=
  match commit self with
  | None => Raise AttributeError
  | Some c =>
      match ref_commit_id c with
      | PStr id => Ok (PStr (id ++ lit ":" ++ path self))
      | _ => Raise TypeError
      end
  end.

(** The commands of [get_content] and [get_file_size]. *)
Definition show_command (arg : pyval) : argv :=
  [git_exe_path; PStr (lit "show"); arg].

Definition size_command (self : t) : argv :=
  [git_exe_path; PStr (lit "cat-file"); PStr (lit "-s"); object_id self].

Definition get_content : M t bytes :=
  self <- get_self ;;
  match content self with
  | Some c => ret c
  | None =>
      arg <- lift (revision_path self) ;;
      c <- run (show_command arg) ;;
      update (set_content (Some c)) ;;
      ret c
  end.

(** [get_file_size()]: [output] is the command's output, or the integer -1
    after any exception; the handler's [logging.info] is left out.  The
    conversion [int(output)] comes after the [try] and can raise. *)
Definition get_file_size : M t Z :=
  self <- get_self ;;
  output <- try_except
              (o <- run (size_command self) ;; ret (inl o))
              (fun _ => ret (inr (-1)%Z)) ;;
  match output with
  | inl o => lift (int_of_bytes o)
  | inr z => ret z
  end.

(** [get_shebang()] *)
Definition get_shebang : M t (option str) :=
  self <- get_self ;;
  r <- lift (regular self) ;;
  if negb r then ret None
  else
    content <- get_content ;;
    if negb (startswith (lit "#!") content) then ret None
    else
      let content := strip isspace_bytes (skipn (length (lit "#!")) content) in
      tok <- lift (item (split_ws isspace_bytes 1 content) 0) ;;
      d <- lift (decode_str tok) ;;
      ret (Some d).

(** [get_shebang_exe()]: [not shebang] holds of [None] and of the empty
    text; [otherwise] is the last line of the method, reached when the
    shebang is not /usr/bin/env and when nothing follows it. *)
Definition get_shebang_exe : M t (option str) :=
  shebang <- get_shebang ;;
  match shebang with
  | None | Some [] => ret None
  | Some shebang =>
      let otherwise := item_last (rsplit_once 47 shebang) in
      if eqb_seq shebang (lit "/usr/bin/env") then
        content <- get_content ;;
        line <- lift (item (splitlines islinebreak_bytes content) 0) ;;
        let rest := skipn (length (lit "#!/usr/bin/env")) line in
        let rest_split := split_ws isspace_bytes 1 rest in
        match rest_split with
        | tok :: _ => d <- lift (decode_str tok) ;; ret (Some d)
        | [] => e <- lift otherwise ;; ret (Some e)
        end
      else e <- lift otherwise ;; ret (Some e)
  end.

(** [get_symlink_target()]: [isabs] is asked of the raw content, [join] and
    [normpath] of the decoded one. *)
Definition get_symlink_target : M t (option t) :=
  content <- get_content ;;
  if posixpath.isabs content then ret None
  else
    self <- get_self ;;
    d <- lift (decode_str content) ;;
    let path :=
      posixpath.normpath (posixpath.join (path self) [lit ".."; d]) in
    if startswith (lit "..") path then ret None
    else
      f <- lift (__init__ path (commit self) None PNone) ;;
      ret (Some f).

(** The command of [exists]. *)
Definition ls_tree_command (commit_id : pyval) (self : t) : argv :=
  [git_exe_path; PStr (lit "ls-tree"); PStr (lit "--name-only");
   PStr (lit "-r"); commit_id; PStr (path self)].

(** [exists()]: [bool] of the command's output, which is true of any
    output but the empty one. *)
Definition exists_ : M t bool :=
  self <- get_self ;;
  match commit self with
  | None => raise AttributeError
  | Some c =>
      out <- run (ls_tree_command (ref_commit_id c) self) ;;
      ret (match out with [] => false | _ => true end)
  end.

End Methods.
End CommittedFile.

(** ** class CommitList *)

(** [bool(v)] for [None], a [str] or a [bytes]. *)
Definition truthy (v : pyval) : bool :=
  match v with
  | PNone | PStr [] | PBytes [] => false
  | _ => true
  end.

Module CommitList.

(** A list of commits (of type [C], given below) with its [branch_name];
    [ref_path] is the class attribute, [None] unless a caller sets it. *)
Record t (C : Type) := mk {
  items : list C;
  branch_name : pyval;
  ref_path : pyval
}.

(** [CommitList(other, branch_name)] *)
Definition __init__ {C} (other : list C) (branch_name : pyval) : t C :=
  mk other branch_name PNone.

(** [__str__(self)]; [str_of] is [str] on an item.  The items [self[0]] and
    [self[-1]] are taken before either is formatted. *)
Definition __str__ {C} (str_of : C -> result str) (self : t C) : result str :=
  (first <- item (items self) 0 ;;
   last <- item_last (items self) ;;
   a <- str_of first ;;
   b <- str_of last ;;
   let name := a ++ lit ".." ++ b in
   Ok (if truthy (ref_path self)
       then name ++ lit " (" ++ format (branch_name self) ++ lit ")"
       else name))%result.

End CommitList.

(** ** class Commit *)

Module Commit.

(** The attributes of a commit object.  [_parents], [_message_lines],
    [_author], [_committer] and [_projects] do not exist until a method
    assigns them: [None] is the missing attribute.  [commit_list], which no
    method reads, is left out. *)
#[warnings="-register-all"]
Inductive t := mk {
  commit_id : pyval;
  content_fetched : bool;
  project_fetched : bool;
  changed_files : option (list CommittedFile.t);
  binary_files : option (list str);
  _parents : option (list t);
  _message_lines : option (list str);
  _author : option Contributor.t;
  _committer : option Contributor.t;
  _projects : option (option str)
}.

Definition null_commit_id : str :=
  lit "0000000000000000000000000000000000000000".

(** [Commit(commit_id)] *)
Definition __init__ (commit_id : pyval) : t :=
  mk commit_id false false None None None None None None None.

Definition set_content_fetched (v : bool) (c : t) : t :=
  mk (commit_id c) v (project_fetched c) (changed_files c) (binary_files c)
     (_parents c) (_message_lines c) (_author c) (_committer c) (_projects c).
Definition set_project_fetched (v : bool) (c : t) : t :=
  mk (commit_id c) (content_fetched c) v (changed_files c) (binary_files c)
     (_parents c) (_message_lines c) (_author c) (_committer c) (_projects c).
Definition set_changed_files (v : list CommittedFile.t) (c : t) : t :=
  mk (commit_id c) (content_fetched c) (project_fetched c) (Some v)
     (binary_files c) (_parents c) (_message_lines c) (_author c)
     (_committer c) (_projects c).
Definition set_binary_files (v : list str) (c : t) : t :=
  mk (commit_id c) (content_fetched c) (project_fetched c) (changed_files c)
     (Some v) (_parents c) (_message_lines c) (_author c) (_committer c)
     (_projects c).
Definition set_parents (v : list t) (c : t) : t :=
  mk (commit_id c) (content_fetched c) (project_fetched c) (changed_files c)
     (binary_files c) (Some v) (_message_lines c) (_author c) (_committer c)
     (_projects c).
Definition set_message_lines (v : list str) (c : t) : t :=
  mk (commit_id c) (content_fetched c) (project_fetched c) (changed_files c)
     (binary_files c) (_parents c) (Some v) (_author c) (_committer c)
     (_projects c).
Definition set_author (v : Contributor.t) (c : t) : t :=
  mk (commit_id c) (content_fetched c) (project_fetched c) (changed_files c)
     (binary_files c) (_parents c) (_message_lines c) (Some v) (_committer c)
     (_projects c).
Definition set_committer (v : Contributor.t) (c : t) : t :=
  mk (commit_id c) (content_fetched c) (project_fetched c) (changed_files c)
     (binary_files c) (_parents c) (_message_lines c) (_author c) (Some v)
     (_projects c).
Definition set_projects (v : option str) (c : t) : t :=
  mk (commit_id c) (content_fetched c) (project_fetched c) (changed_files c)
     (binary_files c) (_parents c) (_message_lines c) (_author c)
     (_committer c) (Some v).

(** The reference a [CommittedFile] of this commit holds. *)
Definition ref (c : t) : CommitRef := {| ref_commit_id := commit_id c |}.

(** [__bool__(self)] *)
Definition __bool__ (self : t) : bool :=
  negb (eqb_val (commit_id self) (PStr null_commit_id)).

(** [__eq__(self, other)]; [other] is [Some c] when it is a [Commit],
    [None] when [isinstance] fails. *)
Definition __eq__ (self : t) (other : option t) : bool :=
  match other with
  | Some o => eqb_val (commit_id self) (commit_id o)
  | None => false
  end.

(** [str(self)], which is [__str__(self)], [self.commit_id[:8]], when that
    is a [str]. *)
Definition __str__ (self : t) : result str :=
  match commit_id self with
  | PStr id => Ok (firstn 8 id)
  | _ => Raise TypeError
  end.

(** The loop of [get_new_commit_list] over the lines of the output. *)
Fixpoint new_commit_loop (commit_list : list t) (lines : list str) : list t :=
  match lines with
  | [] => commit_list
  | commit_id :: rest =>
      new_commit_loop (commit_list ++ [__init__ (PStr commit_id)]) rest
  end.

(** Reading an attribute that a method may not have assigned yet. *)
Definition attribute {A} (a : option A) : M t A :=
  match a with
  | Some v => ret v
  | None => raise AttributeError
  end.

(** The loop of [parse_tags] on [rest], [tags] being the tags found so far.
    Each round takes at least two characters off [rest]; [fuel] bounds the
    number of rounds and [parse_tags_of] gives it the length of the
    summary. *)
Fixpoint parse_tags_loop (fuel : nat) (tags : list str) (rest : str)
  : list str * str :=
  match fuel with
  | O => (tags, rest)
  | S fuel' =>
      if startswith (lit "[") rest && contains (lit "]") rest then
        match find (lit "]") rest with
        | Some end_index =>
            parse_tags_loop fuel'
              (tags ++ [firstn (end_index - 1) (skipn 1 rest)])
              (skipn (end_index + 1) rest)
        | None => (tags, rest)
        end
      else (tags, rest)
  end.

Definition parse_tags_of (summary : str) : list str * str :=
  parse_tags_loop (length summary) [] summary.

(** The loop of [get_changed_files] over the lines of the output,
    [changed_files] being the list built so far. *)
Fixpoint changed_files_loop (self_ref : CommitRef)
  (changed_files : list CommittedFile.t) (lines : list str)
  : result (list CommittedFile.t) :=
  match lines with
  | [] => Ok changed_files
  | line :: rest =>
      (let line_split := split_ws isspace_str 5 line in
       assert (Nat.eqb (length line_split) 6) ;;
       first <- item line_split 0 ;;
       assert (startswith (lit ":") first) ;;
       file_mode <- item line_split 1 ;;
       object_id <- item line_split 3 ;;
       file_path <- item line_split 5 ;;
       f <- CommittedFile.__init__ file_path (Some self_ref) (Some file_mode)
              (PStr object_id) ;;
       changed_files_loop self_ref (changed_files ++ [f]) rest)%result
  end.

(** The loop of [get_binary_files] over the lines of the output. *)
Fixpoint binary_files_loop (binary_files : list str) (lines : list str)
  : list str :=
  match lines with
  | [] => binary_files
  | line :: rest =>
      let line_split := split_char 9 line in
      binary_files_loop
        (if Nat.eqb (length line_split) 3 then
           match line_split with
           | [added; removed; file_path] =>
               if eqb_seq (lit "-") added && eqb_seq (lit "-") removed
               then binary_files ++ [file_path]
               else binary_files
           | _ => binary_files
           end
         else binary_files)
        rest
  end.

Section Methods.
Context `{Env}.

(** One round of the first loop of [_fetch_content], on a header line. *)
Definition header_line (line : bytes) : M t unit :=
  if startswith (lit "parent ") line then
    self <- get_self ;;
    parents <- attribute (_parents self) ;;
    let parent :=
      __init__ (PBytes (rstrip isspace_bytes
                          (skipn (length (lit "parent ")) line))) in
    update (set_parents (parents ++ [parent]))
  else if startswith (lit "author ") line then
    a <- lift (Contributor.parse (skipn (length (lit "author ")) line)) ;;
    update (set_author a)
  else if startswith (lit "committer ") line then
    c <- lift (Contributor.parse (skipn (length (lit "committer ")) line)) ;;
    update (set_committer c)
  else ret tt.

(** The first loop of [_fetch_content], over the lines up to the first
    empty one; it returns the lines left in the iterator. *)
Fixpoint fetch_headers (lines : list bytes) : M t (list bytes) :=
  match lines with
  | [] => ret []
  | line :: rest =>
      match line with
      | [] => ret rest
      | _ => header_line line ;; fetch_headers rest
      end
  end.

(** One round of the second loop of [_fetch_content], on a line of the
    message. *)
Definition message_line (line : bytes) : M t unit :=
  d <- lift (decode_str line) ;;
  self <- get_self ;;
  message_lines <- attribute (_message_lines self) ;;
  update (set_message_lines (message_lines ++ [d])).

(** The second loop of [_fetch_content]. *)
Fixpoint fetch_message (lines : list bytes) : M t unit :=
  match lines with
  | [] => ret tt
  | line :: rest => message_line line ;; fetch_message rest
  end.

(** The commands of [_fetch_content], [get_changed_files] and
    [get_binary_files]. *)
Definition cat_file_command (self : t) : argv :=
  [git_exe_path; PStr (lit "cat-file"); PStr (lit "-p"); commit_id self].

Definition diff_tree_command (self : t) : argv :=
  [git_exe_path; PStr (lit "diff-tree"); PStr (lit "-r");
   PStr (lit "--root"); PStr (lit "--no-commit-id");
   PStr (lit "--break-rewrites"); PStr (lit "--no-renames");
   PStr (lit "--diff-filter=AM"); commit_id self].

Definition numstat_command (self : t) : argv :=
  [git_exe_path; PStr (lit "log"); PStr (lit "--pretty=format:%H -M100%");
   PStr (lit "--numstat"); PStr (lit "--no-commit-id");
   PStr (lit "--break-rewrites"); PStr (lit "--no-renames");
   PStr (lit "--diff-filter=AM");
   PStr (format (commit_id self) ++ lit "^!")].

Definition _fetch_content : M t unit :=
  self <- get_self ;;
  content <- run (cat_file_command self) ;;
  update (set_parents []) ;;
  update (set_message_lines []) ;;
  rest <- fetch_headers (splitlines islinebreak_bytes content) ;;
  fetch_message rest ;;
  update (set_content_fetched true).

Definition _get_project_info : M t unit :=
  content <- run remote_command ;;
  update (set_projects None) ;;
  p <- lift (project_of_remotes content) ;;
  update (set_projects (Some p)) ;;
  update (set_project_fetched true).

Definition get_projects : M t (option str) :=
  self <- get_self ;;
  (if project_fetched self then ret tt else _get_project_info) ;;
  self <- get_self ;;
  attribute (_projects self).

(** [if not self.content_fetched: self._fetch_content()] *)
Definition ensure_content : M t unit :=
  self <- get_self ;;
  if content_fetched self then ret tt else _fetch_content.

Definition get_parents : M t (list t) :=
  ensure_content ;;
  self <- get_self ;;
  attribute (_parents self).

Definition get_author : M t Contributor.t :=
  ensure_content ;;
  self <- get_self ;;
  attribute (_author self).

Definition get_committer : M t Contributor.t :=
  ensure_content ;;
  self <- get_self ;;
  attribute (_committer self).

Definition get_message_lines : M t (list str) :=
  ensure_content ;;
  self <- get_self ;;
  attribute (_message_lines self).

Definition get_summary : M t str :=
  lines <- get_message_lines ;;
  lift (item lines 0).

Definition parse_tags : M t (list str * str) :=
  rest <- get_summary ;;
  ret (parse_tags_of rest).

Definition content_can_fail : M t bool :=
  r <- parse_tags ;;
  ret (negb (existsb
               (fun tag => existsb (eqb_seq tag)
                             [lit "HOTFIX"; lit "MESS"; lit "TEMP"; lit "WIP"])
               (fst r))).

Definition get_changed_files : M t (list CommittedFile.t) :=
  self <- get_self ;;
  match changed_files self with
  | Some files => ret files
  | None =>
      out <- run (diff_tree_command self) ;;
      output <- lift (decode_str out) ;;
      files <- lift (changed_files_loop (ref self) []
                       (splitlines islinebreak_str output)) ;;
      update (set_changed_files files) ;;
      ret files
  end.

Definition get_binary_files : M t (list str) :=
  self <- get_self ;;
  match binary_files self with
  | Some files => ret files
  | None =>
      out <- run (numstat_command self) ;;
      output <- lift (decode_str out) ;;
      let files :=
        binary_files_loop [] (splitlines islinebreak_str output) in
      update (set_binary_files files) ;;
      ret files
  end.

(** The command of [get_new_commit_list]. *)
Definition rev_list_command (self : t) : argv :=
  [git_exe_path; PStr (lit "rev-list"); commit_id self; PStr (lit "--not");
   PStr (lit "--all"); PStr (lit "--reverse")].

Definition get_new_commit_list (branch_name : pyval) : M t (CommitList.t t) :=
  self <- get_self ;;
  out <- run (rev_list_command self) ;;
  output <- lift (decode_str out) ;;
  ret (CommitList.mk
         (new_commit_loop [] (splitlines islinebreak_str output))
         branch_name PNone).

End Methods.
End Commit.

(** [CommittedFile.changed()], [self in self.commit.get_changed_files()]:
    the method of the commit runs on the commit object, so [changed] is a
    computation on the state of the commit that [self.commit] refers to;
    membership compares with [CommittedFile.__eq__]. *)
Definition changed `{Env} (self : CommittedFile.t) : M Commit.t bool :=
  match CommittedFile.commit self with
  | None => raise AttributeError
  | Some _ =>
      files <- Commit.get_changed_files ;;
      ret (existsb (fun f => CommittedFile.__eq__ f (Some self)) files)
  end.

(** ** Vocabulary of the specification *)

(** [n] calls of a method in a row: the results, and the final state. *)
Fixpoint repeatedly {O A} (n : nat) (m : M O A) (s : state O)
  : list (result A) * state O :=
  match n with
  | O => ([], s)
  | S k =>
      let (r, s1) := m s in
      let (rs, s2) := repeatedly k m s1 in
      (r :: rs, s2)
  end.

(** A memoized accessor: once a call has returned [v], any number of further
    calls return [v] again, and the first call and the further ones together
    have run at most one command. *)
Definition memoized {O A} (m : M O A) : Prop :=
  forall s v s1, m s = (Ok v, s1) ->
    (exists new, calls s1 = calls s ++ new /\ length new <= 1) /\
    forall n, repeatedly n m s1 = (repeat (Ok v) n, s1).

(** A record of the raw diff output that [get_changed_files] reads, as the
    tool prints it:
    [:<old mode> <new mode> <old id> <new id> <status><TAB><path>]. *)
Record diff_record := {
  old_mode : str;
  new_mode : str;
  old_id : str;
  new_id : str;
  status : str;
  rec_path : str
}.

Definition raw_line (r : diff_record) : str :=
  lit ":" ++ old_mode r ++ lit " " ++ new_mode r ++ lit " " ++ old_id r
  ++ lit " " ++ new_id r ++ lit " " ++ status r ++ [9%N] ++ rec_path r.

(** A field printed by the tool: not empty, and free of whitespace. *)
Definition token (s : str) : Prop :=
  s <> [] /\ Forall (fun c => isspace_str c = false) s.

(** The fields before the path are as the tool prints them; of the path
    nothing is asked. *)
Definition well_formed (r : diff_record) : Prop :=
  Forall (fun c => isspace_str c = false) (old_mode r) /\
  token (new_mode r) /\ length (new_mode r) = 6 /\
  token (old_id r) /\ token (new_id r) /\ token (status r).

(** The path of a record as [get_changed_files] reads it: the path from
    its first character that is not whitespace. *)
Definition path_read (r : diff_record) : str :=
  dropwhile isspace_str (rec_path r).

(** The fields that [get_changed_files] asserts a line to have, and the
    file it builds from them for the commit referred to by [owner]. *)
Definition parsed_as (owner : CommitRef) (line : str) (f : CommittedFile.t)
  : Prop :=
  exists marker m2 id1 id2 st p,
    split_ws isspace_str 5 line = [marker; m2; id1; id2; st; p] /\
    startswith (lit ":") marker = true /\
    length m2 = 6 /\
    f = CommittedFile.mk p (Some owner) (Some m2) None (PStr id2) false None.

(** The header lines of a commit body: those before the first empty one. *)
Fixpoint header_lines (lines : list bytes) : list bytes :=
  match lines with
  | [] => []
  | [] :: _ => []
  | line :: rest => line :: header_lines rest
  end.

(** The body has no header that starts with [prefix]. *)
Definition lacks_header (prefix : bytes) (content : bytes) : Prop :=
  Forall (fun line => startswith prefix line = false)
         (header_lines (splitlines islinebreak_bytes content)).

(** What a numstat line adds to the binary files: the path, when the line
    has three tab-separated fields and both counts are "-". *)
Definition binary_path_of (line : str) : list str :=
  match split_char 9 line with
  | [added; removed; file_path] =>
      if eqb_seq (lit "-") added && eqb_seq (lit "-") removed
      then [file_path] else []
  | _ => []
  end.

(** The lines of the message: those after the first empty line. *)
Fixpoint message_part (lines : list bytes) : list bytes :=
  match lines with
  | [] => []
  | [] :: rest => rest
  | _ :: rest => message_part rest
  end.

(** A header line that names a contributor names one that can be read. *)
Definition header_parses `{Env} (line : bytes) : Prop :=
  (startswith (lit "author ") line = true ->
   exists a,
     Contributor.parse (skipn (length (lit "author ")) line) = Ok a) /\
  (startswith (lit "committer ") line = true ->
   exists c,
     Contributor.parse (skipn (length (lit "committer ")) line) = Ok c).

(** The headers that are present can be read, and so can the message. *)
Definition body_parses `{Env} (content : bytes) : Prop :=
  Forall header_parses
         (header_lines (splitlines islinebreak_bytes content)) /\
  Forall (fun line => exists d, decode_str line = Ok d)
         (message_part (splitlines islinebreak_bytes content)).

(** [tags] in brackets, one after the other. *)
Definition bracketed (tags : list str) : str :=
  concat (map (fun tag => lit "[" ++ tag ++ lit "]") tags).

(** A path component that is an ordinary name: not empty, without a slash,
    not [.], and not starting with two dots. *)
Definition plain_name (n : str) : Prop :=
  n <> [] /\ ~ In 47%N n /\ n <> lit "." /\ startswith (lit "..") n = false.

(** An environment for worked examples: the command prints [out], whatever
    it is asked, and [decode_str] reads UTF-8. *)
Definition example_env (out : bytes) : Env := {|
  git_exe_path := PStr (lit "/usr/bin/git");
  decode_str := utf8.decode;
  check_output := fun _ _ => Ok out;
  str_decimal := digit_of
|}.

(** A commit body with a committer header and no author header. *)
Definition body_without_author : bytes :=
  lit "tree 4b825dc642cb6eb9a060e54bf8d69288fbee4904" ++ [10%N]
  ++ lit "committer A U Thor <author@example.com> 1700000000 +0000"
  ++ [10%N; 10%N] ++ lit "Initial commit" ++ [10%N].

(** A commit as its constructor leaves it. *)
Definition example_commit : Commit.t :=
  Commit.__init__ (PStr (lit "8a1f3c5e7b9d0f2a4c6e8b0d2f4a6c8e0b1d3f5a")).

(** The diff output of a commit that adds one file. *)
Definition one_added_file : bytes :=
  lit ":000000 100644 0000000 e69de29 A" ++ [9%N] ++ lit "README".

(** A remote listing without a push line, and one whose push URL ends in
    a name with two dots. *)
Definition fetch_only_remotes : bytes :=
  lit "origin" ++ [9%N] ++ lit "https://example.com/team/hooks.git (fetch)"
  ++ [10%N].

Definition dotted_remotes : bytes :=
  lit "origin" ++ [9%N] ++ lit "https://example.com/team/my.project.git (fetch)"
  ++ [10%N]
  ++ lit "origin" ++ [9%N] ++ lit "https://example.com/team/my.project.git (push)"
  ++ [10%N].

(** Scripts: with the interpreter named through [env], with a space after
    the [#!] marker, with an interpreter path, and without a shebang. *)
Definition env_script : bytes :=
  lit "#!/usr/bin/env python3" ++ [10%N] ++ lit "print(1)" ++ [10%N].

Definition spaced_env_script : bytes :=
  lit "#! /usr/bin/env python3" ++ [10%N] ++ lit "print(1)" ++ [10%N].

Definition bash_script : bytes :=
  lit "#!/bin/bash" ++ [10%N] ++ lit "echo hello" ++ [10%N].

Definition plain_text : bytes :=
  lit "hello" ++ [10%N].

(** The record of that diff output. *)
Definition added_readme : diff_record := {|
  old_mode := lit "000000";
  new_mode := lit "100644";
  old_id := lit "0000000";
  new_id := lit "e69de29";
  status := lit "A";
  rec_path := lit "README"
|}.

(** The records of a commit that adds a file whose name begins with a
    space, and of one that adds a file whose name is a space. *)
Definition spaced_notes : diff_record := {|
  old_mode := lit "000000";
  new_mode := lit "100644";
  old_id := lit "0000000";
  new_id := lit "587be6b";
  status := lit "A";
  rec_path := lit " notes.txt"
|}.

Definition space_named : diff_record := {|
  old_mode := lit "000000";
  new_mode := lit "100644";
  old_id := lit "0000000";
  new_id := lit "e69de29";
  status := lit "A";
  rec_path := lit " "
|}.

(** The numstat output of a commit that adds an image and changes a
    script. *)
Definition numstat_of_two : bytes :=
  lit "8a1f3c5e7b9d0f2a4c6e8b0d2f4a6c8e0b1d3f5a -M100%" ++ [10%N]
  ++ lit "-" ++ [9%N] ++ lit "-" ++ [9%N] ++ lit "image.png" ++ [10%N]
  ++ lit "3" ++ [9%N] ++ lit "1" ++ [9%N] ++ lit "code.py" ++ [10%N].

(** A file of commit [id] as [get_changed_files] builds it. *)
Definition example_file (id path mode object_id : String.string)
  : CommittedFile.t :=
  CommittedFile.mk (lit path) (Some {| ref_commit_id := PStr (lit id) |})
    (Some (lit mode)) None (PStr (lit object_id)) false None.

(** The parents that the header lines of a body name, in their order: a
    commit for the id of each line that starts with [parent ]. *)
Definition parents_of (lines : list bytes) : list Commit.t :=
  map (fun line =>
         Commit.__init__
           (PBytes (rstrip isspace_bytes
                      (skipn (length (lit "parent ")) line))))
      (filter (startswith (lit "parent ")) (header_lines lines)).

(** The line of an author or committer header, after its keyword. *)
Definition contributor_line (name email timestamp zone : bytes) : bytes :=
  name ++ lit " <" ++ email ++ lit "> " ++ timestamp ++ lit " " ++ zone.

(** The contributor an attribute holds after a header line: the one the
    line names when it starts with [prefix], the one held [before]
    otherwise. *)
Definition contributor_after `{Env} (prefix : bytes)
  (before : option Contributor.t) (line : bytes) : option Contributor.t :=
  if startswith prefix line then
    match Contributor.parse (skipn (length prefix) line) with
    | Ok c => Some c
    | Raise _ => before
    end
  else before.

(** ... and after all the header lines of a body. *)
Definition last_contributor `{Env} (prefix : bytes) (lines : list bytes)
  (before : option Contributor.t) : option Contributor.t :=
  fold_left (contributor_after prefix) (header_lines lines) before.

(** The body of a merge commit, with a message of three lines. *)
Definition merge_body : bytes :=
  lit "tree 4b825dc642cb6eb9a060e54bf8d69288fbee4904" ++ [10%N]
  ++ lit "parent 1111111111111111111111111111111111111111" ++ [10%N]
  ++ lit "parent 2222222222222222222222222222222222222222" ++ [10%N]
  ++ lit "author A U Thor <author@example.com> 1700000000 +0000" ++ [10%N]
  ++ lit "committer C O Mitter <committer@example.org> 1700000060 +0100"
  ++ [10%N; 10%N]
  ++ lit "[WIP] Merge topic" ++ [10%N; 10%N] ++ lit "Details." ++ [10%N].

(** A commit body with two author headers and two committer headers. *)
Definition twice_signed_body : bytes :=
  lit "tree 4b825dc642cb6eb9a060e54bf8d69288fbee4904" ++ [10%N]
  ++ lit "author First Author <first@example.com> 1700000000 +0000"
  ++ [10%N]
  ++ lit "author Second Author <second@example.com> 1700000100 +0000"
  ++ [10%N]
  ++ lit "committer First Mitter <one@example.org> 1700000200 +0100"
  ++ [10%N]
  ++ lit "committer Second Mitter <two@example.org> 1700000300 +0100"
  ++ [10%N; 10%N]
  ++ lit "Signed twice" ++ [10%N].

(** A tag that waives the content checks. *)
Definition escape_tag (tag : str) : bool :=
  existsb (eqb_seq tag) [lit "HOTFIX"; lit "MESS"; lit "TEMP"; lit "WIP"].

(** A header line of a contributor that [Contributor.parse] refuses with
    [e]. *)
Definition unreadable_contributor `{Env} (line : bytes) (e : exn) : Prop :=
  (startswith (lit "author ") line = true /\
   Contributor.parse (skipn (length (lit "author ")) line) = Raise e) \/
  (startswith (lit "committer ") line = true /\
   Contributor.parse (skipn (length (lit "committer ")) line) = Raise e).

(** A commit body whose author header has no address. *)
Definition body_without_address : bytes :=
  lit "tree 4b825dc642cb6eb9a060e54bf8d69288fbee4904" ++ [10%N]
  ++ lit "parent 1111111111111111111111111111111111111111" ++ [10%N]
  ++ lit "author nobody 1700000000 +0000" ++ [10%N]
  ++ lit "committer C O Mitter <committer@example.org> 1700000060 +0100"
  ++ [10%N; 10%N]
  ++ lit "Fix the build" ++ [10%N].

(** The example commit after [get_parents()] has read [merge_body]. *)
Definition fetched_merge_commit : state Commit.t :=
  snd (@Commit.get_parents (example_env merge_body)
         (mkState example_commit [])).

(** The output of the command of [get_new_commit_list] for two new
    commits. *)
Definition two_new_commits : bytes :=
  lit "1111111111111111111111111111111111111111" ++ [10%N]
  ++ lit "2222222222222222222222222222222222222222" ++ [10%N].

(** The example commit after [get_changed_files()] has read
    [one_added_file]. *)
Definition listed_commit : state Commit.t :=
  snd (@Commit.get_changed_files (example_env one_added_file)
         (mkState example_commit [])).

(** A commit as [get_parents()] makes it, with its id as bytes. *)
Definition parent_commit : Commit.t :=
  Commit.__init__ (PBytes (lit "1111111111111111111111111111111111111111")).

(** A remote listing with a push line and a line that is not UTF-8. *)
Definition remotes_with_bad_line : bytes :=
  lit "origin" ++ [9%N] ++ lit "https://example.com/team/hooks.git (push)"
  ++ [10%N] ++ lit "backup" ++ [9%N; 255%N] ++ lit " (fetch)" ++ [10%N].

(** A regular file whose content is the shebang marker and a newline, held
    in the cache. *)
Definition bare_marker_file : CommittedFile.t :=
  CommittedFile.mk (lit "run.sh")
    (Some {| ref_commit_id :=
               PStr (lit "8a1f3c5e7b9d0f2a4c6e8b0d2f4a6c8e0b1d3f5a") |})
    (Some (lit "100755")) (Some (lit "#!" ++ [10%N]))
    (PStr (lit "e69de29")) false None.

(** The components that [normpath] has collected: [..] components, all of
    them at the front and none under a root, then components that are not
    [..]. *)
Definition climbs_first (initial_slashes : nat) (comps : list str) : Prop :=
  exists k names,
    comps = repeat (lit "..") k ++ names /\ ~ In (lit "..") names /\
    (initial_slashes <> 0 -> k = 0).

(** A symbolic link in a directory, with its content held in the cache. *)
Definition link_file : CommittedFile.t :=
  CommittedFile.mk (lit "docs/latest")
    (Some {| ref_commit_id :=
               PStr (lit "8a1f3c5e7b9d0f2a4c6e8b0d2f4a6c8e0b1d3f5a") |})
    (Some (lit "120000")) (Some (lit "../releases/./v2/../v3"))
    (PStr (lit "e69de29")) false None.

(** An environment in which every command fails. *)
Definition failing_env : Env := {|
  git_exe_path := PStr (lit "/usr/bin/git");
  decode_str := utf8.decode;
  check_output := fun _ _ => Raise (CalledProcessError 128);
  str_decimal := digit_of
|}.

(** What every step of the two loops of [_fetch_content] keeps, whether it
    returns or raises: the log, the flag, and the two lists once they are
    assigned. *)
Definition fetch_frame (s s1 : state Commit.t) : Prop :=
  calls s1 = calls s /\
  Commit.content_fetched (self s1) = Commit.content_fetched (self s) /\
  (Commit._parents (self s) <> None -> Commit._parents (self s1) <> None) /\
  (Commit._message_lines (self s) <> None ->
   Commit._message_lines (self s1) <> None).

(** * Properties *)

Unset Implicit Arguments.

(** ** Equality of text and values *)

Lemma eqb_seq_eq (a b : list N) : eqb_seq a b = true <-> a = b.
Proof.
  revert b; induction a as [|x a IH]; intros [|y b]; simpl;
    try (split; [discriminate | discriminate]); try tauto.
  rewrite andb_true_iff, N.eqb_eq, IH.
  split; [intros [-> ->]; reflexivity | intros [= -> ->]; auto].
Qed.

Lemma eqb_seq_refl (a : list N) : eqb_seq a a = true.
Proof. apply eqb_seq_eq; reflexivity. Qed.

Lemma eqb_seq_neq (a b : list N) : a <> b -> eqb_seq a b = false.
Proof.
  intros Hne; destruct (eqb_seq a b) eqn:E; [|reflexivity].
  apply eqb_seq_eq in E; contradiction.
Qed.

Lemma eqb_val_eq (a b : pyval) : eqb_val a b = true <-> a = b.
Proof.
  destruct a, b; simpl; try (split; [discriminate | discriminate]);
    try tauto; rewrite eqb_seq_eq; split; congruence.
Qed.

Lemma commit_eq_eq (a b : option CommitRef) :
  CommittedFile.commit_eq a b = true <-> a = b.
Proof.
  destruct a as [[x]|], b as [[y]|]; simpl;
    try (split; [discriminate | discriminate]); try tauto.
  rewrite eqb_val_eq; split; congruence.
Qed.

(** ** Equality of committed files *)

(** C9: two committed files are equal exactly when their paths are equal and
    their commits are equal, and two commits are equal exactly when their
    commit ids are; mode, object id and content play no role, so two files
    of one path and one commit are equal whatever their modes, object ids,
    contents and cached projects. *)
Theorem CommittedFile_eq_by_path_and_commit :
  (forall f1 f2 : CommittedFile.t,
      CommittedFile.__eq__ f1 (Some f2) = true <->
      CommittedFile.path f1 = CommittedFile.path f2 /\
      CommittedFile.commit f1 = CommittedFile.commit f2) /\
  (forall c1 c2 : Commit.t,
      (Commit.__eq__ c1 (Some c2) = true <->
       Commit.commit_id c1 = Commit.commit_id c2) /\
      CommittedFile.commit_eq (Some (Commit.ref c1)) (Some (Commit.ref c2))
      = Commit.__eq__ c1 (Some c2)) /\
  (forall path commit mode1 mode2 content1 content2 id1 id2 pf1 pf2 pr1 pr2,
      CommittedFile.__eq__
        (CommittedFile.mk path commit mode1 content1 id1 pf1 pr1)
        (Some (CommittedFile.mk path commit mode2 content2 id2 pf2 pr2))
      = true).
Proof.
  split; [|split].
  - intros f1 f2; unfold CommittedFile.__eq__.
    rewrite andb_true_iff, eqb_seq_eq, commit_eq_eq; tauto.
  - intros c1 c2; split; [|reflexivity].
    unfold Commit.__eq__; apply eqb_val_eq.
  - intros; unfold CommittedFile.__eq__; simpl.
    rewrite eqb_seq_refl; simpl.
    apply commit_eq_eq; reflexivity.
Qed.

(** ** Files without a mode *)

Section Unset_mode.
Context `{Env}.

Lemma get_symlink_target_mode (st st' : state CommittedFile.t)
  (target : CommittedFile.t) :
  CommittedFile.get_symlink_target st = (Ok (Some target), st') ->
  CommittedFile.mode target = None /\
  CommittedFile.object_id target = PNone /\
  CommittedFile.commit target = CommittedFile.commit (self st').
Proof.
  unfold CommittedFile.get_symlink_target, bind, lift, ret, get_self.
  destruct (CommittedFile.get_content st) as [[content|e] s1]; [|discriminate].
  destruct (posixpath.isabs content); [discriminate|].
  destruct (decode_str content) as [d|e]; [|discriminate].
  destruct (startswith _ _); [discriminate|].
  simpl. intros [= <- <-]; auto.
Qed.

(** C10: on a committed file whose mode is unset, [regular()], [symlink()],
    [owner_can_execute()] and [get_shebang()] raise (a type error, from
    subscripting [None]) instead of answering, and [get_shebang()] does so
    before any command is run; the file that [get_symlink_target()] builds
    is such a file. *)
Theorem unset_mode_is_dereferenced (f : CommittedFile.t) :
  CommittedFile.mode f = None ->
  CommittedFile.regular f = Raise TypeError /\
  CommittedFile.symlink f = Raise TypeError /\
  CommittedFile.owner_can_execute f = Raise TypeError /\
  (forall log,
      CommittedFile.get_shebang (mkState f log)
      = (Raise TypeError, mkState f log)) /\
  (forall st st' target,
      CommittedFile.get_symlink_target st = (Ok (Some target), st') ->
      CommittedFile.mode target = None).
Proof.
  intros Hmode.
  unfold CommittedFile.regular, CommittedFile.symlink,
    CommittedFile.owner_can_execute, CommittedFile.get_shebang.
  rewrite Hmode; repeat split; auto.
  - intros log. unfold bind, get_self, lift; simpl.
    unfold CommittedFile.regular; rewrite Hmode; reflexivity.
  - intros st st' target Ht.
    apply (get_symlink_target_mode st st' target Ht).
Qed.

End Unset_mode.

Lemma unset_mode_is_dereferenced_witness :
  CommittedFile.mode
    (CommittedFile.mk (lit "docs/readme") None None None PNone false None)
  = None /\
  CommittedFile.regular
    (CommittedFile.mk (lit "docs/readme") None None None PNone false None)
  = Raise TypeError.
Proof.
  split; [reflexivity|].
  apply (@unset_mode_is_dereferenced (example_env [])
           (CommittedFile.mk (lit "docs/readme") None None None PNone false
              None)).
  reflexivity.
Defined.

(** ** Searching and cutting text at a character *)

Lemma startswith_char (c : N) (s : list N) :
  startswith [c] s = true <-> exists r, s = c :: r.
Proof.
  destruct s as [|x s]; simpl.
  - split; [discriminate | intros [r Hr]; discriminate].
  - rewrite andb_true_r, N.eqb_eq.
    split; [intros ->; eauto | intros [r [= -> _]]; reflexivity].
Qed.

Lemma find_char_cons (c x : N) (s : list N) :
  find [c] (x :: s) = if (c =? x)%N then Some 0 else option_map S (find [c] s).
Proof. simpl. rewrite andb_true_r. reflexivity. Qed.

Lemma find_char_nil (c : N) : find [c] [] = None.
Proof. reflexivity. Qed.

Lemma find_char_Some (c : N) (s : list N) (i : nat) :
  find [c] s = Some i ->
  exists t r, s = t ++ c :: r /\ ~ In c t /\ length t = i.
Proof.
  revert i; induction s as [|x s IH]; intros i.
  - rewrite find_char_nil; discriminate.
  - rewrite find_char_cons. destruct (N.eqb_spec c x) as [->|Hne].
    + intros [= <-]. exists [], s; auto.
    + destruct (find [c] s) as [j|]; [|discriminate].
      intros [= <-]. destruct (IH j eq_refl) as (t & r & -> & Hnot & Hlen).
      exists (x :: t), r; simpl; repeat split; auto.
      intros [Heq|Hin]; [congruence | contradiction].
Qed.

Lemma find_char_app (c : N) (t r : list N) :
  ~ In c t -> find [c] (t ++ c :: r) = Some (length t).
Proof.
  induction t as [|x t IH]; intros Hnot.
  - simpl app. rewrite find_char_cons, N.eqb_refl. reflexivity.
  - simpl app. rewrite find_char_cons.
    destruct (N.eqb_spec c x) as [->|_]; [exfalso; apply Hnot; left; auto|].
    rewrite IH; [reflexivity | intros Hin; apply Hnot; right; auto].
Qed.

Lemma find_char_None (c : N) (s : list N) :
  find [c] s = None <-> ~ In c s.
Proof.
  induction s as [|x s IH].
  - rewrite find_char_nil; simpl; tauto.
  - rewrite find_char_cons. destruct (N.eqb_spec c x) as [->|Hne].
    + split; [discriminate | intros Hn; exfalso; apply Hn; left; auto].
    + destruct (find [c] s) as [j|]; simpl.
      * split; [discriminate|]. intros Hn; exfalso.
        destruct IH as [_ IH]. 
        assert (Hs : ~ In c s) by (intros Hin; apply Hn; right; auto).
        specialize (IH Hs); discriminate.
      * split; auto. intros _ [Heq|Hin]; [congruence|].
        destruct IH as [IH _]; apply (IH eq_refl Hin).
Qed.

Lemma contains_char (c : N) (s : list N) :
  contains [c] s = true <-> In c s.
Proof.
  unfold contains. destruct (find [c] s) as [i|] eqn:E.
  - split; auto. intros _.
    destruct (find_char_Some _ _ _ E) as (t & r & -> & _).
    apply in_or_app; right; left; reflexivity.
  - apply find_char_None in E. split; [discriminate | contradiction].
Qed.

Lemma firstn_prefix {A} (t r : list A) : firstn (length t) (t ++ r) = t.
Proof. induction t; simpl; congruence. Qed.

Lemma skipn_prefix {A} (t r : list A) : skipn (length t) (t ++ r) = r.
Proof. induction t; simpl; congruence. Qed.

Lemma skipn_past {A} (t r : list A) (c : A) :
  skipn (S (length t)) (t ++ c :: r) = r.
Proof. induction t; simpl; auto. Qed.

(** The two slices of [parse_tags] on a text that opens with a tag. *)
Lemma tag_slice (t r : list N) (x c : N) :
  firstn (S (length t) - 1) (skipn 1 (x :: t ++ c :: r)) = t.
Proof. simpl. rewrite Nat.sub_0_r. apply firstn_prefix. Qed.

Lemma rest_slice (t r : list N) (x c : N) :
  skipn (S (length t) + 1) (x :: t ++ c :: r) = r.
Proof. rewrite Nat.add_1_r. exact (skipn_past t r c). Qed.

(** ** Tags of the summary *)

Lemma bracketed_cons (tag : str) (tags : list str) :
  bracketed (tag :: tags) = 91%N :: tag ++ 93%N :: bracketed tags.
Proof.
  unfold bracketed; simpl. rewrite <- app_assoc. reflexivity.
Qed.

(** What the loop has found when it stops, given fuel for the whole text. *)
Lemma parse_tags_loop_sound (fuel : nat) :
  forall tags rest, length rest <= fuel ->
    exists new rest',
      Commit.parse_tags_loop fuel tags rest = (tags ++ new, rest') /\
      rest = bracketed new ++ rest' /\
      Forall (fun tag => ~ In 93%N tag) new /\
      startswith (lit "[") rest' && contains (lit "]") rest' = false.
Proof.
  change (lit "[") with [91%N]; change (lit "]") with [93%N].
  induction fuel as [|fuel IH]; intros tags rest Hlen.
  - destruct rest; [|simpl in Hlen; lia].
    exists [], []; simpl; rewrite app_nil_r; auto.
  - cbn [Commit.parse_tags_loop].
    change (lit "[") with [91%N]; change (lit "]") with [93%N].
    destruct (startswith [91%N] rest && contains [93%N] rest) eqn:Hcond.
    + apply andb_true_iff in Hcond as [Hopen Hclose].
      apply startswith_char in Hopen as [r ->].
      unfold contains in Hclose.
      destruct (find [93%N] (91%N :: r)) as [e|] eqn:Hfind; [|discriminate].
      destruct (find_char_Some _ _ _ Hfind) as (t & r' & Heq & Hnot & Hlen').
      destruct t as [|x t]; [discriminate Heq|].
      injection Heq as <- ->. simpl in Hlen'; subst e.
      rewrite tag_slice, rest_slice.
      destruct (IH (tags ++ [t]) r') as (new & rest' & Hrun & Hsplit & Hall & Hend).
      { simpl in Hlen; rewrite length_app in Hlen; simpl in Hlen; lia. }
      exists (t :: new), rest'. rewrite Hrun, <- app_assoc.
      split; [reflexivity|]. split; [|split; auto].
      * rewrite bracketed_cons, Hsplit. simpl.
        rewrite <- app_assoc; reflexivity.
      * constructor; auto. intros Hin; apply Hnot; right; auto.
    + exists [], rest; simpl; rewrite app_nil_r; auto.
Qed.

(** The loop finds any such decomposition. *)
Lemma parse_tags_loop_complete (new : list str) :
  forall fuel tags rest',
    Forall (fun tag => ~ In 93%N tag) new ->
    startswith (lit "[") rest' && contains (lit "]") rest' = false ->
    length (bracketed new ++ rest') <= fuel ->
    Commit.parse_tags_loop fuel tags (bracketed new ++ rest')
    = (tags ++ new, rest').
Proof.
  induction new as [|t new IH]; intros fuel tags rest' Hall Hend Hlen.
  - simpl. rewrite app_nil_r.
    destruct fuel; cbn [Commit.parse_tags_loop]; [reflexivity|].
    rewrite Hend; reflexivity.
  - rewrite bracketed_cons in *. inversion Hall as [|? ? Ht Hnew]; subst.
    destruct fuel as [|fuel]; [simpl in Hlen; lia|].
    cbn [Commit.parse_tags_loop].
    change (lit "[") with [91%N]; change (lit "]") with [93%N].
    assert (Hshape : (91%N :: t ++ 93%N :: bracketed new) ++ rest'
                     = 91%N :: t ++ 93%N :: (bracketed new ++ rest'))
      by (simpl; rewrite <- app_assoc; reflexivity).
    rewrite Hshape in *.
    assert (Hfind : find [93%N] (91%N :: t ++ 93%N :: (bracketed new ++ rest'))
                    = Some (S (length t))).
    { apply (find_char_app 93%N (91%N :: t)).
      intros [Heq|Hin]; [discriminate | contradiction]. }
    unfold contains; rewrite Hfind.
    replace (startswith [91%N] (91%N :: t ++ 93%N :: (bracketed new ++ rest')))
      with true by reflexivity.
    simpl andb; cbv iota.
    rewrite tag_slice, rest_slice.
    replace (tags ++ t :: new) with ((tags ++ [t]) ++ new)
      by (rewrite <- app_assoc; reflexivity).
    apply IH; auto.
    simpl in Hlen. rewrite length_app in Hlen; simpl in Hlen. lia.
Qed.

(** C5: [parse_tags] cuts bracketed prefixes off the summary for as long as
    what is left starts with an opening bracket and contains a closing one:
    its result is the one way to read the summary as tags in brackets, none
    with a closing bracket inside, followed by a remainder on which that
    condition fails.  The summary "[WIP][HOTFIX] fix thing" gives the tags
    WIP and HOTFIX and the remainder " fix thing"; "fix thing" gives no tag
    and itself. *)
Theorem parse_tags_strips_bracketed_prefixes :
  (forall summary tags rest,
      Commit.parse_tags_of summary = (tags, rest) <->
      summary = bracketed tags ++ rest /\
      Forall (fun tag => ~ In 93%N tag) tags /\
      startswith (lit "[") rest && contains (lit "]") rest = false) /\
  (forall (E : Env) st summary st',
      Commit.get_summary st = (Ok summary, st') ->
      Commit.parse_tags st = (Ok (Commit.parse_tags_of summary), st')) /\
  Commit.parse_tags_of (lit "[WIP][HOTFIX] fix thing")
  = ([lit "WIP"; lit "HOTFIX"], lit " fix thing") /\
  Commit.parse_tags_of (lit "fix thing") = ([], lit "fix thing").
Proof.
  split; [|split; [|split; reflexivity]].
  - intros summary tags rest. unfold Commit.parse_tags_of. split.
    + intros Hrun.
      destruct (parse_tags_loop_sound (length summary) [] summary
                  (le_n _)) as (new & rest' & Hrun' & Hsplit & Hall & Hend).
      rewrite Hrun in Hrun'. simpl in Hrun'. injection Hrun' as -> ->. auto.
    + intros (-> & Hall & Hend).
      apply (parse_tags_loop_complete tags (length (bracketed tags ++ rest))
               [] rest); auto.
  - intros E st summary st' Hsum.
    unfold Commit.parse_tags, bind. rewrite Hsum. reflexivity.
Qed.

(** ** Splitting at a separator character *)

Lemma split_char_nonempty (c : N) (s : list N) : split_char c s <> [].
Proof.
  destruct s as [|x s]; simpl; [discriminate|].
  destruct (x =? c)%N; [discriminate|].
  destruct (split_char c s); discriminate.
Qed.

Lemma split_char_free (c : N) (p : list N) :
  ~ In c p -> split_char c p = [p].
Proof.
  induction p as [|x p IH]; intros Hnot; simpl; [reflexivity|].
  destruct (N.eqb_spec x c) as [->|_]; [exfalso; apply Hnot; left; auto|].
  rewrite IH; [reflexivity | intros Hin; apply Hnot; right; auto].
Qed.

Lemma split_char_app (c : N) (p s : list N) :
  ~ In c p -> split_char c (p ++ c :: s) = p :: split_char c s.
Proof.
  induction p as [|x p IH]; intros Hnot; simpl.
  - rewrite N.eqb_refl; reflexivity.
  - destruct (N.eqb_spec x c) as [->|_]; [exfalso; apply Hnot; left; auto|].
    rewrite IH; [reflexivity | intros Hin; apply Hnot; right; auto].
Qed.

Lemma split_char_parts (c : N) (s : list N) :
  Py.join [c] (split_char c s) = s /\
  Forall (fun p => ~ In c p) (split_char c s).
Proof.
  induction s as [|x s [IHj IHf]]; simpl.
  - split; [reflexivity | constructor; auto].
  - destruct (N.eqb_spec x c) as [->|Hne].
    + pose proof (split_char_nonempty c s) as Hne.
      destruct (split_char c s) as [|h t] eqn:E; [contradiction|].
      split; [simpl; rewrite <- IHj; reflexivity | constructor; auto].
    + pose proof (split_char_nonempty c s) as Hnil.
      destruct (split_char c s) as [|h t] eqn:E; [contradiction|].
      inversion IHf as [|? ? Hh Ht]; subst. split.
      * destruct t; reflexivity.
      * constructor; auto. intros [Heq|Hin]; [congruence | contradiction].
Qed.

Lemma split_char_join (c : N) (parts : list (list N)) :
  parts <> [] -> Forall (fun p => ~ In c p) parts ->
  split_char c (Py.join [c] parts) = parts.
Proof.
  induction parts as [|p rest IH]; intros Hne Hall; [contradiction|].
  inversion Hall as [|? ? Hp Hrest]; subst.
  destruct rest as [|q rest].
  - simpl. apply split_char_free; assumption.
  - change (Py.join [c] (p :: q :: rest))
      with (p ++ c :: Py.join [c] (q :: rest)).
    rewrite split_char_app by assumption.
    rewrite IH; [reflexivity | discriminate | assumption].
Qed.

(** A text splits into exactly these three fields when it is the three,
    free of the separator, with one separator between each two. *)
Lemma split_char_three (c : N) (s a b p : list N) :
  split_char c s = [a; b; p] <->
  s = a ++ c :: b ++ c :: p /\ ~ In c a /\ ~ In c b /\ ~ In c p.
Proof.
  split.
  - intros Hs. destruct (split_char_parts c s) as [Hj Hf].
    rewrite Hs in Hj, Hf. simpl in Hj.
    inversion Hf as [|? ? Ha Hf']; subst.
    inversion Hf' as [|? ? Hb Hf'']; subst.
    inversion Hf'' as [|? ? Hp _]; subst. auto.
  - intros (-> & Ha & Hb & Hp).
    rewrite !split_char_app, split_char_free by assumption. reflexivity.
Qed.

(** ** Binary files of a commit *)

Lemma binary_path_of_line (line p : str) :
  In p (binary_path_of line) <->
  split_char 9 line = [lit "-"; lit "-"; p].
Proof.
  unfold binary_path_of.
  destruct (split_char 9 line) as [|a [|b [|q [|? ?]]]];
    try (split; [intros [] | discriminate]).
  destruct (eqb_seq (lit "-") a) eqn:Ea; cbn [andb In].
  - apply eqb_seq_eq in Ea; subst a.
    destruct (eqb_seq (lit "-") b) eqn:Eb; cbn [andb In].
    + apply eqb_seq_eq in Eb; subst b.
      split; [intros [<-|[]]; reflexivity | intros [= <-]; left; reflexivity].
    + split; [intros [] | intros [= Hb _]].
      rewrite <- Hb, eqb_seq_refl in Eb; discriminate.
  - split; [intros [] | intros [= Ha _ _]].
    rewrite <- Ha, eqb_seq_refl in Ea; discriminate.
Qed.

Lemma binary_files_loop_cons (found : list str) (line : str)
  (lines : list str) :
  Commit.binary_files_loop found (line :: lines)
  = Commit.binary_files_loop (found ++ binary_path_of line) lines.
Proof.
  cbn [Commit.binary_files_loop]. unfold binary_path_of. f_equal.
  destruct (split_char 9 line) as [|a [|b [|q [|? ?]]]];
    cbn [length Nat.eqb]; rewrite ?app_nil_r; try reflexivity.
  destruct (eqb_seq (lit "-") a && eqb_seq (lit "-") b);
    rewrite ?app_nil_r; reflexivity.
Qed.

(** The loop appends what each line contributes, in the order of the
    lines. *)
Lemma binary_files_loop_lines (lines : list str) :
  forall found,
    Commit.binary_files_loop found lines
    = found ++ flat_map binary_path_of lines.
Proof.
  induction lines as [|line lines IH]; intros found.
  - simpl. rewrite app_nil_r; reflexivity.
  - rewrite binary_files_loop_cons, IH, <- app_assoc. reflexivity.
Qed.

(** C8: [get_binary_files()] gives, in the order of the lines of the
    numstat output, what each line contributes, and a line contributes its
    path exactly when it has three tab-separated fields of which the first
    two, the counts of added and removed lines, are both "-", the third
    being the path; so a path is in the result exactly when such a line
    names it.  The line "-<TAB>-<TAB>image.png" contributes image.png and
    the line "3<TAB>1<TAB>code.py" contributes nothing. *)
Theorem get_binary_files_dash_dash :
  (forall (E : Env) (self : Commit.t) log out output,
      Commit.binary_files self = None ->
      check_output log (Commit.numstat_command self) = Ok out ->
      decode_str out = Ok output ->
      exists files st',
        Commit.get_binary_files (mkState self log) = (Ok files, st') /\
        files = flat_map binary_path_of (splitlines islinebreak_str output) /\
        forall p,
          In p files <->
          exists line,
            In line (splitlines islinebreak_str output) /\
            line = lit "-" ++ 9%N :: lit "-" ++ 9%N :: p /\ ~ In 9%N p) /\
  (forall line p,
      In p (binary_path_of line) <->
      line = lit "-" ++ 9%N :: lit "-" ++ 9%N :: p /\ ~ In 9%N p) /\
  (forall line,
      binary_path_of line = [] \/ exists p, binary_path_of line = [p]) /\
  Commit.binary_files_loop []
    [lit "-" ++ 9%N :: lit "-" ++ 9%N :: lit "image.png"]
  = [lit "image.png"] /\
  Commit.binary_files_loop []
    [lit "3" ++ 9%N :: lit "1" ++ 9%N :: lit "code.py"]
  = [].
Proof.
  assert (Hline : forall line p,
             In p (binary_path_of line) <->
             line = lit "-" ++ 9%N :: lit "-" ++ 9%N :: p /\ ~ In 9%N p).
  { intros line p. rewrite binary_path_of_line, split_char_three. split.
    - intros (-> & _ & _ & Hp). auto.
    - intros (-> & Hp). repeat split; auto; intros [Heq|[]]; discriminate. }
  split; [|split; [exact Hline | split; [|split; reflexivity]]].
  - intros E self log out output Hcache Hrun Hdec.
    unfold Commit.get_binary_files. method.
    rewrite Hcache. method. rewrite Hrun, Hdec.
    eexists; eexists; split; [reflexivity|].
    rewrite binary_files_loop_lines. cbn [app]. split; [reflexivity|].
    intros p. rewrite in_flat_map. split.
    + intros (line & Hin & Hp). exists line. split; [exact Hin|].
      apply Hline; exact Hp.
    + intros (line & Hin & Hp). exists line. split; [exact Hin|].
      apply Hline; exact Hp.
  - intros line. unfold binary_path_of.
    destruct (split_char 9 line) as [|a [|b [|q [|? ?]]]]; auto.
    destruct (eqb_seq (lit "-") a && eqb_seq (lit "-") b); eauto.
Qed.

Lemma get_binary_files_dash_dash_witness :
  exists st',
    @Commit.get_binary_files (example_env numstat_of_two)
      (mkState example_commit [])
    = (Ok [lit "image.png"], st').
Proof.
  destruct (proj1 get_binary_files_dash_dash (example_env numstat_of_two)
              example_commit [] numstat_of_two
              (lit "8a1f3c5e7b9d0f2a4c6e8b0d2f4a6c8e0b1d3f5a -M100%"
               ++ [10%N]
               ++ lit "-" ++ [9%N] ++ lit "-" ++ [9%N] ++ lit "image.png"
               ++ [10%N]
               ++ lit "3" ++ [9%N] ++ lit "1" ++ [9%N] ++ lit "code.py"
               ++ [10%N])
              eq_refl eq_refl eq_refl)
    as (files & st' & Hcall & Hfiles & _).
  exists st'. rewrite Hcall, Hfiles. reflexivity.
Defined.

(** ** Splitting at whitespace *)

Lemma dropwhile_token (sp : N -> bool) (c : N) (s : list N) :
  sp c = false -> dropwhile sp (c :: s) = c :: s.
Proof. intros Hc; simpl; rewrite Hc; reflexivity. Qed.

Lemma span_token (sp : N -> bool) (tok rest : list N) (c : N) :
  Forall (fun x => sp x = false) tok -> sp c = true ->
  span (fun x => negb (sp x)) (tok ++ c :: rest) = (tok, c :: rest).
Proof.
  intros Htok Hc. induction Htok as [|x tok Hx _ IH]; simpl.
  - rewrite Hc; reflexivity.
  - rewrite Hx; simpl. rewrite IH; reflexivity.
Qed.

Lemma split_ws_skip (sp : N -> bool) (n : nat) (c : N) (s : list N) :
  sp c = true -> split_ws sp n (c :: s) = split_ws sp n s.
Proof. intros Hc; destruct n; simpl; rewrite Hc; reflexivity. Qed.

(** A field that is followed by whitespace is cut off as it is. *)
Lemma split_ws_token (sp : N -> bool) (n : nat) (tok rest : list N) (c : N) :
  tok <> [] -> Forall (fun x => sp x = false) tok -> sp c = true ->
  split_ws sp (S n) (tok ++ c :: rest) = tok :: split_ws sp n rest.
Proof.
  intros Hne Htok Hc. destruct tok as [|x tok]; [contradiction|].
  cbn [split_ws]. change ((x :: tok) ++ c :: rest) with (x :: tok ++ c :: rest).
  inversion Htok as [|? ? Hx Htok']; subst.
  rewrite dropwhile_token by assumption.
  change (x :: tok ++ c :: rest) with ((x :: tok) ++ c :: rest).
  rewrite span_token by assumption.
  rewrite split_ws_skip by assumption. reflexivity.
Qed.

(** What is left when the fields are cut off is the last field, from its
    first character that is not whitespace. *)
Lemma split_ws_last (sp : N -> bool) (c : N) (s : list N) :
  sp c = false -> split_ws sp 0 (c :: s) = [c :: s].
Proof. intros Hc; simpl; rewrite Hc; reflexivity. Qed.

(** ** Changed files of a commit *)

Lemma raw_line_fields (r : diff_record) :
  well_formed r ->
  split_ws isspace_str 5 (raw_line r)
  = [lit ":" ++ old_mode r; new_mode r; old_id r; new_id r; status r]
    ++ match path_read r with
       | [] => []
       | p => [p]
       end.
Proof.
  intros (Hom & [Hnm1 Hnm2] & _ & [Hoi1 Hoi2] & [Hni1 Hni2] & [Hst1 Hst2]).
  unfold raw_line, path_read. change (lit " ") with [32%N].
  rewrite (app_assoc (lit ":")). simpl app.
  change (58%N :: old_mode r ++ 32%N :: new_mode r ++ 32%N :: old_id r
          ++ 32%N :: new_id r ++ 32%N :: status r ++ 9%N :: rec_path r)
    with ((58%N :: old_mode r) ++ 32%N :: new_mode r ++ 32%N :: old_id r
          ++ 32%N :: new_id r ++ 32%N :: status r ++ 9%N :: rec_path r).
  rewrite split_ws_token; [|discriminate|constructor; auto|reflexivity].
  rewrite !split_ws_token by (auto; reflexivity).
  cbn [split_ws]. destruct (dropwhile isspace_str (rec_path r)); reflexivity.
Qed.

(** The loop over the lines: either every line has the six fields and
    yields its file, or the loop stops at an assertion. *)
Lemma changed_files_loop_lines (owner : CommitRef) (lines : list str) :
  forall found,
    (exists files,
        Commit.changed_files_loop owner found lines = Ok (found ++ files) /\
        Forall2 (parsed_as owner) lines files) \/
    (Commit.changed_files_loop owner found lines = Raise AssertionError /\
     Exists (fun line => forall f, ~ parsed_as owner line f) lines).
Proof.
  induction lines as [|line lines IH]; intros found.
  - left. exists []. simpl. rewrite app_nil_r. auto.
  - cbn [Commit.changed_files_loop].
    destruct (split_ws isspace_str 5 line)
      as [|f0 [|f1 [|f2 [|f3 [|f4 [|f5 [|f6 more]]]]]]] eqn:Hsplit;
      try (right; split; [reflexivity|]; left;
           intros f (a0 & a1 & a2 & a3 & a4 & a5 & Heq & _); congruence).
    cbn [length Nat.eqb assert rbind item nth_error].
    destruct (startswith (lit ":") f0) eqn:Hcolon; cbn [assert rbind].
    + unfold CommittedFile.__init__.
      destruct (Nat.eqb (length f1) 6) eqn:Hmode; cbn [assert rbind].
      * apply Nat.eqb_eq in Hmode.
        destruct (IH (found ++
                        [CommittedFile.mk f5 (Some owner) (Some f1) None
                           (PStr f3) false None]))
          as [(files & Hrun & Hall)|(Hrun & Hbad)].
        -- left. eexists (_ :: files). rewrite Hrun, <- app_assoc.
           split; [reflexivity|]. constructor; [|assumption].
           exists f0, f1, f2, f3, f4, f5; rewrite Hsplit; auto.
        -- right. split; [assumption | right; assumption].
      * right. split; [reflexivity|]. left.
        intros f (a0 & a1 & a2 & a3 & a4 & a5 & Heq & _ & Hlen & _).
        rewrite Hsplit in Heq. injection Heq as <- <- <- <- <- <-.
        rewrite Hlen in Hmode; discriminate.
    + right. split; [reflexivity|]. left.
      intros f (a0 & a1 & a2 & a3 & a4 & a5 & Heq & Hc & _).
      rewrite Hsplit in Heq. injection Heq as <- <- <- <- <- <-.
      rewrite Hc in Hcolon; discriminate.
Qed.

(** Every line of the diff output that [get_changed_files] parses splits
    into exactly six whitespace-delimited fields of which the first starts
    with a colon, and yields the file of the sixth field as path, the second
    as mode and the fourth as object id, at this commit; on a line of
    another shape the call stops at an assertion. *)
Lemma get_changed_files_shape `{Env} (self : Commit.t) (log : list argv)
  (out : bytes) (output : str) :
  Commit.changed_files self = None ->
  check_output log (Commit.diff_tree_command self) = Ok out ->
  decode_str out = Ok output ->
  (exists files st',
      Commit.get_changed_files (mkState self log) = (Ok files, st') /\
      Forall2 (parsed_as (Commit.ref self))
              (splitlines islinebreak_str output) files) \/
  (exists st',
      Commit.get_changed_files (mkState self log)
      = (Raise AssertionError, st') /\
      Exists (fun line => forall f, ~ parsed_as (Commit.ref self) line f)
             (splitlines islinebreak_str output)).
Proof.
  intros Hcache Hrun Hdec.
  unfold Commit.get_changed_files, bind, get_self, run, lift, update, ret.
  simpl. rewrite Hcache. simpl. rewrite Hrun, Hdec.
  destruct (changed_files_loop_lines (Commit.ref self)
              (splitlines islinebreak_str output) [])
    as [(files & Hloop & Hall)|(Hloop & Hbad)]; rewrite Hloop.
  - left. eexists; eexists; split; [reflexivity | exact Hall].
  - right. eexists; split; [reflexivity | exact Hbad].
Qed.

(** A record of the raw diff format: the file has the new mode and the new
    object id of the record, at the owning commit, and as its path the path
    of the record from its first character that is not whitespace; when the
    path is whitespace only, the assertion on the number of fields fails. *)
Lemma changed_files_loop_record (owner : CommitRef) (r : diff_record) :
  well_formed r ->
  Commit.changed_files_loop owner [] [raw_line r]
  = match path_read r with
    | [] => Raise AssertionError
    | p => Ok [CommittedFile.mk p (Some owner) (Some (new_mode r)) None
                 (PStr (new_id r)) false None]
    end.
Proof.
  intros Hwf. cbn [Commit.changed_files_loop].
  rewrite (raw_line_fields r Hwf).
  destruct Hwf as (_ & _ & Hlen & _).
  destruct (path_read r) as [|c p]; [reflexivity|].
  cbn [app length Nat.eqb assert rbind item nth_error].
  replace (startswith (lit ":") (lit ":" ++ old_mode r)) with true
    by reflexivity.
  cbn [assert rbind]. unfold CommittedFile.__init__.
  rewrite Hlen. reflexivity.
Qed.

(** ... so the file carries the path of the record when that begins with a
    character that is not whitespace. *)
Lemma changed_files_loop_plain_path (owner : CommitRef) (r : diff_record)
  (c : N) (p : str) :
  well_formed r -> rec_path r = c :: p -> isspace_str c = false ->
  Commit.changed_files_loop owner [] [raw_line r]
  = Ok [CommittedFile.mk (rec_path r) (Some owner) (Some (new_mode r)) None
          (PStr (new_id r)) false None].
Proof.
  intros Hwf Hpath Hc. rewrite (changed_files_loop_record owner r Hwf).
  unfold path_read. rewrite Hpath, (dropwhile_token _ c p Hc). reflexivity.
Qed.

Lemma added_readme_well_formed : well_formed added_readme.
Proof.
  unfold well_formed, token.
  repeat split; try discriminate; repeat constructor.
Defined.

Lemma changed_files_loop_added_readme :
  Commit.changed_files_loop (Commit.ref example_commit) []
    [raw_line added_readme]
  = Ok [example_file "8a1f3c5e7b9d0f2a4c6e8b0d2f4a6c8e0b1d3f5a" "README"
          "100644" "e69de29"].
Proof.
  exact (changed_files_loop_plain_path (Commit.ref example_commit)
           added_readme 82%N (lit "EADME") added_readme_well_formed
           eq_refl eq_refl).
Qed.

Lemma spaced_notes_well_formed : well_formed spaced_notes.
Proof.
  unfold well_formed, token.
  repeat split; try discriminate; repeat constructor.
Qed.

(** C1: the file that [get_changed_files] builds from a record does not
    always carry the path of the record.  The line is split at runs of
    whitespace, so whitespace at the start of the path is lost with the
    tab before it: for every record whose path begins with whitespace the
    file has another path than the record, or the call stops at the
    assertion on the number of fields.  For the record of an added file
    named [ notes.txt] the file has the path [notes.txt]; for the record of
    an added file named with one space the call raises an assertion
    error. *)
Theorem get_changed_files_path_after_space :
  (forall owner r c p,
      well_formed r -> rec_path r = c :: p -> isspace_str c = true ->
      forall files,
        Commit.changed_files_loop owner [] [raw_line r] = Ok files ->
        exists f, files = [f] /\ CommittedFile.path f = path_read r /\
                  CommittedFile.path f <> rec_path r) /\
  fst (@Commit.get_changed_files (example_env (raw_line spaced_notes))
         (mkState example_commit []))
  = Ok [example_file "8a1f3c5e7b9d0f2a4c6e8b0d2f4a6c8e0b1d3f5a" "notes.txt"
          "100644" "587be6b"] /\
  fst (@Commit.get_changed_files (example_env (raw_line space_named))
         (mkState example_commit []))
  = Raise AssertionError.
Proof.
  split; [|split; vm_compute; reflexivity].
  intros owner r c p Hwf Hpath Hc files.
  rewrite (changed_files_loop_record owner r Hwf).
  destruct (path_read r) as [|x q] eqn:Hread; [discriminate|].
  intros [= <-]. eexists. split; [reflexivity|].
  cbn [CommittedFile.path]. split; [reflexivity|].
  intros Heq. rewrite <- Heq in Hpath. injection Hpath as -> ->.
  assert (Hx : isspace_str c = false).
  { unfold path_read in Hread. clear -Hread.
    induction (rec_path r) as [|y l IH]; [discriminate|].
    cbn [dropwhile] in Hread. destruct (isspace_str y) eqn:Hy.
    - exact (IH Hread).
    - injection Hread as -> _. exact Hy. }
  congruence.
Qed.

(** ** The body of a commit *)

Section Commit_body.
Context `{Env}.

Lemma startswith_first (x y : N) (p q s : list N) :
  startswith (x :: p) s = true -> startswith (y :: q) s = true -> x = y.
Proof.
  destruct s as [|c s]; simpl; [discriminate|].
  rewrite !andb_true_iff, !N.eqb_eq. intros [-> _] [-> _]. reflexivity.
Qed.

Lemma starts_other (x y : N) (p q s : list N) :
  x <> y -> startswith (x :: p) s = true -> startswith (y :: q) s = false.
Proof.
  intros Hne Hx. destruct (startswith (y :: q) s) eqn:Hy; [|reflexivity].
  exfalso; apply Hne. apply (startswith_first x y p q s Hx Hy).
Qed.

(** The loops of [_fetch_content] run no command. *)
Lemma header_line_calls (line : bytes) (s : state Commit.t) :
  calls (snd (Commit.header_line line s)) = calls s.
Proof.
  unfold Commit.header_line, bind, get_self, Commit.attribute, lift, update,
    ret, raise.
  destruct (startswith (lit "parent ") line).
  - destruct (Commit._parents (self s)); reflexivity.
  - destruct (startswith (lit "author ") line).
    + destruct (Contributor.parse _); reflexivity.
    + destruct (startswith (lit "committer ") line); [|reflexivity].
      destruct (Contributor.parse _); reflexivity.
Qed.

Lemma fetch_headers_calls (lines : list bytes) :
  forall s, calls (snd (Commit.fetch_headers lines s)) = calls s.
Proof.
  induction lines as [|line lines IH]; intros s; [reflexivity|].
  destruct line as [|c line]; [reflexivity|].
  cbn [Commit.fetch_headers]. unfold bind.
  pose proof (header_line_calls (c :: line) s) as Hstep.
  destruct (Commit.header_line (c :: line) s) as [[[]|e] s1]; simpl in Hstep.
  - rewrite IH; assumption.
  - assumption.
Qed.

Lemma message_line_calls (line : bytes) (s : state Commit.t) :
  calls (snd (Commit.message_line line s)) = calls s.
Proof.
  unfold Commit.message_line, bind, get_self, Commit.attribute, lift, update,
    ret, raise.
  destruct (decode_str line); [|reflexivity].
  destruct (Commit._message_lines (self s)); reflexivity.
Qed.

Lemma fetch_message_calls (lines : list bytes) :
  forall s, calls (snd (Commit.fetch_message lines s)) = calls s.
Proof.
  induction lines as [|line lines IH]; intros s; [reflexivity|].
  cbn [Commit.fetch_message]. unfold bind.
  pose proof (message_line_calls line s) as Hstep.
  destruct (Commit.message_line line s) as [[[]|e] s1]; simpl in Hstep.
  - rewrite IH; assumption.
  - assumption.
Qed.

(** A fetch that succeeds has run one command and set the flag. *)
Lemma _fetch_content_done (s s1 : state Commit.t) :
  Commit._fetch_content s = (Ok tt, s1) ->
  calls s1 = calls s ++ [Commit.cat_file_command (self s)] /\
  Commit.content_fetched (self s1) = true.
Proof.
  unfold Commit._fetch_content.
  unfold bind at 1. unfold get_self at 1. unfold bind at 1.
  unfold run at 1.
  destruct (check_output (calls s) (Commit.cat_file_command (self s)))
    as [content|e]; [|discriminate].
  unfold bind at 1, update at 1. unfold bind at 1, update at 1.
  cbn [self calls]. unfold bind at 1.
  match goal with
  | |- context [Commit.fetch_headers ?l ?s0] =>
      pose proof (fetch_headers_calls l s0) as Hh;
      destruct (Commit.fetch_headers l s0) as [[rest|e] s2]
  end; [|discriminate].
  unfold bind at 1.
  pose proof (fetch_message_calls rest s2) as Hm.
  destruct (Commit.fetch_message rest s2) as [[[]|e] s3]; [|discriminate].
  unfold update. intros [= <-]. simpl in *.
  rewrite Hm, Hh. auto.
Qed.

(** A header line that can be read is taken in without an exception; it
    assigns the attribute its prefix names and leaves the other alone. *)
Lemma header_line_run (line : bytes) (s : state Commit.t) :
  Commit._parents (self s) <> None ->
  header_parses line ->
  exists s1,
    Commit.header_line line s = (Ok tt, s1) /\
    Commit._parents (self s1) <> None /\
    Commit._message_lines (self s1) = Commit._message_lines (self s) /\
    (startswith (lit "author ") line = false /\
     Commit._author (self s1) = Commit._author (self s) \/
     startswith (lit "author ") line = true /\
     Commit._author (self s1) <> None) /\
    (startswith (lit "committer ") line = false /\
     Commit._committer (self s1) = Commit._committer (self s) \/
     startswith (lit "committer ") line = true /\
     Commit._committer (self s1) <> None).
Proof.
  intros Hparents [Hauthor Hcommitter].
  unfold Commit.header_line, bind, get_self, Commit.attribute, lift, update,
    ret, raise.
  destruct (startswith (lit "parent ") line) eqn:Hp.
  - destruct (Commit._parents (self s)) as [ps|]; [|contradiction].
    eexists; split; [reflexivity|]. simpl.
    split; [discriminate|]. split; [reflexivity|].
    split; left; split; try reflexivity.
    + apply (starts_other 112%N 97%N (lit "arent ") (lit "uthor ") line);
        [discriminate | exact Hp].
    + apply (starts_other 112%N 99%N (lit "arent ") (lit "ommitter ") line);
        [discriminate | exact Hp].
  - destruct (startswith (lit "author ") line) eqn:Ha.
    + destruct (Hauthor eq_refl) as [a ->].
      eexists; split; [reflexivity|]. simpl.
      split; [assumption|]. split; [reflexivity|]. split.
      * right; split; [reflexivity | discriminate].
      * left; split; [|reflexivity].
        apply (starts_other 97%N 99%N (lit "uthor ") (lit "ommitter ") line);
          [discriminate | exact Ha].
    + destruct (startswith (lit "committer ") line) eqn:Hc.
      * destruct (Hcommitter eq_refl) as [c ->].
        eexists; split; [reflexivity|]. simpl.
        split; [assumption|]. split; [reflexivity|]. split.
        -- left; split; reflexivity.
        -- right; split; [reflexivity | discriminate].
      * eexists; split; [reflexivity|].
        split; [assumption|]. split; [reflexivity|].
        split; left; split; reflexivity.
Qed.

Lemma fetch_headers_run (lines : list bytes) :
  forall s,
    Commit._parents (self s) <> None ->
    Forall header_parses (header_lines lines) ->
    exists s1,
      Commit.fetch_headers lines s = (Ok (message_part lines), s1) /\
      Commit._parents (self s1) <> None /\
      Commit._message_lines (self s1) = Commit._message_lines (self s) /\
      (Forall (fun l => startswith (lit "author ") l = false)
              (header_lines lines) /\
       Commit._author (self s1) = Commit._author (self s) \/
       Exists (fun l => startswith (lit "author ") l = true)
              (header_lines lines) /\
       Commit._author (self s1) <> None) /\
      (Forall (fun l => startswith (lit "committer ") l = false)
              (header_lines lines) /\
       Commit._committer (self s1) = Commit._committer (self s) \/
       Exists (fun l => startswith (lit "committer ") l = true)
              (header_lines lines) /\
       Commit._committer (self s1) <> None).
Proof.
  induction lines as [|line lines IH]; intros s Hparents Hall.
  - exists s. simpl. repeat split; auto.
  - destruct line as [|c line].
    + exists s. simpl. repeat split; auto.
    + cbn [header_lines message_part] in *.
      inversion Hall as [|? ? Hline Hrest]; subst.
      destruct (header_line_run (c :: line) s Hparents Hline)
        as (s1 & Hstep & Hp1 & Hm1 & Ha1 & Hc1).
      destruct (IH s1 Hp1 Hrest) as (s2 & Hloop & Hp2 & Hm2 & Ha2 & Hc2).
      exists s2. cbn [Commit.fetch_headers]. unfold bind.
      rewrite Hstep, Hloop.
      split; [reflexivity|]. split; [assumption|].
      split; [congruence|]. split.
      * destruct Ha2 as [[Hno2 Heq2]|[Hex2 Hset2]].
        -- destruct Ha1 as [[Hno1 Heq1]|[Hyes1 Hset1]].
           ++ left; split; [constructor; assumption | congruence].
           ++ right; split; [left; assumption | congruence].
        -- right; split; [right; assumption | assumption].
      * destruct Hc2 as [[Hno2 Heq2]|[Hex2 Hset2]].
        -- destruct Hc1 as [[Hno1 Heq1]|[Hyes1 Hset1]].
           ++ left; split; [constructor; assumption | congruence].
           ++ right; split; [left; assumption | congruence].
        -- right; split; [right; assumption | assumption].
Qed.

Lemma fetch_message_run (lines : list bytes) :
  forall s,
    Commit._message_lines (self s) <> None ->
    Forall (fun line => exists d, decode_str line = Ok d) lines ->
    exists s1,
      Commit.fetch_message lines s = (Ok tt, s1) /\
      Commit._message_lines (self s1) <> None /\
      Commit._parents (self s1) = Commit._parents (self s) /\
      Commit._author (self s1) = Commit._author (self s) /\
      Commit._committer (self s1) = Commit._committer (self s).
Proof.
  induction lines as [|line lines IH]; intros s Hlines Hall.
  - exists s. simpl. auto.
  - inversion Hall as [|? ? [d Hd] Hrest]; subst.
    cbn [Commit.fetch_message].
    unfold bind at 1. unfold Commit.message_line, bind, lift, get_self,
      Commit.attribute, update, ret, raise.
    rewrite Hd.
    destruct (Commit._message_lines (self s)) as [ms|] eqn:Hms;
      [|contradiction].
    match goal with
    | |- context [Commit.fetch_message lines ?s0] =>
        destruct (IH s0) as (s1 & Hloop & Hm & Hp & Ha & Hc);
        [simpl; discriminate | assumption |]
    end.
    exists s1. rewrite Hloop. simpl in *. auto.
Qed.

(** The fetch of a body that can be read succeeds, whichever headers the
    body has; an attribute whose header is missing is left as it was. *)
Lemma _fetch_content_run (self0 : Commit.t) (log : list argv)
  (content : bytes) :
  check_output log (Commit.cat_file_command self0) = Ok content ->
  body_parses content ->
  exists s1,
    Commit._fetch_content (mkState self0 log) = (Ok tt, s1) /\
    Commit._parents (self s1) <> None /\
    Commit._message_lines (self s1) <> None /\
    (lacks_header (lit "author ") content /\
     Commit._author (self s1) = Commit._author self0 \/
     ~ lacks_header (lit "author ") content /\
     Commit._author (self s1) <> None) /\
    (lacks_header (lit "committer ") content /\
     Commit._committer (self s1) = Commit._committer self0 \/
     ~ lacks_header (lit "committer ") content /\
     Commit._committer (self s1) <> None).
Proof.
  intros Hrun [Hheaders Hmessage].
  unfold Commit._fetch_content.
  unfold bind at 1. unfold get_self at 1. unfold bind at 1.
  unfold run at 1. cbn [self calls]. rewrite Hrun.
  unfold bind at 1, update at 1. unfold bind at 1, update at 1.
  cbn [self calls]. unfold bind at 1.
  match goal with
  | |- context [Commit.fetch_headers ?l ?s0] =>
      destruct (fetch_headers_run l s0) as (s2 & Hh & Hp2 & Hm2 & Ha2 & Hc2);
      [simpl; discriminate | assumption |]
  end.
  rewrite Hh. unfold bind at 1.
  destruct (fetch_message_run
              (message_part (splitlines islinebreak_bytes content)) s2)
    as (s3 & Hm & Hm3 & Hp3 & Ha3 & Hc3);
    [rewrite Hm2; simpl; discriminate | assumption |].
  rewrite Hm. unfold update. eexists; split; [reflexivity|].
  cbn [self Commit._author Commit._committer Commit._parents
         Commit._message_lines Commit.set_message_lines Commit.set_parents
         Commit.set_content_fetched] in *.
  rewrite Ha3, Hc3.
  split; [congruence|]. split; [assumption|]. unfold lacks_header. split.
  - destruct Ha2 as [[Hno Heq]|[Hex Hset]]; [left; auto|right].
    split; [|assumption]. intros Hno.
    apply Exists_exists in Hex as (l & Hin & Hl).
    rewrite Forall_forall in Hno. rewrite (Hno l Hin) in Hl; discriminate.
  - destruct Hc2 as [[Hno Heq]|[Hex Hset]]; [left; auto|right].
    split; [|assumption]. intros Hno.
    apply Exists_exists in Hex as (l & Hin & Hl).
    rewrite Forall_forall in Hno. rewrite (Hno l Hin) in Hl; discriminate.
Qed.

End Commit_body.

Section Missing_header.
Context `{Env}.

Lemma accessor_after_fetch {A} (proj : Commit.t -> option A)
  (s s1 : state Commit.t) :
  Commit.content_fetched (self s) = false ->
  Commit._fetch_content s = (Ok tt, s1) ->
  (Commit.ensure_content ;; self <- get_self ;;
   Commit.attribute (proj self)) s
  = (match proj (self s1) with
     | Some v => Ok v
     | None => Raise AttributeError
     end, s1).
Proof.
  intros Hflag Hfetch.
  unfold Commit.ensure_content. method. rewrite Hflag, Hfetch.
  unfold Commit.attribute. destruct (proj (self s1)); reflexivity.
Qed.

(** C2, as the code has it: in a commit whose body can be read but has no
    author header (or no committer header), the fetch of the body succeeds
    all the same: [get_parents()] and [get_message_lines()] return, and so
    does the accessor of a header that is there; only the accessor of the
    missing header fails, with an attribute error from reading what the
    fetch never assigned. *)
Theorem missing_header_fails_only_its_accessor (self0 : Commit.t)
  (log : list argv) (content : bytes) :
  Commit.content_fetched self0 = false ->
  Commit._author self0 = None ->
  Commit._committer self0 = None ->
  check_output log (Commit.cat_file_command self0) = Ok content ->
  body_parses content ->
  (exists ps, fst (Commit.get_parents (mkState self0 log)) = Ok ps) /\
  (exists ms, fst (Commit.get_message_lines (mkState self0 log)) = Ok ms) /\
  (lacks_header (lit "author ") content ->
   fst (Commit.get_author (mkState self0 log)) = Raise AttributeError) /\
  (~ lacks_header (lit "author ") content ->
   exists a, fst (Commit.get_author (mkState self0 log)) = Ok a) /\
  (lacks_header (lit "committer ") content ->
   fst (Commit.get_committer (mkState self0 log)) = Raise AttributeError) /\
  (~ lacks_header (lit "committer ") content ->
   exists c, fst (Commit.get_committer (mkState self0 log)) = Ok c).
Proof.
  intros Hflag Hauthor Hcommitter Hrun Hbody.
  destruct (_fetch_content_run self0 log content Hrun Hbody)
    as (s1 & Hfetch & Hp & Hm & Ha & Hc).
  unfold Commit.get_parents, Commit.get_message_lines, Commit.get_author,
    Commit.get_committer.
  rewrite !(accessor_after_fetch _ (mkState self0 log) s1 Hflag Hfetch).
  cbn [fst]. rewrite Hauthor in Ha. rewrite Hcommitter in Hc.
  repeat split.
  - destruct (Commit._parents (self s1)) as [ps|]; [eauto | contradiction].
  - destruct (Commit._message_lines (self s1)) as [ms|];
      [eauto | contradiction].
  - intros Hlacks. destruct Ha as [[_ ->]|[Hno _]];
      [reflexivity | contradiction].
  - intros Hhas. destruct Ha as [[Hlacks _]|[_ Hset]]; [contradiction|].
    destruct (Commit._author (self s1)) as [a|]; [eauto | contradiction].
  - intros Hlacks. destruct Hc as [[_ ->]|[Hno _]];
      [reflexivity | contradiction].
  - intros Hhas. destruct Hc as [[Hlacks _]|[_ Hset]]; [contradiction|].
    destruct (Commit._committer (self s1)) as [c|]; [eauto | contradiction].
Qed.

End Missing_header.

Lemma body_without_author_parses :
  @body_parses (example_env body_without_author) body_without_author.
Proof.
  split.
  - repeat constructor; try (intros Hstarts; discriminate Hstarts).
    intros _. eexists. vm_compute. reflexivity.
  - repeat constructor. eexists. vm_compute. reflexivity.
Defined.

Lemma missing_header_fails_only_its_accessor_witness :
  lacks_header (lit "author ") body_without_author /\
  fst (@Commit.get_author (example_env body_without_author)
         (mkState example_commit []))
  = Raise AttributeError /\
  exists c,
    fst (@Commit.get_committer (example_env body_without_author)
           (mkState example_commit []))
    = Ok c.
Proof.
  assert (Hlacks : lacks_header (lit "author ") body_without_author)
    by (repeat constructor).
  destruct (@missing_header_fails_only_its_accessor
              (example_env body_without_author) example_commit []
              body_without_author eq_refl eq_refl eq_refl eq_refl
              body_without_author_parses)
    as (_ & _ & Hauthor & _ & _ & Hcommitter).
  split; [exact Hlacks|]. split; [exact (Hauthor Hlacks)|].
  apply Hcommitter. intros Hno.
  unfold lacks_header in Hno. rewrite Forall_forall in Hno.
  specialize (Hno (lit "committer A U Thor <author@example.com> 1700000000 +0000")).
  assert (Hin : In (lit "committer A U Thor <author@example.com> 1700000000 +0000")
                  (header_lines
                     (splitlines islinebreak_bytes body_without_author)))
    by (vm_compute; right; left; reflexivity).
  specialize (Hno Hin). vm_compute in Hno. discriminate Hno.
Defined.

(** C2, as stated, fails: the body of this commit has no author header, and
    [get_committer()], [get_parents()] and [get_message_lines()] return;
    [get_author()] raises an attribute error. *)
Lemma get_committer_without_author :
  lacks_header (lit "author ") body_without_author /\
  fst (@Commit.get_committer (example_env body_without_author)
         (mkState example_commit []))
  = Ok (Contributor.mk (lit "A U Thor") (lit "author@example.com")
          1700000000) /\
  fst (@Commit.get_parents (example_env body_without_author)
         (mkState example_commit []))
  = Ok [] /\
  fst (@Commit.get_message_lines (example_env body_without_author)
         (mkState example_commit []))
  = Ok [lit "Initial commit"] /\
  fst (@Commit.get_author (example_env body_without_author)
         (mkState example_commit []))
  = Raise AttributeError.
Proof.
  split; [repeat constructor|]. vm_compute. repeat split.
Qed.

(** ** Memoized accessors *)

Lemma repeatedly_fixed {O A} (m : M O A) (v : A) (s1 : state O) :
  m s1 = (Ok v, s1) ->
  forall n, repeatedly n m s1 = (repeat (Ok v) n, s1).
Proof.
  intros Hfix n; induction n as [|n IH]; simpl; [reflexivity|].
  rewrite Hfix, IH. reflexivity.
Qed.

(** An accessor is memoized when a call that returns leaves a state in
    which the next call returns the same and changes nothing. *)
Lemma memoized_intro {O A} (m : M O A) :
  (forall s v s1, m s = (Ok v, s1) ->
     (exists new, calls s1 = calls s ++ new /\ length new <= 1) /\
     m s1 = (Ok v, s1)) ->
  memoized m.
Proof.
  intros Hm s v s1 Hcall. destruct (Hm s v s1 Hcall) as [Hlog Hfix].
  split; [exact Hlog | apply repeatedly_fixed; exact Hfix].
Qed.

Section Memoization.
Context `{Env}.

Lemma content_accessor_memoized {A} (proj : Commit.t -> option A) :
  memoized (Commit.ensure_content ;; self <- get_self ;;
            Commit.attribute (proj self)).
Proof.
  apply memoized_intro. intros s v s1.
  unfold Commit.ensure_content. method.
  destruct (Commit.content_fetched (self s)) eqn:Hflag.
  - unfold Commit.attribute. destruct (proj (self s)) as [x|] eqn:Hx; method;
      [|discriminate].
    intros [= <- <-]. split; [exists []; rewrite app_nil_r; auto|].
    rewrite Hflag, Hx. reflexivity.
  - destruct (Commit._fetch_content s) as [[[]|e] s2] eqn:Hfetch;
      [|discriminate].
    destruct (_fetch_content_done s s2 Hfetch) as [Hlog Hdone].
    unfold Commit.attribute. destruct (proj (self s2)) as [x|] eqn:Hx; method;
      [|discriminate].
    intros [= <- <-]. split; [eexists; split; [exact Hlog | auto]|].
    rewrite Hdone, Hx. reflexivity.
Qed.

Lemma Commit_get_projects_memoized : memoized Commit.get_projects.
Proof.
  apply memoized_intro. intros s v s1.
  unfold Commit.get_projects, Commit._get_project_info. method.
  destruct (Commit.project_fetched (self s)) eqn:Hflag.
  - unfold Commit.attribute.
    destruct (Commit._projects (self s)) as [x|] eqn:Hx; method;
      [|discriminate].
    intros [= <- <-]. split; [exists []; rewrite app_nil_r; auto|].
    rewrite Hflag, Hx. reflexivity.
  - destruct (check_output (calls s) remote_command) as [content|e];
      [|discriminate].
    destruct (project_of_remotes content) as [p|e]; [|discriminate].
    cbn. intros [= <- <-]. split; [eexists; split; [reflexivity | auto]|].
    reflexivity.
Qed.

Lemma CommittedFile_get_projects_memoized :
  memoized CommittedFile.get_projects.
Proof.
  apply memoized_intro. intros s v s1.
  unfold CommittedFile.get_projects, CommittedFile._get_project_info. method.
  destruct (CommittedFile.project_fetched (self s)) eqn:Hflag.
  - destruct (CommittedFile._projects (self s)) as [x|] eqn:Hx; method;
      [|discriminate].
    intros [= <- <-]. split; [exists []; rewrite app_nil_r; auto|].
    rewrite Hflag, Hx. reflexivity.
  - destruct (check_output (calls s) remote_command) as [content|e];
      [|discriminate].
    destruct (project_of_remotes content) as [p|e]; [|discriminate].
    cbn. intros [= <- <-]. split; [eexists; split; [reflexivity | auto]|].
    reflexivity.
Qed.

Lemma get_changed_files_memoized : memoized Commit.get_changed_files.
Proof.
  apply memoized_intro. intros s v s1.
  unfold Commit.get_changed_files. method.
  destruct (Commit.changed_files (self s)) as [files|] eqn:Hcache.
  - intros [= <- <-]. split; [exists []; rewrite app_nil_r; auto|].
    rewrite Hcache. reflexivity.
  - destruct (check_output (calls s) (Commit.diff_tree_command (self s)))
      as [out|e]; [|discriminate].
    destruct (decode_str out) as [output|e]; [|discriminate].
    destruct (Commit.changed_files_loop _ _ _) as [files|e]; [|discriminate].
    intros [= <- <-]. split; [eexists; split; [reflexivity | auto]|].
    reflexivity.
Qed.

Lemma get_binary_files_memoized : memoized Commit.get_binary_files.
Proof.
  apply memoized_intro. intros s v s1.
  unfold Commit.get_binary_files. method.
  destruct (Commit.binary_files (self s)) as [files|] eqn:Hcache.
  - intros [= <- <-]. split; [exists []; rewrite app_nil_r; auto|].
    rewrite Hcache. reflexivity.
  - destruct (check_output (calls s) (Commit.numstat_command (self s)))
      as [out|e]; [|discriminate].
    destruct (decode_str out) as [output|e]; [|discriminate].
    intros [= <- <-]. split; [eexists; split; [reflexivity | auto]|].
    reflexivity.
Qed.

Lemma get_changed_files_cached (s : state Commit.t)
  (v : list CommittedFile.t) (s1 : state Commit.t) :
  Commit.get_changed_files s = (Ok v, s1) ->
  Commit.changed_files (self s1) = Some v.
Proof.
  unfold Commit.get_changed_files. method.
  destruct (Commit.changed_files (self s)) as [files|] eqn:Hcache.
  - intros [= <- <-]. exact Hcache.
  - destruct (check_output (calls s) (Commit.diff_tree_command (self s)))
      as [out|e]; [|discriminate].
    destruct (decode_str out) as [output|e]; [|discriminate].
    destruct (Commit.changed_files_loop _ _ _) as [files|e]; [|discriminate].
    intros [= <- <-]. reflexivity.
Qed.

Lemma get_binary_files_cached (s : state Commit.t) (v : list str)
  (s1 : state Commit.t) :
  Commit.get_binary_files s = (Ok v, s1) ->
  Commit.binary_files (self s1) = Some v.
Proof.
  unfold Commit.get_binary_files. method.
  destruct (Commit.binary_files (self s)) as [files|] eqn:Hcache.
  - intros [= <- <-]. exact Hcache.
  - destruct (check_output (calls s) (Commit.numstat_command (self s)))
      as [out|e]; [|discriminate].
    destruct (decode_str out) as [output|e]; [|discriminate].
    intros [= <- <-]. reflexivity.
Qed.

(** A call of [get_content] that returns has the content in the cache, has
    run at most one command and has left the mode alone. *)
Lemma get_content_cached (s s1 : state CommittedFile.t) (c : bytes) :
  CommittedFile.get_content s = (Ok c, s1) ->
  (exists new, calls s1 = calls s ++ new /\ length new <= 1) /\
  CommittedFile.content (self s1) = Some c /\
  CommittedFile.mode (self s1) = CommittedFile.mode (self s).
Proof.
  unfold CommittedFile.get_content. method.
  destruct (CommittedFile.content (self s)) as [c0|] eqn:Hcache.
  - intros [= <- <-]. split; [exists []; rewrite app_nil_r; auto|]. auto.
  - destruct (CommittedFile.revision_path (self s)) as [arg|e];
      [|discriminate].
    destruct (check_output (calls s) (CommittedFile.show_command arg))
      as [out|e]; [|discriminate].
    intros [= <- <-]. split; [eexists; split; [reflexivity | auto]|].
    split; reflexivity.
Qed.

Lemma get_content_of_cache (s : state CommittedFile.t) (c : bytes) :
  CommittedFile.content (self s) = Some c ->
  CommittedFile.get_content s = (Ok c, s).
Proof.
  intros Hcache. unfold CommittedFile.get_content. method.
  rewrite Hcache. reflexivity.
Qed.

Lemma get_content_memoized : memoized CommittedFile.get_content.
Proof.
  apply memoized_intro. intros s v s1 Hcall.
  destruct (get_content_cached s s1 v Hcall) as (Hlog & Hcache & _).
  split; [exact Hlog | apply get_content_of_cache; exact Hcache].
Qed.

Lemma get_shebang_memoized : memoized CommittedFile.get_shebang.
Proof.
  apply memoized_intro. intros s v s1.
  unfold CommittedFile.get_shebang. method.
  unfold CommittedFile.regular.
  destruct (CommittedFile.mode (self s)) as [m|] eqn:Hmode; [|discriminate].
  destruct (negb (eqb_seq (firstn 2 m) (lit "10"))) eqn:Hregular.
  - intros [= <- <-]. split; [exists []; rewrite app_nil_r; auto|].
    rewrite Hmode, Hregular. reflexivity.
  - destruct (CommittedFile.get_content s) as [[c|e] s2] eqn:Hcontent;
      [|discriminate].
    destruct (get_content_cached s s2 c Hcontent) as (Hlog & Hcache & Hm).
    intros Hrest.
    assert (Hs1 : s1 = s2).
    { destruct (negb (startswith (lit "#!") c)); [congruence|].
      destruct (item _ 0) as [tok|e]; [|discriminate].
      destruct (decode_str tok); congruence. }
    subst s2. split; [exact Hlog|].
    rewrite Hm, Hmode, Hregular, (get_content_of_cache s1 c Hcache).
    exact Hrest.
Qed.

(** [get_file_size] runs its command at every call. *)
Lemma get_file_size_calls (s : state CommittedFile.t) :
  calls (snd (CommittedFile.get_file_size s))
  = calls s ++ [CommittedFile.size_command (self s)].
Proof.
  unfold CommittedFile.get_file_size. method.
  destruct (check_output (calls s) (CommittedFile.size_command (self s)))
    as [out|e]; [|reflexivity].
  destruct (int_of_bytes out); reflexivity.
Qed.

(** C4, as the code has it: each lazily resolved accessor but the file size
    is memoized: after a call that returns, further calls return the same
    value, and all these calls together run at most one command; this holds
    for the parents, author, committer, message lines, changed files, binary
    files and projects of a commit and for the content, shebang and projects
    of a committed file.  An empty list of files and an empty content are
    cached as such, apart from the unset cache.  [get_file_size()] keeps no
    cache and runs its command at every call. *)
Theorem lazy_accessors_memoized :
  memoized Commit.get_parents /\
  memoized Commit.get_author /\
  memoized Commit.get_committer /\
  memoized Commit.get_message_lines /\
  memoized Commit.get_changed_files /\
  memoized Commit.get_binary_files /\
  memoized Commit.get_projects /\
  memoized CommittedFile.get_content /\
  memoized CommittedFile.get_shebang /\
  memoized CommittedFile.get_projects /\
  (forall s s1,
      Commit.get_changed_files s = (Ok [], s1) ->
      Commit.changed_files (self s1) = Some []) /\
  (forall s s1,
      Commit.get_binary_files s = (Ok [], s1) ->
      Commit.binary_files (self s1) = Some []) /\
  (forall s s1,
      CommittedFile.get_content s = (Ok [], s1) ->
      CommittedFile.content (self s1) = Some []) /\
  (forall s,
      calls (snd (CommittedFile.get_file_size s))
      = calls s ++ [CommittedFile.size_command (self s)]).
Proof.
  split; [exact (content_accessor_memoized Commit._parents)|].
  split; [exact (content_accessor_memoized Commit._author)|].
  split; [exact (content_accessor_memoized Commit._committer)|].
  split; [exact (content_accessor_memoized Commit._message_lines)|].
  split; [exact get_changed_files_memoized|].
  split; [exact get_binary_files_memoized|].
  split; [exact Commit_get_projects_memoized|].
  split; [exact get_content_memoized|].
  split; [exact get_shebang_memoized|].
  split; [exact CommittedFile_get_projects_memoized|].
  split; [exact (fun s => get_changed_files_cached s [])|].
  split; [exact (fun s => get_binary_files_cached s [])|].
  split; [|exact get_file_size_calls].
  intros s s1 Hcall. apply (get_content_cached s s1 [] Hcall).
Qed.

End Memoization.

Lemma lazy_accessors_memoized_witness :
  repeatedly 3 (@Commit.get_changed_files (example_env one_added_file))
    (mkState
       (Commit.set_changed_files
          [example_file "8a1f3c5e7b9d0f2a4c6e8b0d2f4a6c8e0b1d3f5a" "README"
             "100644" "e69de29"]
          example_commit)
       [@Commit.diff_tree_command (example_env one_added_file)
          example_commit])
  = (repeat
       (Ok [example_file "8a1f3c5e7b9d0f2a4c6e8b0d2f4a6c8e0b1d3f5a" "README"
              "100644" "e69de29"]) 3,
     mkState
       (Commit.set_changed_files
          [example_file "8a1f3c5e7b9d0f2a4c6e8b0d2f4a6c8e0b1d3f5a" "README"
             "100644" "e69de29"]
          example_commit)
       [@Commit.diff_tree_command (example_env one_added_file)
          example_commit]).
Proof.
  destruct (@lazy_accessors_memoized (example_env one_added_file))
    as (_ & _ & _ & _ & Hchanged & _).
  apply (proj2 (Hchanged (mkState example_commit []) _ _ eq_refl) 3).
Defined.

(** C4, as stated, fails for the file size: two calls of [get_file_size()]
    both return 12 and have run the command twice. *)
Lemma get_file_size_runs_each_time :
  repeatedly 2
    (@CommittedFile.get_file_size (example_env (lit "12" ++ [10%N])))
    (mkState
       (example_file "8a1f3c5e7b9d0f2a4c6e8b0d2f4a6c8e0b1d3f5a" "README"
          "100644" "e69de29")
       [])
  = ([Ok 12%Z; Ok 12%Z],
     mkState
       (example_file "8a1f3c5e7b9d0f2a4c6e8b0d2f4a6c8e0b1d3f5a" "README"
          "100644" "e69de29")
       [[PStr (lit "/usr/bin/git"); PStr (lit "cat-file"); PStr (lit "-s");
         PStr (lit "e69de29")];
        [PStr (lit "/usr/bin/git"); PStr (lit "cat-file"); PStr (lit "-s");
         PStr (lit "e69de29")]]) /\
  ~ memoized
      (@CommittedFile.get_file_size (example_env (lit "12" ++ [10%N]))).
Proof.
  split; [vm_compute; reflexivity|].
  intros Hmemo.
  destruct (Hmemo
              (mkState
                 (example_file "8a1f3c5e7b9d0f2a4c6e8b0d2f4a6c8e0b1d3f5a"
                    "README" "100644" "e69de29") [])
              _ _ eq_refl) as [_ Hrepeat].
  specialize (Hrepeat 1). vm_compute in Hrepeat. discriminate Hrepeat.
Qed.

(** ** The project of the push remote *)

Lemma push_lines_decoded (lines : list bytes) :
  forall ds,
    Forall2 (fun l d => utf8.decode l = Ok d) lines ds ->
    push_lines lines = Ok (filter (contains (lit "push")) ds).
Proof.
  induction lines as [|l lines IH]; intros ds Hall;
    inversion Hall as [|? d ? ds' Hd Hrest]; subst; [reflexivity|].
  cbn [push_lines filter]. rewrite Hd. cbn [rbind].
  destruct (contains (lit "push") d).
  - rewrite (IH ds' Hrest). reflexivity.
  - apply IH; assumption.
Qed.

(** The first field of a split: the text before the first separator. *)
Lemma split_char_head (c : N) (s : list N) :
  exists p rest ext,
    split_char c s = p :: rest /\ ~ In c p /\ s = p ++ ext /\
    (ext = [] \/ exists e, ext = c :: e).
Proof.
  destruct (split_char_parts c s) as [Hjoin Hfree].
  destruct (split_char c s) as [|p rest] eqn:Hs;
    [exfalso; apply (split_char_nonempty c s Hs)|].
  apply Forall_inv in Hfree.
  destruct rest as [|q rest].
  - exists p, [], []. rewrite app_nil_r. auto.
  - exists p, (q :: rest), (c :: Py.join [c] (q :: rest)).
    repeat split; eauto.
Qed.

Lemma join_snoc (sep : list N) (init : list (list N)) (x : list N) :
  init <> [] -> Py.join sep (init ++ [x]) = Py.join sep init ++ sep ++ x.
Proof.
  induction init as [|a init IH]; intros Hne; [contradiction|].
  destruct init as [|b init]; [reflexivity|].
  change (Py.join sep ((a :: b :: init) ++ [x]))
    with (a ++ sep ++ Py.join sep ((b :: init) ++ [x])).
  rewrite IH by discriminate.
  change (Py.join sep (a :: b :: init))
    with (a ++ sep ++ Py.join sep (b :: init)).
  rewrite <- !app_assoc. reflexivity.
Qed.

(** The last field of a split: the text after the last separator. *)
Lemma split_char_last (c : N) (s : list N) :
  exists seg dir,
    item_last (split_char c s) = Ok seg /\ ~ In c seg /\ s = dir ++ seg /\
    (dir = [] \/ exists d, dir = d ++ [c]).
Proof.
  destruct (split_char_parts c s) as [Hjoin Hfree].
  destruct (exists_last (split_char_nonempty c s)) as (init & seg & Hs).
  rewrite Hs in Hjoin, Hfree. rewrite Hs.
  apply Forall_app in Hfree as [_ Hseg].
  apply Forall_inv in Hseg.
  exists seg.
  destruct init as [|a init].
  - exists []. simpl in Hjoin. unfold item_last; simpl. auto.
  - rewrite join_snoc in Hjoin by discriminate.
    exists (Py.join [c] (a :: init) ++ [c]).
    unfold item_last. rewrite rev_app_distr. simpl rev. cbn [app].
    repeat split; eauto.
    rewrite <- Hjoin, <- app_assoc. reflexivity.
Qed.

Lemma project_of_remotes_push (content : bytes) (ds : list str) :
  Forall2 (fun l d => utf8.decode l = Ok d)
          (splitlines islinebreak_bytes content) ds ->
  match filter (contains (lit "push")) ds with
  | [] => project_of_remotes content = Raise IndexError
  | temp :: _ =>
      forall url,
        item (split_char 9 (replace_char 32 9 temp)) 1 = Ok url ->
        exists name dir ext,
          project_of_remotes content = Ok name /\
          url = dir ++ name ++ ext /\
          (dir = [] \/ exists d, dir = d ++ [47%N]) /\
          ~ In 47%N (name ++ ext) /\
          ~ In 46%N name /\
          (ext = [] \/ exists e, ext = 46%N :: e)
  end.
Proof.
  intros Hall. unfold project_of_remotes.
  rewrite (push_lines_decoded _ ds Hall).
  destruct (filter (contains (lit "push")) ds) as [|temp more];
    [reflexivity|].
  intros url Hurl. cbn [rbind item nth_error].
  unfold item in Hurl. unfold item at 1.
  destruct (nth_error (split_char 9 (replace_char 32 9 temp)) 1) as [u|];
    [|discriminate].
  injection Hurl as ->. cbn [rbind].
  destruct (split_char_last 47 url) as (seg & dir & Hlast & Hseg & Hurl & Hdir).
  rewrite Hlast. cbn [rbind].
  destruct (split_char_head 46 seg) as (name & rest & ext & Hhead & Hname
                                        & Hsegeq & Hext).
  rewrite Hhead. unfold item; cbn [nth_error].
  exists name, dir, ext. rewrite <- Hsegeq. auto 8.
Qed.

Lemma Commit_get_projects_run `{Env} (c : Commit.t) (log : list argv)
  (content : bytes) :
  Commit.project_fetched c = false ->
  check_output log remote_command = Ok content ->
  Commit.get_projects (mkState c log)
  = match project_of_remotes content with
    | Ok p =>
        (Ok (Some p),
         mkState (Commit.set_project_fetched true
                    (Commit.set_projects (Some p)
                       (Commit.set_projects None c)))
                 (log ++ [remote_command]))
    | Raise e =>
        (Raise e, mkState (Commit.set_projects None c)
                          (log ++ [remote_command]))
    end.
Proof.
  intros Hflag Hrun.
  unfold Commit.get_projects, Commit._get_project_info. method.
  rewrite Hflag. method. rewrite Hrun.
  destruct (project_of_remotes content); reflexivity.
Qed.

Lemma CommittedFile_get_projects_run `{Env} (f : CommittedFile.t)
  (log : list argv) (content : bytes) :
  CommittedFile.project_fetched f = false ->
  check_output log remote_command = Ok content ->
  CommittedFile.get_projects (mkState f log)
  = match project_of_remotes content with
    | Ok p =>
        (Ok (Some p),
         mkState (CommittedFile.set_project_fetched true
                    (CommittedFile.set_projects (Some p)
                       (CommittedFile.set_projects None f)))
                 (log ++ [remote_command]))
    | Raise e =>
        (Raise e, mkState (CommittedFile.set_projects None f)
                          (log ++ [remote_command]))
    end.
Proof.
  intros Hflag Hrun.
  unfold CommittedFile.get_projects, CommittedFile._get_project_info. method.
  rewrite Hflag. method. rewrite Hrun.
  destruct (project_of_remotes content); reflexivity.
Qed.

(** C3, as the code has it: when no line of the remote listing contains
    "push", [get_projects()] of a commit and of a committed file raise an
    index error and cache nothing; when one does, the result is taken from
    the first such line: of its second field, spaces read as tabs, the last
    path segment up to its first dot. *)
Theorem get_projects_of_push_remote (E : Env) (c : Commit.t)
  (f : CommittedFile.t) (log : list argv) (content : bytes) (ds : list str) :
  Commit.project_fetched c = false ->
  CommittedFile.project_fetched f = false ->
  check_output log remote_command = Ok content ->
  Forall2 (fun l d => utf8.decode l = Ok d)
          (splitlines islinebreak_bytes content) ds ->
  match filter (contains (lit "push")) ds with
  | [] =>
      fst (Commit.get_projects (mkState c log)) = Raise IndexError /\
      fst (CommittedFile.get_projects (mkState f log)) = Raise IndexError /\
      Commit.project_fetched
        (self (snd (Commit.get_projects (mkState c log)))) = false /\
      CommittedFile.project_fetched
        (self (snd (CommittedFile.get_projects (mkState f log)))) = false
  | temp :: _ =>
      forall url,
        item (split_char 9 (replace_char 32 9 temp)) 1 = Ok url ->
        exists name dir ext,
          fst (Commit.get_projects (mkState c log)) = Ok (Some name) /\
          fst (CommittedFile.get_projects (mkState f log)) = Ok (Some name) /\
          url = dir ++ name ++ ext /\
          (dir = [] \/ exists d, dir = d ++ [47%N]) /\
          ~ In 47%N (name ++ ext) /\
          ~ In 46%N name /\
          (ext = [] \/ exists e, ext = 46%N :: e)
  end.
Proof.
  intros Hc Hf Hrun Hall.
  pose proof (project_of_remotes_push content ds Hall) as Hproject.
  rewrite (Commit_get_projects_run c log content Hc Hrun),
    (CommittedFile_get_projects_run f log content Hf Hrun).
  destruct (filter (contains (lit "push")) ds) as [|temp more].
  - rewrite Hproject. cbn. auto.
  - intros url Hurl.
    destruct (Hproject url Hurl) as (name & dir & ext & -> & Hrest).
    exists name, dir, ext. cbn. auto.
Qed.

Lemma get_projects_of_push_remote_witness :
  fst (@Commit.get_projects (example_env fetch_only_remotes)
         (mkState example_commit []))
  = Raise IndexError /\
  fst (@CommittedFile.get_projects (example_env fetch_only_remotes)
         (mkState
            (example_file "8a1f3c5e7b9d0f2a4c6e8b0d2f4a6c8e0b1d3f5a" "README"
               "100644" "e69de29") []))
  = Raise IndexError.
Proof.
  assert (Hlines :
            Forall2 (fun l d => utf8.decode l = Ok d)
              (splitlines islinebreak_bytes fetch_only_remotes)
              [lit "origin" ++ [9%N]
               ++ lit "https://example.com/team/hooks.git (fetch)"]).
  { replace (splitlines islinebreak_bytes fetch_only_remotes)
      with [lit "origin" ++ [9%N]
            ++ lit "https://example.com/team/hooks.git (fetch)"]
      by (vm_compute; reflexivity).
    constructor; [vm_compute; reflexivity | constructor]. }
  pose proof
    (@get_projects_of_push_remote (example_env fetch_only_remotes)
       example_commit
       (example_file "8a1f3c5e7b9d0f2a4c6e8b0d2f4a6c8e0b1d3f5a" "README"
          "100644" "e69de29")
       [] fetch_only_remotes
       [lit "origin" ++ [9%N]
        ++ lit "https://example.com/team/hooks.git (fetch)"]
       eq_refl eq_refl eq_refl Hlines) as Hno_push.
  vm_compute in Hno_push. vm_compute.
  exact (conj (proj1 Hno_push) (proj1 (proj2 Hno_push))).
Defined.

(** C3, as stated, fails twice: without a push line [get_projects()] raises
    an index error, and for the push URL that ends in my.project.git it
    answers my, the name up to its first dot. *)
Lemma get_projects_raises_without_push :
  fst (@Commit.get_projects (example_env fetch_only_remotes)
         (mkState example_commit []))
  = Raise IndexError /\
  fst (@CommittedFile.get_projects (example_env fetch_only_remotes)
         (mkState
            (example_file "8a1f3c5e7b9d0f2a4c6e8b0d2f4a6c8e0b1d3f5a" "README"
               "100644" "e69de29") []))
  = Raise IndexError /\
  fst (@Commit.get_projects (example_env dotted_remotes)
         (mkState example_commit []))
  = Ok (Some (lit "my")) /\
  fst (@CommittedFile.get_projects (example_env dotted_remotes)
         (mkState
            (example_file "8a1f3c5e7b9d0f2a4c6e8b0d2f4a6c8e0b1d3f5a" "README"
               "100644" "e69de29") []))
  = Ok (Some (lit "my")).
Proof. vm_compute. repeat split. Qed.

(** ** The executable of a shebang *)

Lemma rfind_char_None (c : N) (s : list N) :
  rfind_char c s = None -> ~ In c s.
Proof.
  induction s as [|x s IH]; simpl; [tauto|].
  destruct (rfind_char c s); [discriminate|].
  destruct (N.eqb_spec x c) as [->|Hne]; [discriminate|].
  intros _ [Heq|Hin]; [congruence | exact (IH eq_refl Hin)].
Qed.

Lemma rfind_char_Some (c : N) (s : list N) :
  forall i, rfind_char c s = Some i ->
    s = firstn i s ++ c :: skipn (S i) s /\ ~ In c (skipn (S i) s).
Proof.
  induction s as [|x s IH]; intros i; simpl; [discriminate|].
  destruct (rfind_char c s) as [j|] eqn:Hr.
  - intros [= <-]. destruct (IH j eq_refl) as [Heq Hfree].
    split; [simpl; f_equal; exact Heq | exact Hfree].
  - destruct (N.eqb_spec x c) as [->|Hne]; [|discriminate].
    intros [= <-]. split; [reflexivity|].
    simpl. apply (rfind_char_None c s Hr).
Qed.

(** The last field of [s.rsplit(c, 1)]: the text after the last [c]. *)
Lemma rsplit_once_last (c : N) (s : list N) :
  exists seg dir,
    item_last (rsplit_once c s) = Ok seg /\ s = dir ++ seg /\ ~ In c seg /\
    (dir = [] \/ exists d, dir = d ++ [c]).
Proof.
  unfold rsplit_once. destruct (rfind_char c s) as [i|] eqn:Hr.
  - destruct (rfind_char_Some c s i Hr) as [Heq Hfree].
    exists (skipn (S i) s), (firstn i s ++ [c]).
    split; [reflexivity|]. rewrite <- app_assoc. eauto.
  - exists s, []. split; [reflexivity|].
    split; [reflexivity|]. split; [exact (rfind_char_None c s Hr) | auto].
Qed.

(** Two thirds of C7 hold for every file: without a shebang there is no
    executable, and for a shebang other than /usr/bin/env the executable is
    its last path segment. *)
Lemma get_shebang_exe_of_shebang `{Env} (st st1 : state CommittedFile.t)
  (sh : option str) :
  CommittedFile.get_shebang st = (Ok sh, st1) ->
  match sh with
  | None | Some [] => CommittedFile.get_shebang_exe st = (Ok None, st1)
  | Some shebang =>
      shebang <> lit "/usr/bin/env" ->
      exists seg dir,
        CommittedFile.get_shebang_exe st = (Ok (Some seg), st1) /\
        shebang = dir ++ seg /\ ~ In 47%N seg /\
        (dir = [] \/ exists d, dir = d ++ [47%N])
  end.
Proof.
  intros Hshebang. destruct sh as [[|x shebang]|].
  - unfold CommittedFile.get_shebang_exe, bind. rewrite Hshebang. reflexivity.
  - intros Hother.
    destruct (rsplit_once_last 47 (x :: shebang))
      as (seg & dir & Hlast & Heq & Hfree & Hdir).
    exists seg, dir. unfold CommittedFile.get_shebang_exe. unfold bind at 1.
    rewrite Hshebang, (eqb_seq_neq _ _ Hother). method. rewrite Hlast. auto.
  - unfold CommittedFile.get_shebang_exe, bind. rewrite Hshebang. reflexivity.
Qed.

(** The last third holds when the first line begins with the very text
    [#!/usr/bin/env]: the executable is then the first token after it on that
    line, and env itself when there is none. *)
Lemma get_shebang_exe_env_line `{Env} (st st1 : state CommittedFile.t)
  (c rest : bytes) :
  CommittedFile.get_shebang st = (Ok (Some (lit "/usr/bin/env")), st1) ->
  CommittedFile.content (self st1) = Some c ->
  item (splitlines islinebreak_bytes c) 0 = Ok (lit "#!/usr/bin/env" ++ rest) ->
  CommittedFile.get_shebang_exe st
  = match split_ws isspace_bytes 1 rest with
    | tok :: _ =>
        (match decode_str tok with
         | Ok d => Ok (Some d)
         | Raise e => Raise e
         end, st1)
    | [] => (Ok (Some (lit "env")), st1)
    end.
Proof.
  intros Hshebang Hcache Hline.
  unfold CommittedFile.get_shebang_exe. unfold bind at 1. rewrite Hshebang.
  change (lit "/usr/bin/env") with (47%N :: lit "usr/bin/env") at 1.
  cbv iota.
  replace (eqb_seq (lit "/usr/bin/env") (lit "/usr/bin/env")) with true
    by reflexivity.
  method. rewrite (get_content_of_cache st1 c Hcache), Hline, skipn_prefix.
  destruct (split_ws isspace_bytes 1 rest) as [|tok more]; [reflexivity|].
  destruct (decode_str tok); reflexivity.
Qed.

(** The three examples of the specification. *)
Lemma get_shebang_exe_examples :
  fst (@CommittedFile.get_shebang_exe (example_env env_script)
         (mkState
            (example_file "8a1f3c5e7b9d0f2a4c6e8b0d2f4a6c8e0b1d3f5a"
               "tools/run" "100755" "e69de29") []))
  = Ok (Some (lit "python3")) /\
  fst (@CommittedFile.get_shebang_exe (example_env bash_script)
         (mkState
            (example_file "8a1f3c5e7b9d0f2a4c6e8b0d2f4a6c8e0b1d3f5a"
               "tools/run" "100755" "e69de29") []))
  = Ok (Some (lit "bash")) /\
  fst (@CommittedFile.get_shebang_exe (example_env plain_text)
         (mkState
            (example_file "8a1f3c5e7b9d0f2a4c6e8b0d2f4a6c8e0b1d3f5a"
               "tools/run" "100755" "e69de29") []))
  = Ok None.
Proof. vm_compute. repeat split. Qed.

(** C7 at a script whose shebang has a space after the marker: the shebang
    is /usr/bin/env, and the executable that [get_shebang_exe()] answers is
    the letter v, cut out of the word env, where the first token after
    /usr/bin/env is python3. *)
Theorem get_shebang_exe_after_space :
  fst (@CommittedFile.get_shebang (example_env spaced_env_script)
         (mkState
            (example_file "8a1f3c5e7b9d0f2a4c6e8b0d2f4a6c8e0b1d3f5a"
               "tools/run" "100755" "e69de29") []))
  = Ok (Some (lit "/usr/bin/env")) /\
  fst (@CommittedFile.get_shebang_exe (example_env spaced_env_script)
         (mkState
            (example_file "8a1f3c5e7b9d0f2a4c6e8b0d2f4a6c8e0b1d3f5a"
               "tools/run" "100755" "e69de29") []))
  = Ok (Some (lit "v")).
Proof. vm_compute. split; reflexivity. Qed.

(** ** Paths *)

Lemma plain_name_not_dotdot (n : str) : plain_name n -> n <> lit "..".
Proof. intros (_ & _ & _ & Hstart) ->. discriminate Hstart. Qed.

Lemma plain_name_first (n : str) :
  plain_name n -> exists x r, n = x :: r /\ x <> 47%N.
Proof.
  intros (Hne & Hslash & _). destruct n as [|x r]; [contradiction|].
  exists x, r. split; [reflexivity|]. intros ->. apply Hslash; left; auto.
Qed.

(** A text that ends with a character other than the slash. *)
Lemma endswith_slash_snoc (q : list N) (x : N) :
  x <> 47%N -> endswith (lit "/") (q ++ [x]) = false.
Proof.
  intros Hx. unfold endswith. change (lit "/") with [47%N].
  rewrite rev_app_distr. cbn [rev app startswith].
  destruct (N.eqb_spec 47 x) as [Heq|_]; [congruence | reflexivity].
Qed.

Lemma join_app (sep : list N) (a b : list (list N)) :
  a <> [] -> b <> [] ->
  Py.join sep (a ++ b) = Py.join sep a ++ sep ++ Py.join sep b.
Proof.
  induction a as [|x a IH]; intros Ha Hb; [contradiction|].
  destruct a as [|y a].
  - destruct b as [|z b]; [contradiction | reflexivity].
  - change (Py.join sep ((x :: y :: a) ++ b))
      with (x ++ sep ++ Py.join sep ((y :: a) ++ b)).
    rewrite IH by (assumption || discriminate).
    change (Py.join sep (x :: y :: a)) with (x ++ sep ++ Py.join sep (y :: a)).
    rewrite <- !app_assoc. reflexivity.
Qed.

(** A path of plain names is not empty, starts with no slash and ends with
    none. *)
Lemma plain_path_ends (comps : list str) :
  comps <> [] -> Forall plain_name comps ->
  (exists x r, Py.join (lit "/") comps = x :: r /\ x <> 47%N) /\
  (exists q y, Py.join (lit "/") comps = q ++ [y] /\ y <> 47%N).
Proof.
  intros Hne Hall. split.
  - destruct comps as [|c comps]; [contradiction|].
    apply Forall_inv in Hall.
    destruct (plain_name_first c Hall) as (x & r & -> & Hx).
    destruct comps; [exists x, r | eexists x, _]; simpl; eauto.
  - destruct (exists_last Hne) as (init & c & ->).
    apply Forall_app in Hall as [_ Hc]. apply Forall_inv in Hc.
    destruct Hc as (Hc & Hslash & _).
    destruct (exists_last Hc) as (q & y & ->).
    assert (Hy : y <> 47%N)
      by (intros ->; apply Hslash, in_or_app; right; left; auto).
    destruct init as [|a init].
    + exists q, y. auto.
    + rewrite join_snoc by discriminate.
      exists (Py.join (lit "/") (a :: init) ++ lit "/" ++ q), y.
      rewrite <- !app_assoc. auto.
Qed.

(** [join(path, '..', target)] for a path of plain names and a relative
    target. *)
Lemma join_link (comps : list str) (target : str) :
  comps <> [] -> Forall plain_name comps ->
  startswith (lit "/") target = false ->
  posixpath.join (Py.join (lit "/") comps) [lit ".."; target]
  = Py.join (lit "/") comps ++ lit "/" ++ lit ".." ++ lit "/" ++ target.
Proof.
  intros Hne Hall Htarget.
  destruct (plain_path_ends comps Hne Hall)
    as [(x & r & Hfirst & _) (q & y & Hlast & Hy)].
  unfold posixpath.join. cbn [fold_left]. unfold posixpath.join_step.
  replace (startswith (lit "/") (lit "..")) with false by reflexivity.
  rewrite Htarget.
  assert (Hend : endswith (lit "/") (Py.join (lit "/") comps) = false)
    by (rewrite Hlast; apply endswith_slash_snoc; exact Hy).
  rewrite Hend.
  replace (match Py.join (lit "/") comps with [] => true | _ :: _ => false end)
    with false by (rewrite Hfirst; reflexivity).
  assert (Hend' : endswith (lit "/")
                    (Py.join (lit "/") comps ++ lit "/" ++ lit "..") = false).
  { change (lit "/" ++ lit "..") with ([47%N; 46%N] ++ [46%N]).
    rewrite app_assoc. apply endswith_slash_snoc. discriminate. }
  rewrite Hend'.
  replace (match Py.join (lit "/") comps ++ lit "/" ++ lit ".." with
           | [] => true | _ :: _ => false end)
    with false by (rewrite Hfirst; reflexivity).
  rewrite <- !app_assoc. reflexivity.
Qed.

(** A plain name is kept by [normpath]; [..] takes the plain name before it
    away, and stays when nothing is before it. *)
Lemma norm_step_plain (found : list str) (c : str) :
  plain_name c -> posixpath.norm_step 0 found c = found ++ [c].
Proof.
  intros Hc. pose proof (plain_name_not_dotdot c Hc) as Hdd.
  destruct Hc as (Hne & _ & Hdot & _).
  unfold posixpath.norm_step.
  rewrite (eqb_seq_neq c [] Hne), (eqb_seq_neq c (lit ".") Hdot),
    (eqb_seq_neq c (lit "..") Hdd).
  reflexivity.
Qed.

Lemma norm_step_other (found : list str) (c : str) :
  c <> [] -> c <> lit "." -> c <> lit ".." ->
  posixpath.norm_step 0 found c = found ++ [c].
Proof.
  intros Hne Hdot Hdd. unfold posixpath.norm_step.
  rewrite (eqb_seq_neq c [] Hne), (eqb_seq_neq c (lit ".") Hdot),
    (eqb_seq_neq c (lit "..") Hdd).
  reflexivity.
Qed.

Lemma norm_step_pop (init : list str) (c : str) :
  plain_name c ->
  posixpath.norm_step 0 (init ++ [c]) (lit "..") = init.
Proof.
  intros Hc. pose proof (plain_name_not_dotdot c Hc) as Hdd.
  unfold posixpath.norm_step.
  replace (eqb_seq (lit "..") []) with false by reflexivity.
  replace (eqb_seq (lit "..") (lit ".")) with false by reflexivity.
  replace (eqb_seq (lit "..") (lit "..")) with true by reflexivity.
  rewrite rev_app_distr. cbn [rev app]. rewrite (eqb_seq_neq c (lit "..") Hdd).
  destruct (init ++ [c]) eqn:Hnil; [destruct init; discriminate|].
  rewrite <- Hnil. cbn [negb orb andb Nat.eqb].
  apply removelast_last.
Qed.

Lemma fold_norm_plain (comps : list str) :
  forall found, Forall plain_name comps ->
    fold_left (posixpath.norm_step 0) comps found = found ++ comps.
Proof.
  induction comps as [|c comps IH]; intros found Hall; simpl.
  - rewrite app_nil_r; reflexivity.
  - inversion Hall as [|? ? Hc Hrest]; subst.
    rewrite (norm_step_plain found c Hc), (IH _ Hrest), <- app_assoc.
    reflexivity.
Qed.

(** [normpath] of the joined path, for a symlink at a path of plain names
    and a relative target given by its components. *)
Lemma normpath_link (comps tail : list str) :
  comps <> [] -> Forall plain_name comps ->
  tail <> [] -> Forall (fun p => ~ In 47%N p) tail ->
  startswith (lit "/") (Py.join (lit "/") tail) = false ->
  posixpath.normpath
    (posixpath.join (Py.join (lit "/") comps)
       [lit ".."; Py.join (lit "/") tail])
  = match Py.join (lit "/")
            (fold_left (posixpath.norm_step 0) (lit ".." :: tail) comps) with
    | [] => lit "."
    | p => p
    end.
Proof.
  intros Hne Hall Htail Hfree Hrel.
  rewrite (join_link comps _ Hne Hall Hrel).
  assert (Hjoined :
            Py.join (lit "/") comps ++ lit "/" ++ lit ".." ++ lit "/"
            ++ Py.join (lit "/") tail
            = Py.join (lit "/") (comps ++ lit ".." :: tail)).
  { rewrite join_app by (assumption || discriminate).
    destruct tail; [contradiction | reflexivity]. }
  rewrite Hjoined.
  assert (Hparts : Forall (fun p => ~ In 47%N p) (comps ++ lit ".." :: tail)).
  { apply Forall_app; split.
    - eapply Forall_impl; [|exact Hall]. intros c (_ & Hslash & _); exact Hslash.
    - constructor; [|exact Hfree]. intros [Heq|[Heq|[]]]; discriminate. }
  pose proof (split_char_join 47 (comps ++ lit ".." :: tail)) as Hsplit.
  change [47%N] with (lit "/") in Hsplit.
  destruct (plain_path_ends comps Hne Hall) as [(x & r & Hfirst & Hx) _].
  assert (Hstart : exists r', Py.join (lit "/") (comps ++ lit ".." :: tail)
                              = x :: r').
  { rewrite join_app by (assumption || discriminate). rewrite Hfirst.
    eexists; reflexivity. }
  destruct Hstart as [r' Hstart].
  unfold posixpath.normpath. rewrite Hsplit.
  - rewrite Hstart.
    replace (startswith (lit "/") (x :: r')) with false
      by (change (lit "/") with [47%N]; cbn [startswith];
          destruct (N.eqb_spec 47 x); [congruence | reflexivity]).
    cbn [repeat concat app].
    rewrite fold_left_app, (fold_norm_plain comps [] Hall). cbn [app].
    match goal with
    | |- match ?j with [] => _ | _ :: _ => _ end = _ =>
        destruct j; reflexivity
    end.
  - destruct comps; [contradiction | discriminate].
  - exact Hparts.
Qed.

Lemma startswith_dotdot_plain (c r : str) :
  plain_name c -> startswith (lit "..") (c ++ r) = false.
Proof.
  intros (Hne & _ & Hdot & Hstart).
  change (lit "..") with [46%N; 46%N] in *. change (lit ".") with [46%N] in *.
  destruct c as [|x [|y c]]; [contradiction | |].
  - cbn [app startswith]. destruct (N.eqb_spec 46 x) as [<-|_];
      [contradiction | reflexivity].
  - cbn [app startswith] in *. destruct (46 =? x)%N; [|reflexivity].
    destruct (46 =? y)%N; [discriminate Hstart | reflexivity].
Qed.

Lemma join_head (sep c : list N) (rest : list (list N)) :
  exists r, Py.join sep (c :: rest) = c ++ r.
Proof.
  destruct rest; [exists []; simpl; rewrite app_nil_r | eexists]; reflexivity.
Qed.

(** ** The target of a symlink *)

Section Symlink.
Context `{Env}.

Lemma get_content_frame (st st1 : state CommittedFile.t) (c : bytes) :
  CommittedFile.get_content st = (Ok c, st1) ->
  CommittedFile.path (self st1) = CommittedFile.path (self st) /\
  CommittedFile.commit (self st1) = CommittedFile.commit (self st).
Proof.
  unfold CommittedFile.get_content. method.
  destruct (CommittedFile.content (self st)) as [c0|].
  - intros [= <- <-]. auto.
  - destruct (CommittedFile.revision_path (self st)) as [arg|e];
      [|discriminate].
    destruct (check_output (calls st) (CommittedFile.show_command arg))
      as [out|e]; [|discriminate].
    intros [= <- <-]. auto.
Qed.

Lemma get_symlink_target_run (st st1 : state CommittedFile.t)
  (content : bytes) :
  CommittedFile.get_content st = (Ok content, st1) ->
  CommittedFile.get_symlink_target st
  = if posixpath.isabs content then (Ok None, st1)
    else match decode_str content with
         | Ok d =>
             if startswith (lit "..")
                  (posixpath.normpath
                     (posixpath.join (CommittedFile.path (self st))
                        [lit ".."; d]))
             then (Ok None, st1)
             else (Ok (Some (CommittedFile.mk
                               (posixpath.normpath
                                  (posixpath.join
                                     (CommittedFile.path (self st))
                                     [lit ".."; d]))
                               (CommittedFile.commit (self st))
                               None None PNone false None)),
                   st1)
         | Raise e => (Raise e, st1)
         end.
Proof.
  intros Hcontent.
  destruct (get_content_frame st st1 content Hcontent) as [Hpath Hcommit].
  unfold CommittedFile.get_symlink_target. method. rewrite Hcontent.
  destruct (posixpath.isabs content); [reflexivity|].
  destruct (decode_str content) as [d|e]; [|reflexivity].
  rewrite Hpath, Hcommit.
  destruct (startswith (lit "..") _); reflexivity.
Qed.

(** C6: [get_symlink_target()] answers no target when the content is an
    absolute path, and when the content joined to the directory of the
    symlink and normalized starts with two dots; otherwise it answers a new
    file, without mode or object id, for the normalized path at the same
    commit.  For a symlink at a path of two names and the content
    "../../etc/passwd" there is no target; for a symlink at a path of names
    and the content "sibling.txt" the target is the sibling. *)
Theorem get_symlink_target_in_repository :
  (forall st content st1,
      CommittedFile.get_content st = (Ok content, st1) ->
      (posixpath.isabs content = true ->
       CommittedFile.get_symlink_target st = (Ok None, st1)) /\
      (forall d,
          posixpath.isabs content = false ->
          decode_str content = Ok d ->
          (startswith (lit "..")
             (posixpath.normpath
                (posixpath.join (CommittedFile.path (self st)) [lit ".."; d]))
           = true ->
           CommittedFile.get_symlink_target st = (Ok None, st1)) /\
          (startswith (lit "..")
             (posixpath.normpath
                (posixpath.join (CommittedFile.path (self st)) [lit ".."; d]))
           = false ->
           CommittedFile.get_symlink_target st
           = (Ok (Some (CommittedFile.mk
                          (posixpath.normpath
                             (posixpath.join (CommittedFile.path (self st))
                                [lit ".."; d]))
                          (CommittedFile.commit (self st))
                          None None PNone false None)),
              st1)))) /\
  (forall st st1 dir name,
      plain_name dir -> plain_name name ->
      CommittedFile.path (self st) = dir ++ lit "/" ++ name ->
      CommittedFile.get_content st = (Ok (lit "../../etc/passwd"), st1) ->
      decode_str (lit "../../etc/passwd") = Ok (lit "../../etc/passwd") ->
      CommittedFile.get_symlink_target st = (Ok None, st1)) /\
  (forall st st1 comps,
      comps <> [] -> Forall plain_name comps ->
      CommittedFile.path (self st) = Py.join (lit "/") comps ->
      CommittedFile.get_content st = (Ok (lit "sibling.txt"), st1) ->
      decode_str (lit "sibling.txt") = Ok (lit "sibling.txt") ->
      CommittedFile.get_symlink_target st
      = (Ok (Some (CommittedFile.mk
                     (Py.join (lit "/")
                        (removelast comps ++ [lit "sibling.txt"]))
                     (CommittedFile.commit (self st))
                     None None PNone false None)),
         st1)).
Proof.
  split; [|split].
  - intros st content st1 Hcontent.
    rewrite (get_symlink_target_run st st1 content Hcontent). split.
    + intros ->. reflexivity.
    + intros d -> ->. split; intros ->; reflexivity.
  - intros st st1 dir name Hdir Hname Hpath Hcontent Hdecode.
    rewrite (get_symlink_target_run st st1 _ Hcontent), Hdecode, Hpath.
    replace (posixpath.isabs (lit "../../etc/passwd")) with false
      by reflexivity.
    pose proof (normpath_link [dir; name]
                  [lit ".."; lit ".."; lit "etc"; lit "passwd"]) as Hnorm.
    change (Py.join (lit "/") [dir; name]) with (dir ++ lit "/" ++ name)
      in Hnorm.
    change (Py.join (lit "/") [lit ".."; lit ".."; lit "etc"; lit "passwd"])
      with (lit "../../etc/passwd") in Hnorm.
    rewrite Hnorm.
    + cbn [fold_left].
      rewrite (norm_step_pop [dir] name Hname
               : posixpath.norm_step 0 [dir; name] (lit "..") = [dir]).
      rewrite (norm_step_pop [] dir Hdir
               : posixpath.norm_step 0 [dir] (lit "..") = []).
      reflexivity.
    + discriminate.
    + constructor; [assumption | constructor; [assumption | constructor]].
    + discriminate.
    + repeat constructor; intros Hin; repeat destruct Hin as [Hin|Hin];
        try discriminate Hin; exact Hin.
    + reflexivity.
  - intros st st1 comps Hne Hall Hpath Hcontent Hdecode.
    rewrite (get_symlink_target_run st st1 _ Hcontent), Hdecode, Hpath.
    replace (posixpath.isabs (lit "sibling.txt")) with false by reflexivity.
    pose proof (normpath_link comps [lit "sibling.txt"]) as Hnorm.
    change (Py.join (lit "/") [lit "sibling.txt"]) with (lit "sibling.txt")
      in Hnorm.
    rewrite Hnorm; clear Hnorm.
    + destruct (exists_last Hne) as (init & c & ->).
      apply Forall_app in Hall as [Hinit Hc]. apply Forall_inv in Hc.
      cbn [fold_left].
      rewrite (norm_step_pop init c Hc), removelast_last.
      rewrite (norm_step_other init (lit "sibling.txt"))
        by discriminate.
      destruct init as [|c0 init].
      * reflexivity.
      * apply Forall_inv in Hinit.
        destruct (join_head (lit "/") c0 (init ++ [lit "sibling.txt"]))
          as [r Hr].
        change (Py.join (lit "/") ((c0 :: init) ++ [lit "sibling.txt"]))
          with (Py.join (lit "/") (c0 :: init ++ [lit "sibling.txt"])).
        rewrite Hr.
        pose proof (startswith_dotdot_plain c0 r Hinit) as Hstart.
        destruct Hinit as (Hc0 & _).
        destruct c0 as [|x c0]; [contradiction|].
        cbn [app] in *. rewrite Hstart. reflexivity.
    + assumption.
    + assumption.
    + discriminate.
    + repeat constructor; intros Hin; repeat destruct Hin as [Hin|Hin];
        try discriminate Hin; exact Hin.
    + reflexivity.
Qed.

End Symlink.

(** From a path of three names the same content stays in the repository:
    it names the path etc/passwd at the root. *)
Lemma get_symlink_target_from_three_names :
  fst (@CommittedFile.get_symlink_target
         (example_env (lit "../../etc/passwd"))
         (mkState
            (example_file "8a1f3c5e7b9d0f2a4c6e8b0d2f4a6c8e0b1d3f5a"
               "a/b/link" "120000" "e69de29") []))
  = Ok (Some (CommittedFile.mk (lit "etc/passwd")
                (Some {| ref_commit_id :=
                           PStr (lit "8a1f3c5e7b9d0f2a4c6e8b0d2f4a6c8e0b1d3f5a")
                      |})
                None None PNone false None)).
Proof. vm_compute. reflexivity. Qed.

Lemma get_symlink_target_in_repository_witness :
  @CommittedFile.get_symlink_target (example_env [])
    (mkState
       (CommittedFile.set_content (Some (lit "sibling.txt"))
          (example_file "8a1f3c5e7b9d0f2a4c6e8b0d2f4a6c8e0b1d3f5a"
             "docs/link" "120000" "e69de29")) [])
  = (Ok (Some (CommittedFile.mk (lit "docs/sibling.txt")
                 (Some {| ref_commit_id :=
                            PStr (lit "8a1f3c5e7b9d0f2a4c6e8b0d2f4a6c8e0b1d3f5a")
                       |})
                 None None PNone false None)),
     mkState
       (CommittedFile.set_content (Some (lit "sibling.txt"))
          (example_file "8a1f3c5e7b9d0f2a4c6e8b0d2f4a6c8e0b1d3f5a"
             "docs/link" "120000" "e69de29")) []).
Proof.
  assert (Hdocs : plain_name (lit "docs"))
    by (repeat split; try discriminate;
        intros Hin; repeat destruct Hin as [Hin|Hin]; try discriminate Hin;
        exact Hin).
  assert (Hlink : plain_name (lit "link"))
    by (repeat split; try discriminate;
        intros Hin; repeat destruct Hin as [Hin|Hin]; try discriminate Hin;
        exact Hin).
  assert (Hne : [lit "docs"; lit "link"] <> []) by discriminate.
  exact (proj2 (proj2 (@get_symlink_target_in_repository (example_env [])))
           (mkState
              (CommittedFile.set_content (Some (lit "sibling.txt"))
                 (example_file "8a1f3c5e7b9d0f2a4c6e8b0d2f4a6c8e0b1d3f5a"
                    "docs/link" "120000" "e69de29")) [])
           (mkState
              (CommittedFile.set_content (Some (lit "sibling.txt"))
                 (example_file "8a1f3c5e7b9d0f2a4c6e8b0d2f4a6c8e0b1d3f5a"
                    "docs/link" "120000" "e69de29")) [])
           [lit "docs"; lit "link"] Hne
           (Forall_cons _ Hdocs (Forall_cons _ Hlink (Forall_nil _)))
           eq_refl eq_refl eq_refl).
Defined.

(** * Further properties of the code *)

(** ** What a fetched body assigns *)

Section Fetched_body.
Context `{Env}.

Lemma decoded_lines (lines : list bytes) :
  Forall (fun line => exists d, decode_str line = Ok d) lines ->
  exists ds, Forall2 (fun line d => decode_str line = Ok d) lines ds.
Proof.
  induction 1 as [|line lines [d Hd] _ [ds IH]].
  - exists []. constructor.
  - exists (d :: ds). constructor; assumption.
Qed.

(** A header line that can be read: what it leaves in the attributes. *)
Lemma header_line_state (line : bytes) (s : state Commit.t)
  (ps : list Commit.t) :
  Commit._parents (self s) = Some ps ->
  header_parses line ->
  exists s1,
    Commit.header_line line s = (Ok tt, s1) /\
    calls s1 = calls s /\
    Commit.content_fetched (self s1) = Commit.content_fetched (self s) /\
    Commit._message_lines (self s1) = Commit._message_lines (self s) /\
    Commit._parents (self s1)
    = Some (ps ++ (if startswith (lit "parent ") line
                   then [Commit.__init__
                           (PBytes (rstrip isspace_bytes
                                      (skipn (length (lit "parent ")) line)))]
                   else [])) /\
    Commit._author (self s1)
    = contributor_after (lit "author ") (Commit._author (self s)) line /\
    Commit._committer (self s1)
    = contributor_after (lit "committer ") (Commit._committer (self s)) line.
Proof.
  intros Hparents [Hauthor Hcommitter].
  assert (Hpa : startswith (lit "parent ") line = true ->
                startswith (lit "author ") line = false)
    by (apply (starts_other 112%N 97%N (lit "arent ") (lit "uthor ") line);
        discriminate).
  assert (Hpc : startswith (lit "parent ") line = true ->
                startswith (lit "committer ") line = false)
    by (apply (starts_other 112%N 99%N (lit "arent ") (lit "ommitter ") line);
        discriminate).
  assert (Hac : startswith (lit "author ") line = true ->
                startswith (lit "committer ") line = false)
    by (apply (starts_other 97%N 99%N (lit "uthor ") (lit "ommitter ") line);
        discriminate).
  unfold Commit.header_line, contributor_after. method.
  unfold Commit.attribute.
  destruct (startswith (lit "parent ") line) eqn:Hp.
  - rewrite Hparents, (Hpa eq_refl), (Hpc eq_refl). method.
    eexists; repeat split; reflexivity.
  - destruct (startswith (lit "author ") line) eqn:Ha.
    + destruct (Hauthor eq_refl) as [a Hparse]. rewrite Hparse, (Hac eq_refl).
      eexists; repeat split; try reflexivity.
      cbn. rewrite Hparents, app_nil_r. reflexivity.
    + destruct (startswith (lit "committer ") line) eqn:Hc.
      * destruct (Hcommitter eq_refl) as [c Hparse]. rewrite Hparse.
        eexists; repeat split; try reflexivity.
        cbn. rewrite Hparents, app_nil_r. reflexivity.
      * eexists; repeat split; try reflexivity.
        rewrite Hparents, app_nil_r. reflexivity.
Qed.

Lemma parents_of_cons (c : N) (line : bytes) (lines : list bytes) :
  parents_of ((c :: line) :: lines)
  = (if startswith (lit "parent ") (c :: line)
     then [Commit.__init__
             (PBytes (rstrip isspace_bytes
                        (skipn (length (lit "parent ")) (c :: line))))]
     else [])
    ++ parents_of lines.
Proof.
  unfold parents_of. cbn [header_lines filter].
  destruct (startswith (lit "parent ") (c :: line)); reflexivity.
Qed.

Lemma fetch_headers_state (lines : list bytes) :
  forall s ps,
    Commit._parents (self s) = Some ps ->
    Forall header_parses (header_lines lines) ->
    exists s1,
      Commit.fetch_headers lines s = (Ok (message_part lines), s1) /\
      calls s1 = calls s /\
      Commit.content_fetched (self s1) = Commit.content_fetched (self s) /\
      Commit._message_lines (self s1) = Commit._message_lines (self s) /\
      Commit._parents (self s1) = Some (ps ++ parents_of lines) /\
      Commit._author (self s1)
      = last_contributor (lit "author ") lines (Commit._author (self s)) /\
      Commit._committer (self s1)
      = last_contributor (lit "committer ") lines
          (Commit._committer (self s)).
Proof.
  induction lines as [|line lines IH]; intros s ps Hparents Hall.
  - exists s. cbn. rewrite app_nil_r. auto 8.
  - destruct line as [|c line].
    + exists s. cbn. rewrite app_nil_r. auto 8.
    + cbn [header_lines message_part] in *.
      inversion Hall as [|? ? Hline Hrest]; subst.
      destruct (header_line_state (c :: line) s ps Hparents Hline)
        as (s1 & Hstep & Hc1 & Hf1 & Hm1 & Hp1 & Ha1 & Hk1).
      destruct (IH s1 _ Hp1 Hrest)
        as (s2 & Hloop & Hc2 & Hf2 & Hm2 & Hp2 & Ha2 & Hk2).
      exists s2. cbn [Commit.fetch_headers]. unfold bind.
      rewrite Hstep, Hloop.
      split; [reflexivity|]. split; [congruence|]. split; [congruence|].
      split; [congruence|]. split; [|split].
      * rewrite Hp2, parents_of_cons, <- app_assoc. reflexivity.
      * rewrite Ha2, Ha1. reflexivity.
      * rewrite Hk2, Hk1. reflexivity.
Qed.

Lemma fetch_message_state (lines : list bytes) :
  forall ds s ms,
    Commit._message_lines (self s) = Some ms ->
    Forall2 (fun line d => decode_str line = Ok d) lines ds ->
    exists s1,
      Commit.fetch_message lines s = (Ok tt, s1) /\
      calls s1 = calls s /\
      Commit.content_fetched (self s1) = Commit.content_fetched (self s) /\
      Commit._message_lines (self s1) = Some (ms ++ ds) /\
      Commit._parents (self s1) = Commit._parents (self s) /\
      Commit._author (self s1) = Commit._author (self s) /\
      Commit._committer (self s1) = Commit._committer (self s).
Proof.
  induction lines as [|line lines IH]; intros ds s ms Hlines Hall;
    inversion Hall as [|? d ? ds' Hd Hrest]; subst.
  - exists s. cbn. rewrite app_nil_r. auto 8.
  - cbn [Commit.fetch_message]. unfold bind at 1.
    unfold Commit.message_line, Commit.attribute. method.
    rewrite Hd, Hlines. method.
    match goal with
    | |- context [Commit.fetch_message lines ?s0] =>
        destruct (IH ds' s0 (ms ++ [d]) eq_refl Hrest)
          as (s1 & Hloop & Hc & Hf & Hm & Hp & Ha & Hk)
    end.
    exists s1. rewrite Hloop. cbn in *.
    rewrite Hm, <- app_assoc. auto 8.
Qed.

(** The fetch of a body that can be read: one command, and the attributes
    it leaves. *)
Lemma _fetch_content_state (self0 : Commit.t) (log : list argv)
  (content : bytes) (ds : list str) :
  check_output log (Commit.cat_file_command self0) = Ok content ->
  Forall header_parses
         (header_lines (splitlines islinebreak_bytes content)) ->
  Forall2 (fun line d => decode_str line = Ok d)
          (message_part (splitlines islinebreak_bytes content)) ds ->
  exists s1,
    Commit._fetch_content (mkState self0 log) = (Ok tt, s1) /\
    calls s1 = log ++ [Commit.cat_file_command self0] /\
    Commit.content_fetched (self s1) = true /\
    Commit._parents (self s1)
    = Some (parents_of (splitlines islinebreak_bytes content)) /\
    Commit._message_lines (self s1) = Some ds /\
    Commit._author (self s1)
    = last_contributor (lit "author ")
        (splitlines islinebreak_bytes content) (Commit._author self0) /\
    Commit._committer (self s1)
    = last_contributor (lit "committer ")
        (splitlines islinebreak_bytes content) (Commit._committer self0).
Proof.
  intros Hrun Hheaders Hmessage.
  unfold Commit._fetch_content.
  unfold bind at 1. unfold get_self at 1. unfold bind at 1.
  unfold run at 1. cbn [self calls]. rewrite Hrun.
  unfold bind at 1, update at 1. unfold bind at 1, update at 1.
  cbn [self calls]. unfold bind at 1.
  match goal with
  | |- context [Commit.fetch_headers ?l ?s0] =>
      destruct (fetch_headers_state l s0 [] eq_refl Hheaders)
        as (s2 & Hh & Hc2 & Hf2 & Hm2 & Hp2 & Ha2 & Hk2)
  end.
  rewrite Hh. unfold bind at 1.
  destruct (fetch_message_state _ ds s2 [] Hm2 Hmessage)
    as (s3 & Hm & Hc3 & Hf3 & Hm3 & Hp3 & Ha3 & Hk3).
  rewrite Hm. unfold update. eexists; split; [reflexivity|].
  cbn [self calls Commit._author Commit._committer Commit._parents
         Commit._message_lines Commit.content_fetched
         Commit.set_message_lines Commit.set_parents
         Commit.set_content_fetched] in *.
  rewrite Hc3, Hc2, Hp3, Hp2, Hm3, Ha3, Ha2, Hk3, Hk2.
  repeat split; reflexivity.
Qed.

End Fetched_body.

Section Fetched_accessors.
Context `{Env}.

Lemma last_contributor_split (prefix : bytes) (lines pre post : list bytes)
  (l : bytes) (a : Contributor.t) (before : option Contributor.t) :
  header_lines lines = pre ++ l :: post ->
  startswith prefix l = true ->
  Forall (fun line => startswith prefix line = false) post ->
  Contributor.parse (skipn (length prefix) l) = Ok a ->
  last_contributor prefix lines before = Some a.
Proof.
  intros Hlines Hl Hpost Hparse. unfold last_contributor.
  rewrite Hlines, fold_left_app. cbn [fold_left].
  unfold contributor_after at 2. rewrite Hl, Hparse.
  clear Hlines. induction Hpost as [|x post Hx _ IH]; [reflexivity|].
  cbn [fold_left]. unfold contributor_after at 2. rewrite Hx. exact IH.
Qed.

(** [get_parents()] gives a commit for each [parent ] header of the body, in
    the order of the headers; its id is the rest of the line, as bytes,
    without trailing whitespace. *)
Theorem get_parents_of_headers (self0 : Commit.t) (log : list argv)
  (content : bytes) :
  Commit.content_fetched self0 = false ->
  check_output log (Commit.cat_file_command self0) = Ok content ->
  body_parses content ->
  fst (Commit.get_parents (mkState self0 log))
  = Ok (parents_of (splitlines islinebreak_bytes content)).
Proof.
  intros Hflag Hrun [Hheaders Hmessage].
  destruct (decoded_lines _ Hmessage) as [ds Hds].
  destruct (_fetch_content_state self0 log content ds Hrun Hheaders Hds)
    as (s1 & Hfetch & _ & _ & Hparents & _).
  unfold Commit.get_parents.
  rewrite (accessor_after_fetch _ (mkState self0 log) s1 Hflag Hfetch).
  rewrite Hparents. reflexivity.
Qed.

(** The parents that [get_parents()] gives carry their ids as bytes: each is
    true as a condition, whatever its id, and none equals a commit made from
    an id given as text, in either order. *)
Theorem parents_have_bytes_ids (self0 : Commit.t) (log : list argv)
  (content : bytes) :
  Commit.content_fetched self0 = false ->
  check_output log (Commit.cat_file_command self0) = Ok content ->
  body_parses content ->
  exists ps,
    fst (Commit.get_parents (mkState self0 log)) = Ok ps /\
    Forall (fun p =>
              (exists id, Commit.commit_id p = PBytes id) /\
              Commit.__bool__ p = true /\
              forall id,
                Commit.__eq__ (Commit.__init__ (PStr id)) (Some p) = false /\
                Commit.__eq__ p (Some (Commit.__init__ (PStr id))) = false)
           ps.
Proof.
  intros Hflag Hrun [Hheaders Hmessage].
  destruct (decoded_lines _ Hmessage) as [ds Hds].
  destruct (_fetch_content_state self0 log content ds Hrun Hheaders Hds)
    as (s1 & Hfetch & _ & _ & Hparents & _).
  exists (parents_of (splitlines islinebreak_bytes content)).
  split.
  { unfold Commit.get_parents.
    rewrite (accessor_after_fetch _ (mkState self0 log) s1 Hflag Hfetch).
    rewrite Hparents. reflexivity. }
  unfold parents_of. apply Forall_forall. intros p Hin.
  apply in_map_iff in Hin as (line & <- & _).
  split; [eexists; reflexivity|]. split; [reflexivity|].
  intros id. split; reflexivity.
Qed.

(** [get_message_lines()] gives the decoded lines that follow the first
    empty line of the body; [get_summary()] gives the first of them, and
    raises an index error when there is none. *)
Theorem get_message_lines_of_body (self0 : Commit.t) (log : list argv)
  (content : bytes) (ds : list str) :
  Commit.content_fetched self0 = false ->
  check_output log (Commit.cat_file_command self0) = Ok content ->
  Forall header_parses
         (header_lines (splitlines islinebreak_bytes content)) ->
  Forall2 (fun line d => decode_str line = Ok d)
          (message_part (splitlines islinebreak_bytes content)) ds ->
  fst (Commit.get_message_lines (mkState self0 log)) = Ok ds /\
  fst (Commit.get_summary (mkState self0 log))
  = match ds with
    | summary :: _ => Ok summary
    | [] => Raise IndexError
    end.
Proof.
  intros Hflag Hrun Hheaders Hds.
  destruct (_fetch_content_state self0 log content ds Hrun Hheaders Hds)
    as (s1 & Hfetch & _ & _ & _ & Hlines & _).
  assert (Hget : Commit.get_message_lines (mkState self0 log) = (Ok ds, s1)).
  { unfold Commit.get_message_lines.
    rewrite (accessor_after_fetch _ (mkState self0 log) s1 Hflag Hfetch).
    rewrite Hlines. reflexivity. }
  split; [rewrite Hget; reflexivity|].
  unfold Commit.get_summary, bind. rewrite Hget.
  destruct ds; reflexivity.
Qed.

(** [get_author()] and [get_committer()] give the contributor of the last
    header of their kind: a later header replaces an earlier one. *)
Theorem get_author_of_last_header (self0 : Commit.t) (log : list argv)
  (content : bytes) :
  Commit.content_fetched self0 = false ->
  check_output log (Commit.cat_file_command self0) = Ok content ->
  body_parses content ->
  (forall pre l post a,
      header_lines (splitlines islinebreak_bytes content) = pre ++ l :: post ->
      startswith (lit "author ") l = true ->
      Forall (fun line => startswith (lit "author ") line = false) post ->
      Contributor.parse (skipn (length (lit "author ")) l) = Ok a ->
      fst (Commit.get_author (mkState self0 log)) = Ok a) /\
  (forall pre l post c,
      header_lines (splitlines islinebreak_bytes content) = pre ++ l :: post ->
      startswith (lit "committer ") l = true ->
      Forall (fun line => startswith (lit "committer ") line = false) post ->
      Contributor.parse (skipn (length (lit "committer ")) l) = Ok c ->
      fst (Commit.get_committer (mkState self0 log)) = Ok c).
Proof.
  intros Hflag Hrun [Hheaders Hmessage].
  destruct (decoded_lines _ Hmessage) as [ds Hds].
  destruct (_fetch_content_state self0 log content ds Hrun Hheaders Hds)
    as (s1 & Hfetch & _ & _ & _ & _ & Hauthor & Hcommitter).
  unfold Commit.get_author, Commit.get_committer.
  rewrite !(accessor_after_fetch _ (mkState self0 log) s1 Hflag Hfetch).
  split; intros pre l post a Hlines Hl Hpost Hparse.
  - rewrite Hauthor,
      (last_contributor_split _ _ pre post l a _ Hlines Hl Hpost Hparse).
    reflexivity.
  - rewrite Hcommitter,
      (last_contributor_split _ _ pre post l a _ Hlines Hl Hpost Hparse).
    reflexivity.
Qed.

End Fetched_accessors.

Lemma merge_body_parses : @body_parses (example_env merge_body) merge_body.
Proof.
  split.
  - repeat constructor; try (intros Hstarts; discriminate Hstarts);
      intros _; eexists; vm_compute; reflexivity.
  - repeat constructor; eexists; vm_compute; reflexivity.
Defined.

Lemma get_parents_of_headers_witness :
  fst (@Commit.get_parents (example_env merge_body)
         (mkState example_commit []))
  = Ok [Commit.__init__
          (PBytes (lit "1111111111111111111111111111111111111111"));
        Commit.__init__
          (PBytes (lit "2222222222222222222222222222222222222222"))].
Proof.
  exact (@get_parents_of_headers (example_env merge_body) example_commit []
           merge_body eq_refl eq_refl merge_body_parses).
Defined.

Lemma parents_have_bytes_ids_witness :
  exists ps,
    fst (@Commit.get_parents (example_env merge_body)
           (mkState example_commit [])) = Ok ps /\
    Forall (fun p =>
              (exists id, Commit.commit_id p = PBytes id) /\
              Commit.__bool__ p = true /\
              forall id,
                Commit.__eq__ (Commit.__init__ (PStr id)) (Some p) = false /\
                Commit.__eq__ p (Some (Commit.__init__ (PStr id))) = false)
           ps.
Proof.
  exact (@parents_have_bytes_ids (example_env merge_body) example_commit []
           merge_body eq_refl eq_refl merge_body_parses).
Defined.

Lemma get_message_lines_of_body_witness :
  fst (@Commit.get_message_lines (example_env merge_body)
         (mkState example_commit []))
  = Ok [lit "[WIP] Merge topic"; []; lit "Details."] /\
  fst (@Commit.get_summary (example_env merge_body)
         (mkState example_commit []))
  = Ok (lit "[WIP] Merge topic").
Proof.
  assert (Hlines :
            Forall2 (fun line d => @decode_str (example_env merge_body) line
                                   = Ok d)
              (message_part (splitlines islinebreak_bytes merge_body))
              [lit "[WIP] Merge topic"; []; lit "Details."]).
  { replace (message_part (splitlines islinebreak_bytes merge_body))
      with [lit "[WIP] Merge topic"; []; lit "Details."]
      by (vm_compute; reflexivity).
    repeat constructor. }
  exact (@get_message_lines_of_body (example_env merge_body) example_commit
           [] merge_body _ eq_refl eq_refl (proj1 merge_body_parses) Hlines).
Defined.

Lemma twice_signed_body_parses :
  @body_parses (example_env twice_signed_body) twice_signed_body.
Proof.
  split.
  - repeat constructor; try (intros Hstarts; discriminate Hstarts);
      intros _; eexists; vm_compute; reflexivity.
  - repeat constructor; eexists; vm_compute; reflexivity.
Defined.

Lemma get_author_of_last_header_witness :
  fst (@Commit.get_author (example_env twice_signed_body)
         (mkState example_commit []))
  = Ok (Contributor.mk (lit "Second Author") (lit "second@example.com")
          1700000100) /\
  fst (@Commit.get_committer (example_env twice_signed_body)
         (mkState example_commit []))
  = Ok (Contributor.mk (lit "Second Mitter") (lit "two@example.org")
          1700000300).
Proof.
  split.
  - apply (proj1 (@get_author_of_last_header (example_env twice_signed_body)
                    example_commit [] twice_signed_body eq_refl eq_refl
                    twice_signed_body_parses)
             [lit "tree 4b825dc642cb6eb9a060e54bf8d69288fbee4904";
              lit "author First Author <first@example.com> 1700000000 +0000"]
             (lit "author Second Author <second@example.com> 1700000100 +0000")
             [lit "committer First Mitter <one@example.org> 1700000200 +0100";
              lit "committer Second Mitter <two@example.org> 1700000300 +0100"]).
    + vm_compute; reflexivity.
    + reflexivity.
    + repeat constructor.
    + vm_compute; reflexivity.
  - apply (proj2 (@get_author_of_last_header (example_env twice_signed_body)
                    example_commit [] twice_signed_body eq_refl eq_refl
                    twice_signed_body_parses)
             [lit "tree 4b825dc642cb6eb9a060e54bf8d69288fbee4904";
              lit "author First Author <first@example.com> 1700000000 +0000";
              lit "author Second Author <second@example.com> 1700000100 +0000";
              lit "committer First Mitter <one@example.org> 1700000200 +0100"]
             (lit "committer Second Mitter <two@example.org> 1700000300 +0100")
             []).
    + vm_compute; reflexivity.
    + reflexivity.
    + constructor.
    + vm_compute; reflexivity.
Defined.

(** ** One fetch for all the accessors, and none kept after a failure *)

Section Shared_fetch.
Context `{Env}.

Lemma fetch_frame_refl (s : state Commit.t) : fetch_frame s s.
Proof. unfold fetch_frame; auto. Qed.

Lemma fetch_frame_trans (s s1 s2 : state Commit.t) :
  fetch_frame s s1 -> fetch_frame s1 s2 -> fetch_frame s s2.
Proof.
  intros (Hc & Hf & Hp & Hm) (Hc' & Hf' & Hp' & Hm').
  unfold fetch_frame. repeat split; try congruence; auto.
Qed.

Lemma header_line_frame (line : bytes) (s : state Commit.t) :
  fetch_frame s (snd (Commit.header_line line s)).
Proof.
  unfold Commit.header_line, Commit.attribute. method.
  destruct (startswith (lit "parent ") line).
  - destruct (Commit._parents (self s)) eqn:Hp; cbn;
      unfold fetch_frame; cbn; repeat split; auto; discriminate.
  - destruct (startswith (lit "author ") line).
    + destruct (Contributor.parse _); cbn; unfold fetch_frame; cbn; auto.
    + destruct (startswith (lit "committer ") line);
        [|apply fetch_frame_refl].
      destruct (Contributor.parse _); cbn; unfold fetch_frame; cbn; auto.
Qed.

Lemma fetch_headers_frame (lines : list bytes) :
  forall s, fetch_frame s (snd (Commit.fetch_headers lines s)).
Proof.
  induction lines as [|line lines IH]; intros s; [apply fetch_frame_refl|].
  destruct line as [|c line]; [apply fetch_frame_refl|].
  cbn [Commit.fetch_headers]. unfold bind.
  pose proof (header_line_frame (c :: line) s) as Hstep.
  destruct (Commit.header_line (c :: line) s) as [[[]|e] s1]; cbn in Hstep.
  - apply (fetch_frame_trans s s1 _ Hstep (IH s1)).
  - exact Hstep.
Qed.

Lemma message_line_frame (line : bytes) (s : state Commit.t) :
  fetch_frame s (snd (Commit.message_line line s)).
Proof.
  unfold Commit.message_line, Commit.attribute. method.
  destruct (decode_str line); [|apply fetch_frame_refl].
  destruct (Commit._message_lines (self s)) eqn:Hm; cbn;
    unfold fetch_frame; cbn; repeat split; auto; discriminate.
Qed.

Lemma fetch_message_frame (lines : list bytes) :
  forall s, fetch_frame s (snd (Commit.fetch_message lines s)).
Proof.
  induction lines as [|line lines IH]; intros s; [apply fetch_frame_refl|].
  cbn [Commit.fetch_message]. unfold bind.
  pose proof (message_line_frame line s) as Hstep.
  destruct (Commit.message_line line s) as [[[]|e] s1]; cbn in Hstep.
  - apply (fetch_frame_trans s s1 _ Hstep (IH s1)).
  - exact Hstep.
Qed.

(** The outcome of [_fetch_content]: the command is in the log; a fetch
    that returns has set the flag and assigned the two lists, one that
    raises has left the flag as it was. *)
Lemma _fetch_content_outcome (s s1 : state Commit.t) (r : result unit) :
  Commit._fetch_content s = (r, s1) ->
  calls s1 = calls s ++ [Commit.cat_file_command (self s)] /\
  match r with
  | Ok _ =>
      Commit.content_fetched (self s1) = true /\
      Commit._parents (self s1) <> None /\
      Commit._message_lines (self s1) <> None
  | Raise _ =>
      Commit.content_fetched (self s1) = Commit.content_fetched (self s)
  end.
Proof.
  unfold Commit._fetch_content.
  unfold bind at 1. unfold get_self at 1. unfold bind at 1.
  unfold run at 1.
  destruct (check_output (calls s) (Commit.cat_file_command (self s)))
    as [content|e]; [|intros [= <- <-]; cbn; auto].
  unfold bind at 1, update at 1. unfold bind at 1, update at 1.
  cbn [self calls]. unfold bind at 1.
  match goal with
  | |- context [Commit.fetch_headers ?l ?s0] =>
      pose proof (fetch_headers_frame l s0) as (Hc & Hf & Hp & Hm);
      destruct (Commit.fetch_headers l s0) as [[rest|e] s2]
  end; cbn [fst snd self calls] in *; [|intros [= <- <-]; auto].
  unfold bind at 1.
  pose proof (fetch_message_frame rest s2) as (Hc' & Hf' & Hp' & Hm').
  destruct (Commit.fetch_message rest s2) as [[[]|e] s3];
    cbn [fst snd self calls] in *.
  - unfold update. intros [= <- <-]. cbn. split; [congruence|].
    split; [reflexivity|].
    destruct s as [[] log]; cbn in Hp, Hm.
    split; [apply Hp', Hp | apply Hm', Hm]; discriminate.
  - intros [= <- <-]. destruct s as [[] log]; cbn in Hf, Hc |- *.
    split; congruence.
Qed.

(** Once the flag is set, an accessor of the fetched content changes
    nothing. *)
Lemma content_accessor_idle {A} (proj : Commit.t -> option A)
  (s : state Commit.t) :
  Commit.content_fetched (self s) = true ->
  snd ((Commit.ensure_content ;; self <- get_self ;;
        Commit.attribute (proj self)) s) = s.
Proof.
  intros Hflag. unfold Commit.ensure_content, Commit.attribute. method.
  rewrite Hflag. destruct (proj (self s)); reflexivity.
Qed.

(** An accessor of the fetched content that returns has the flag set. *)
Lemma content_accessor_done {A} (proj : Commit.t -> option A)
  (s s1 : state Commit.t) (v : A) :
  (Commit.ensure_content ;; self <- get_self ;;
   Commit.attribute (proj self)) s = (Ok v, s1) ->
  Commit.content_fetched (self s1) = true.
Proof.
  unfold Commit.ensure_content, Commit.attribute. method.
  destruct (Commit.content_fetched (self s)) eqn:Hflag.
  - destruct (proj (self s)); [|discriminate]. intros [= _ <-]. exact Hflag.
  - destruct (Commit._fetch_content s) as [[[]|e] s2] eqn:Hfetch;
      [|discriminate].
    destruct (_fetch_content_outcome s s2 (Ok tt) Hfetch) as [_ [Hdone _]].
    destruct (proj (self s2)); [|discriminate]. intros [= _ <-]. exact Hdone.
Qed.

End Shared_fetch.

Section Shared_fetch_properties.
Context `{Env}.

Lemma bind_idle {O A B} (m : M O A) (k : A -> M O B) (s : state O) :
  snd (m s) = s -> (forall a, snd (k a s) = s) ->
  snd ((x <- m ;; k x) s) = s.
Proof.
  intros Hm Hk. unfold bind.
  destruct (m s) as [[a|e] s1]; cbn in Hm; subst; [apply Hk | reflexivity].
Qed.

(** An accessor that raises on a commit whose body is not fetched: the
    fetch raised, or it returned and the attribute is missing. *)
Lemma content_accessor_raises {A} (proj : Commit.t -> option A)
  (s s1 : state Commit.t) (e : exn) :
  Commit.content_fetched (self s) = false ->
  (Commit.ensure_content ;; self <- get_self ;;
   Commit.attribute (proj self)) s = (Raise e, s1) ->
  Commit._fetch_content s = (Raise e, s1) \/
  (Commit._fetch_content s = (Ok tt, s1) /\ proj (self s1) = None).
Proof.
  intros Hflag. unfold Commit.ensure_content, Commit.attribute. method.
  rewrite Hflag.
  destruct (Commit._fetch_content s) as [[[]|e'] s2].
  - destruct (proj (self s2)) eqn:Hproj; [discriminate|].
    intros [= _ <-]. right. auto.
  - intros [= <- <-]. left. reflexivity.
Qed.

(** Once any of [get_parents], [get_author], [get_committer] and
    [get_message_lines] has returned, the body of the commit is fetched for
    all of them: none of the seven methods that read it runs a command or
    changes the commit again. *)
Theorem one_fetch_serves_every_accessor (s s1 : state Commit.t) :
  (exists ps, Commit.get_parents s = (Ok ps, s1)) \/
  (exists a, Commit.get_author s = (Ok a, s1)) \/
  (exists c, Commit.get_committer s = (Ok c, s1)) \/
  (exists ls, Commit.get_message_lines s = (Ok ls, s1)) ->
  snd (Commit.get_parents s1) = s1 /\
  snd (Commit.get_author s1) = s1 /\
  snd (Commit.get_committer s1) = s1 /\
  snd (Commit.get_message_lines s1) = s1 /\
  snd (Commit.get_summary s1) = s1 /\
  snd (Commit.parse_tags s1) = s1 /\
  snd (Commit.content_can_fail s1) = s1.
Proof.
  intros Hcall.
  assert (Hflag : Commit.content_fetched (self s1) = true).
  { destruct Hcall as [[v Hv]|[[v Hv]|[[v Hv]|[v Hv]]]];
      eapply content_accessor_done; exact Hv. }
  assert (Hlines : snd (Commit.get_message_lines s1) = s1)
    by exact (content_accessor_idle Commit._message_lines s1 Hflag).
  assert (Hsummary : snd (Commit.get_summary s1) = s1)
    by (apply bind_idle; [exact Hlines | reflexivity]).
  assert (Htags : snd (Commit.parse_tags s1) = s1)
    by (apply bind_idle; [exact Hsummary | reflexivity]).
  repeat split.
  - exact (content_accessor_idle Commit._parents s1 Hflag).
  - exact (content_accessor_idle Commit._author s1 Hflag).
  - exact (content_accessor_idle Commit._committer s1 Hflag).
  - exact Hlines.
  - exact Hsummary.
  - exact Htags.
  - apply bind_idle; [exact Htags | reflexivity].
Qed.

(** A call that raises keeps nothing: after [get_parents] or
    [get_message_lines] has raised on a commit whose body was not fetched,
    the body is still not fetched, though the command has run; after
    [get_changed_files] or [get_binary_files] has raised, the list is still
    unset; after [get_projects] has raised on a commit whose project was
    not fetched, it is still not fetched.  The next call runs the command
    again. *)
Theorem failed_call_caches_nothing (s s1 : state Commit.t) (e : exn) :
  (Commit.content_fetched (self s) = false ->
   Commit.get_parents s = (Raise e, s1) \/
   Commit.get_message_lines s = (Raise e, s1) ->
   Commit.content_fetched (self s1) = false /\
   calls s1 = calls s ++ [Commit.cat_file_command (self s)]) /\
  (Commit.get_changed_files s = (Raise e, s1) ->
   Commit.changed_files (self s1) = None /\
   calls s1 = calls s ++ [Commit.diff_tree_command (self s)]) /\
  (Commit.get_binary_files s = (Raise e, s1) ->
   Commit.binary_files (self s1) = None /\
   calls s1 = calls s ++ [Commit.numstat_command (self s)]) /\
  (Commit.project_fetched (self s) = false ->
   Commit.get_projects s = (Raise e, s1) ->
   Commit.project_fetched (self s1) = false /\
   calls s1 = calls s ++ [remote_command]).
Proof.
  split; [|split; [|split]].
  - intros Hflag Hcall.
    assert (Hfetch : Commit._fetch_content s = (Raise e, s1)).
    { destruct Hcall as [Hcall|Hcall];
        apply content_accessor_raises in Hcall; try exact Hflag;
        destruct Hcall as [Hr|[Hok Hnone]]; try exact Hr;
        destruct (_fetch_content_outcome s s1 (Ok tt) Hok)
          as (_ & _ & Hp & Hm); contradiction. }
    destruct (_fetch_content_outcome s s1 (Raise e) Hfetch) as [Hc Hf].
    split; [congruence | exact Hc].
  - unfold Commit.get_changed_files. method.
    destruct (Commit.changed_files (self s)) eqn:Hnone; [discriminate|].
    destruct (check_output _ _); [|intros [= _ <-]; cbn; auto].
    destruct (decode_str _); [|intros [= _ <-]; cbn; auto].
    destruct (Commit.changed_files_loop _ _ _); [discriminate|].
    intros [= _ <-]; cbn; auto.
  - unfold Commit.get_binary_files. method.
    destruct (Commit.binary_files (self s)) eqn:Hnone; [discriminate|].
    destruct (check_output _ _); [|intros [= _ <-]; cbn; auto].
    destruct (decode_str _); [discriminate|].
    intros [= _ <-]; cbn; auto.
  - intros Hflag. unfold Commit.get_projects, Commit._get_project_info.
    unfold Commit.attribute. method. rewrite Hflag. method.
    destruct (check_output _ _); [|intros [= _ <-]; cbn; auto].
    destruct (project_of_remotes _); [discriminate|].
    intros [= _ <-]; cbn; auto.
Qed.

End Shared_fetch_properties.

Lemma one_fetch_serves_every_accessor_witness :
  snd (@Commit.get_parents (example_env merge_body) fetched_merge_commit)
  = fetched_merge_commit /\
  snd (@Commit.get_author (example_env merge_body) fetched_merge_commit)
  = fetched_merge_commit /\
  snd (@Commit.get_committer (example_env merge_body) fetched_merge_commit)
  = fetched_merge_commit /\
  snd (@Commit.get_message_lines (example_env merge_body)
         fetched_merge_commit)
  = fetched_merge_commit /\
  snd (@Commit.get_summary (example_env merge_body) fetched_merge_commit)
  = fetched_merge_commit /\
  snd (@Commit.parse_tags (example_env merge_body) fetched_merge_commit)
  = fetched_merge_commit /\
  snd (@Commit.content_can_fail (example_env merge_body)
         fetched_merge_commit)
  = fetched_merge_commit.
Proof.
  apply (@one_fetch_serves_every_accessor (example_env merge_body)
           (mkState example_commit []) fetched_merge_commit).
  left. eexists. vm_compute. reflexivity.
Defined.

(** ** Contributors *)

Section Contributor_lines.
Context `{Env}.

Lemma find_pair_first (a b : N) (t r : list N) :
  ~ In a t -> find [a; b] (t ++ a :: b :: r) = Some (length t).
Proof.
  induction t as [|x t IH]; intros Hfree.
  - cbn [app find startswith]. rewrite !N.eqb_refl. reflexivity.
  - cbn [app find]. cbn [startswith].
    replace (a =? x)%N with false
      by (symmetry; apply N.eqb_neq; intros ->; apply Hfree; left;
          reflexivity).
    cbn [andb]. rewrite IH by (intros Hin; apply Hfree; right; exact Hin).
    reflexivity.
Qed.

Lemma find_pair_second (a b : N) (t r : list N) :
  a <> b -> ~ In b t -> find [a; b] (t ++ a :: b :: r) = Some (length t).
Proof.
  intros Hab. induction t as [|x t IH]; intros Hfree.
  - cbn [app find startswith]. rewrite !N.eqb_refl. reflexivity.
  - cbn [app find].
    assert (Hnot : startswith [a; b] (x :: t ++ a :: b :: r) = false).
    { cbn [startswith]. destruct (a =? x)%N; [|reflexivity]. cbn [andb].
      destruct t as [|y t]; cbn [app].
      - replace (b =? a)%N with false
          by (symmetry; apply N.eqb_neq; congruence).
        reflexivity.
      - replace (b =? y)%N with false
          by (symmetry; apply N.eqb_neq; intros ->; apply Hfree; right; left;
              reflexivity).
        reflexivity. }
    rewrite Hnot, IH by (intros Hin; apply Hfree; right; exact Hin).
    reflexivity.
Qed.

Lemma find_pair_None (a b : N) (s : list N) :
  ~ In b s -> find [a; b] s = None.
Proof.
  induction s as [|x s IH]; intros Hfree; [reflexivity|].
  cbn [find].
  assert (Hnot : startswith [a; b] (x :: s) = false).
  { cbn [startswith]. destruct (a =? x)%N; [|reflexivity]. cbn [andb].
    destruct s as [|y s]; [reflexivity|].
    replace (b =? y)%N with false
      by (symmetry; apply N.eqb_neq; intros ->; apply Hfree; right; left;
          reflexivity).
    reflexivity. }
  rewrite Hnot, IH by (intros Hin; apply Hfree; right; exact Hin).
  reflexivity.
Qed.

Lemma split_once_at (sep t r : list N) :
  find sep (t ++ sep ++ r) = Some (length t) ->
  split_once sep (t ++ sep ++ r) = [t; r].
Proof.
  intros Hfind. unfold split_once. rewrite Hfind, firstn_prefix.
  rewrite <- length_app, app_assoc, skipn_prefix. reflexivity.
Qed.

(** [Contributor.parse] on a line
    [<name> <<email>> <timestamp> <zone>]: when the name has no [<], the
    address no [>] and the timestamp no space, the contributor has the
    decoded name, the decoded address and the integer of the timestamp, or
    the first error of the three conversions in that order; the zone is not
    read. *)
Theorem parse_contributor_line (name email timestamp zone : bytes) :
  ~ In 60%N name -> ~ In 62%N email -> ~ In 32%N timestamp ->
  Contributor.parse (contributor_line name email timestamp zone)
  = (n <- decode_str name ;;
     e <- decode_str email ;;
     ts <- int_of_bytes timestamp ;;
     Ok (Contributor.mk n e ts))%result.
Proof.
  intros Hname Hemail Hts. unfold Contributor.parse, contributor_line.
  rewrite (split_once_at (lit " <") name)
    by (apply (find_pair_second 32%N 60%N);
        [discriminate | exact Hname]).
  cbn [unpack2 rbind].
  rewrite (split_once_at (lit "> ") email)
    by (apply (find_pair_first 62%N 32%N); exact Hemail).
  cbn [unpack2 rbind].
  rewrite (split_once_at (lit " ") timestamp)
    by (apply (find_char_app 32%N); exact Hts).
  reflexivity.
Qed.

(** [Contributor.parse] raises a value error on a line without [<], and on
    a line that ends with the timestamp: one that names no zone. *)
Theorem parse_refuses_incomplete_line :
  (forall line : bytes,
      ~ In 60%N line -> Contributor.parse line = Raise ValueError) /\
  (forall name email timestamp : bytes,
      ~ In 60%N name -> ~ In 62%N email -> ~ In 32%N timestamp ->
      Contributor.parse
        (name ++ lit " <" ++ email ++ lit "> " ++ timestamp)
      = Raise ValueError).
Proof.
  split.
  - intros line Hfree. unfold Contributor.parse, split_once.
    replace (find (lit " <") line) with (@None nat)
      by (symmetry; apply (find_pair_None 32%N 60%N); exact Hfree).
    reflexivity.
  - intros name email timestamp Hname Hemail Hts.
    unfold Contributor.parse.
    rewrite (split_once_at (lit " <") name)
      by (apply (find_pair_second 32%N 60%N);
          [discriminate | exact Hname]).
    cbn [unpack2 rbind].
    rewrite (split_once_at (lit "> ") email)
      by (apply (find_pair_first 62%N 32%N); exact Hemail).
    cbn [unpack2 rbind]. unfold split_once.
    replace (find (lit " ") timestamp) with (@None nat)
      by (symmetry; apply (find_char_None 32%N); exact Hts).
    reflexivity.
Qed.

(** [get_email_domain()] never raises: it gives the whole address when the
    address has no [@], and what follows the first [@] otherwise. *)
Theorem get_email_domain_after_first_at (c : Contributor.t) :
  exists d,
    Contributor.get_email_domain c = Ok d /\
    (~ In 64%N (Contributor.email c) -> d = Contributor.email c) /\
    (forall user host,
        Contributor.email c = user ++ 64%N :: host -> ~ In 64%N user ->
        d = host).
Proof.
  unfold Contributor.get_email_domain, split_once.
  change (lit "@") with [64%N].
  destruct (find [64%N] (Contributor.email c)) as [i|] eqn:Hfind.
  - exists (skipn (i + length [64%N]) (Contributor.email c)).
    split; [reflexivity|].
    destruct (find_char_Some 64%N _ i Hfind) as (t & r & Hs & Hfree & Hlen).
    split.
    + intros Hnone. exfalso. apply Hnone. rewrite Hs.
      apply in_or_app. right. left. reflexivity.
    + intros user host Hemail Huser.
      rewrite Hemail in Hfind |- *.
      rewrite (find_char_app 64%N user host Huser) in Hfind.
      injection Hfind as <-.
      replace (length user + length [64%N]) with (S (length user))
        by (cbn; lia).
      apply skipn_past.
  - exists (Contributor.email c). split; [reflexivity|].
    split; [reflexivity|].
    intros user host Hemail Huser.
    rewrite Hemail, (find_char_app 64%N user host Huser) in Hfind.
    discriminate.
Qed.

End Contributor_lines.

Lemma parse_contributor_line_witness :
  @Contributor.parse (example_env [])
    (contributor_line (lit "A U Thor") (lit "author@example.com")
       (lit "1700000000") (lit "+0000"))
  = Ok (Contributor.mk (lit "A U Thor") (lit "author@example.com")
          1700000000).
Proof.
  apply (@parse_contributor_line (example_env []) (lit "A U Thor")
           (lit "author@example.com") (lit "1700000000") (lit "+0000"));
    intros Hin; vm_compute in Hin; intuition discriminate.
Defined.

(** ** A header that cannot be read *)

Section Unreadable_header.
Context `{Env}.

Lemma header_line_unreadable (l : bytes) (e : exn) (s : state Commit.t) :
  unreadable_contributor l e ->
  Commit.header_line l s = (Raise e, s).
Proof.
  assert (Hap : startswith (lit "author ") l = true ->
                startswith (lit "parent ") l = false)
    by (apply (starts_other 97%N 112%N (lit "uthor ") (lit "arent ") l);
        discriminate).
  assert (Hcp : startswith (lit "committer ") l = true ->
                startswith (lit "parent ") l = false)
    by (apply (starts_other 99%N 112%N (lit "ommitter ") (lit "arent ") l);
        discriminate).
  assert (Hca : startswith (lit "committer ") l = true ->
                startswith (lit "author ") l = false)
    by (apply (starts_other 99%N 97%N (lit "ommitter ") (lit "uthor ") l);
        discriminate).
  unfold Commit.header_line. method.
  intros [[Hstarts Hparse]|[Hstarts Hparse]].
  - rewrite (Hap Hstarts), Hstarts, Hparse. reflexivity.
  - rewrite (Hcp Hstarts), (Hca Hstarts), Hstarts, Hparse. reflexivity.
Qed.

Lemma fetch_headers_unreadable (pre : list bytes) :
  forall (s : state Commit.t) ps l post e,
    Commit._parents (self s) = Some ps ->
    Forall (fun line => line <> [] /\ header_parses line) pre ->
    unreadable_contributor l e ->
    fst (Commit.fetch_headers (pre ++ l :: post) s) = Raise e.
Proof.
  induction pre as [|x pre IH]; intros s ps l post e Hparents Hpre Hbad.
  - cbn [app Commit.fetch_headers].
    destruct l as [|c l];
      [destruct Hbad as [[Hs _]|[Hs _]]; discriminate Hs|].
    unfold bind. rewrite (header_line_unreadable _ e s Hbad). reflexivity.
  - apply Forall_inv in Hpre as Hx. apply Forall_inv_tail in Hpre.
    destruct Hx as [Hnonempty Hparses].
    destruct x as [|c x]; [contradiction|].
    cbn [app Commit.fetch_headers]. unfold bind.
    destruct (header_line_state (c :: x) s ps Hparents Hparses)
      as (s1 & Hstep & _ & _ & _ & Hp1 & _).
    rewrite Hstep. exact (IH s1 _ l post e Hp1 Hpre Hbad).
Qed.

Lemma accessor_fetch_raises {A} (proj : Commit.t -> option A)
  (s : state Commit.t) (e : exn) :
  Commit.content_fetched (self s) = false ->
  fst (Commit._fetch_content s) = Raise e ->
  fst ((Commit.ensure_content ;; self <- get_self ;;
        Commit.attribute (proj self)) s) = Raise e.
Proof.
  intros Hflag Hfetch. unfold Commit.ensure_content. method.
  rewrite Hflag.
  destruct (Commit._fetch_content s) as [[[]|e'] s1]; cbn in Hfetch |- *;
    [discriminate|]. injection Hfetch as ->. reflexivity.
Qed.

Lemma bind_raises {O A B} (m : M O A) (k : A -> M O B) (s : state O)
  (e : exn) :
  fst (m s) = Raise e -> fst ((x <- m ;; k x) s) = Raise e.
Proof.
  intros Hm. unfold bind.
  destruct (m s) as [[a|e'] s1]; cbn in Hm |- *; [discriminate|].
  injection Hm as ->. reflexivity.
Qed.

(** The body is read as a whole: when an author or committer header
    cannot be parsed, with all the lines before it non-empty and readable,
    every method that reads the body raises the error of that header, also
    [get_parents] and [get_message_lines], which do not read it
    themselves. *)
Theorem unreadable_header_fails_every_accessor (self0 : Commit.t)
  (log : list argv) (content : bytes) (pre post : list bytes) (l : bytes)
  (e : exn) :
  Commit.content_fetched self0 = false ->
  check_output log (Commit.cat_file_command self0) = Ok content ->
  splitlines islinebreak_bytes content = pre ++ l :: post ->
  Forall (fun line => line <> [] /\ header_parses line) pre ->
  unreadable_contributor l e ->
  fst (Commit.get_parents (mkState self0 log)) = Raise e /\
  fst (Commit.get_author (mkState self0 log)) = Raise e /\
  fst (Commit.get_committer (mkState self0 log)) = Raise e /\
  fst (Commit.get_message_lines (mkState self0 log)) = Raise e /\
  fst (Commit.get_summary (mkState self0 log)) = Raise e /\
  fst (Commit.parse_tags (mkState self0 log)) = Raise e /\
  fst (Commit.content_can_fail (mkState self0 log)) = Raise e.
Proof.
  intros Hflag Hrun Hlines Hpre Hbad.
  assert (Hfetch : fst (Commit._fetch_content (mkState self0 log)) = Raise e).
  { unfold Commit._fetch_content.
    unfold bind at 1. unfold get_self at 1. unfold bind at 1.
    unfold run at 1. cbn [self calls]. rewrite Hrun.
    unfold bind at 1, update at 1. unfold bind at 1, update at 1.
    cbn [self calls]. apply bind_raises. rewrite Hlines.
    apply (fetch_headers_unreadable pre _ [] l post e);
      [reflexivity | exact Hpre | exact Hbad]. }
  assert (Hlinesr : fst (Commit.get_message_lines (mkState self0 log))
                    = Raise e)
    by exact (accessor_fetch_raises Commit._message_lines (mkState self0 log) e Hflag
               Hfetch).
  assert (Hsummary : fst (Commit.get_summary (mkState self0 log)) = Raise e)
    by (apply bind_raises; exact Hlinesr).
  assert (Htags : fst (Commit.parse_tags (mkState self0 log)) = Raise e)
    by (apply bind_raises; exact Hsummary).
  repeat split.
  - exact (accessor_fetch_raises Commit._parents (mkState self0 log) e Hflag
               Hfetch).
  - exact (accessor_fetch_raises Commit._author (mkState self0 log) e Hflag
               Hfetch).
  - exact (accessor_fetch_raises Commit._committer (mkState self0 log) e Hflag
               Hfetch).
  - exact Hlinesr.
  - exact Hsummary.
  - exact Htags.
  - apply bind_raises; exact Htags.
Qed.

End Unreadable_header.

Lemma unreadable_header_fails_every_accessor_witness :
  fst (@Commit.get_parents (example_env body_without_address)
         (mkState example_commit [])) = Raise ValueError /\
  fst (@Commit.get_author (example_env body_without_address)
         (mkState example_commit [])) = Raise ValueError /\
  fst (@Commit.get_committer (example_env body_without_address)
         (mkState example_commit [])) = Raise ValueError /\
  fst (@Commit.get_message_lines (example_env body_without_address)
         (mkState example_commit [])) = Raise ValueError /\
  fst (@Commit.get_summary (example_env body_without_address)
         (mkState example_commit [])) = Raise ValueError /\
  fst (@Commit.parse_tags (example_env body_without_address)
         (mkState example_commit [])) = Raise ValueError /\
  fst (@Commit.content_can_fail (example_env body_without_address)
         (mkState example_commit [])) = Raise ValueError.
Proof.
  apply (@unreadable_header_fails_every_accessor
           (example_env body_without_address) example_commit []
           body_without_address
           [lit "tree 4b825dc642cb6eb9a060e54bf8d69288fbee4904";
            lit "parent 1111111111111111111111111111111111111111"]
           [lit "committer C O Mitter <committer@example.org> 1700000060 +0100";
            []; lit "Fix the build"]
           (lit "author nobody 1700000000 +0000") ValueError).
  - reflexivity.
  - reflexivity.
  - vm_compute; reflexivity.
  - repeat constructor; try discriminate;
      intros Hstarts; discriminate Hstarts.
  - left. split; vm_compute; reflexivity.
Defined.

(** ** Tags that waive the checks *)

Section Escape_tags.
Context `{Env}.

Lemma escape_tag_names (tag : str) :
  escape_tag tag = true <->
  tag = lit "HOTFIX" \/ tag = lit "MESS" \/ tag = lit "TEMP"
  \/ tag = lit "WIP".
Proof.
  unfold escape_tag. cbn [existsb]. rewrite !orb_true_iff, !eqb_seq_eq.
  intuition discriminate.
Qed.

(** [content_can_fail()] on a fetched commit whose summary starts with the
    bracketed [tags]: it is false exactly when one of these tags is HOTFIX,
    MESS, TEMP or WIP, spelled so; what the summary says after the tags
    does not count. *)
Theorem content_can_fail_by_leading_tags (s : state Commit.t)
  (tags : list str) (title : str) (more : list str) :
  Commit.content_fetched (self s) = true ->
  Commit._message_lines (self s) = Some ((bracketed tags ++ title) :: more) ->
  Forall (fun tag => ~ In 93%N tag) tags ->
  startswith (lit "[") title && contains (lit "]") title = false ->
  Commit.content_can_fail s = (Ok (negb (existsb escape_tag tags)), s) /\
  (existsb escape_tag tags = true <->
   exists tag, In tag tags /\
               (tag = lit "HOTFIX" \/ tag = lit "MESS" \/ tag = lit "TEMP"
                \/ tag = lit "WIP")).
Proof.
  intros Hflag Hlines Htags Htitle. split.
  - unfold Commit.content_can_fail, Commit.parse_tags, Commit.get_summary,
      Commit.get_message_lines, Commit.ensure_content, Commit.attribute.
    method. rewrite Hflag, Hlines. cbn [item nth_error].
    unfold Commit.parse_tags_of.
    rewrite (parse_tags_loop_complete tags _ [] title Htags Htitle
               (le_n _)).
    reflexivity.
  - rewrite existsb_exists.
    split; intros (tag & Hin & Htag); exists tag; split; try exact Hin;
      apply escape_tag_names; exact Htag.
Qed.

End Escape_tags.

Lemma content_can_fail_by_leading_tags_witness :
  @Commit.content_can_fail (example_env merge_body) fetched_merge_commit
  = (Ok false, fetched_merge_commit).
Proof.
  apply (proj1 (@content_can_fail_by_leading_tags (example_env merge_body)
                  fetched_merge_commit [lit "WIP"] (lit " Merge topic")
                  [[]; lit "Details."]
                  ltac:(vm_compute; reflexivity)
                  ltac:(vm_compute; reflexivity)
                  ltac:(repeat constructor; intros Hin; vm_compute in Hin;
                        intuition discriminate)
                  ltac:(reflexivity))).
Defined.

(** ** Lists of new commits *)

Section New_commits.
Context `{Env}.

Lemma new_commit_loop_map (lines : list str) :
  forall found,
    Commit.new_commit_loop found lines
    = found ++ map (fun id => Commit.__init__ (PStr id)) lines.
Proof.
  induction lines as [|id lines IH]; intros found; cbn [Commit.new_commit_loop map].
  - rewrite app_nil_r. reflexivity.
  - rewrite IH, <- app_assoc. reflexivity.
Qed.

(** [get_new_commit_list(branch_name)] runs one command, whenever it is
    called, and leaves the commit as it was; the list has a commit for each
    line of the decoded output, in the order of the lines, with the line as
    its id and nothing fetched, and carries the branch name and no
    reference path. *)
Theorem get_new_commit_list_of_lines (self0 : Commit.t) (log : list argv)
  (branch_name : pyval) (out : bytes) (output : str) :
  check_output log (Commit.rev_list_command self0) = Ok out ->
  decode_str out = Ok output ->
  Commit.get_new_commit_list branch_name (mkState self0 log)
  = (Ok (CommitList.mk
           (map (fun id => Commit.__init__ (PStr id))
                (splitlines islinebreak_str output))
           branch_name PNone),
     mkState self0 (log ++ [Commit.rev_list_command self0])).
Proof.
  intros Hrun Hdecode. unfold Commit.get_new_commit_list. method.
  rewrite Hrun, Hdecode, new_commit_loop_map. reflexivity.
Qed.

Lemma last_map {A B} (f : A -> B) (l : list A) (d : A) :
  last (map f l) (f d) = f (last l d).
Proof.
  induction l as [|x l IH]; [reflexivity|].
  destruct l as [|y l]; [reflexivity|]. exact IH.
Qed.

Lemma item_last_last {A} (l : list A) (x d : A) :
  item_last (x :: l) = Ok (last (x :: l) d).
Proof.
  unfold item_last.
  rewrite (app_removelast_last (l := x :: l) d) at 1 by discriminate.
  rewrite rev_app_distr. reflexivity.
Qed.

(** [str] of a list of commits with text ids: an index error on the empty
    list; otherwise the first eight characters of the first id, two dots,
    and the first eight characters of the last id, followed by the branch
    name in parentheses only when a reference path is set. *)
Theorem CommitList_str_of_ids (ids : list str) (branch_name ref_path : pyval) :
  CommitList.__str__ Commit.__str__
    (CommitList.mk (map (fun id => Commit.__init__ (PStr id)) ids)
       branch_name ref_path)
  = match ids with
    | [] => Raise IndexError
    | first :: _ =>
        Ok (firstn 8 first ++ lit ".." ++ firstn 8 (last ids first)
            ++ (if truthy ref_path
                then lit " (" ++ format branch_name ++ lit ")"
                else []))
    end.
Proof.
  destruct ids as [|first ids]; [reflexivity|].
  unfold CommitList.__str__. cbn [CommitList.items map item nth_error rbind].
  rewrite (item_last_last _ _ (Commit.__init__ (PStr first))).
  cbn [rbind].
  change (Commit.__init__ (PStr first) :: map (fun id => Commit.__init__ (PStr id)) ids)
    with (map (fun id => Commit.__init__ (PStr id)) (first :: ids)).
  rewrite (last_map (fun id => Commit.__init__ (PStr id))).
  cbn [Commit.__str__ Commit.__init__ Commit.commit_id rbind
         CommitList.ref_path CommitList.branch_name].
  destruct (truthy ref_path).
  - rewrite <- !app_assoc. reflexivity.
  - rewrite app_nil_r. reflexivity.
Qed.

End New_commits.

Lemma get_new_commit_list_of_lines_witness :
  fst (@Commit.get_new_commit_list (example_env two_new_commits)
         (PStr (lit "main")) (mkState example_commit []))
  = Ok (CommitList.mk
          [Commit.__init__
             (PStr (lit "1111111111111111111111111111111111111111"));
           Commit.__init__
             (PStr (lit "2222222222222222222222222222222222222222"))]
          (PStr (lit "main")) PNone).
Proof.
  exact (f_equal fst
           (@get_new_commit_list_of_lines (example_env two_new_commits)
              example_commit [] (PStr (lit "main")) two_new_commits
              two_new_commits eq_refl
              ltac:(vm_compute; reflexivity))).
Defined.

(** ** The files of a commit *)

Section Changed_files.
Context `{Env}.

(** The first call of [get_changed_files] that returns: the state it
    leaves, and the lines its files were read from. *)
Lemma get_changed_files_fresh (s s1 : state Commit.t)
  (files : list CommittedFile.t) :
  Commit.changed_files (self s) = None ->
  Commit.get_changed_files s = (Ok files, s1) ->
  s1 = mkState (Commit.set_changed_files files (self s))
               (calls s ++ [Commit.diff_tree_command (self s)]) /\
  exists lines, Forall2 (parsed_as (Commit.ref (self s))) lines files.
Proof.
  intros Hnone. unfold Commit.get_changed_files. method. rewrite Hnone.
  destruct (check_output _ _) as [out|e]; [|discriminate].
  destruct (decode_str out) as [output|e]; [|discriminate].
  destruct (changed_files_loop_lines (Commit.ref (self s))
              (splitlines islinebreak_str output) [])
    as [(fs & Hloop & Hall)|[Hloop _]]; rewrite Hloop; [|discriminate].
  cbn [app]. intros [= <- <-]. split; [reflexivity|].
  exists (splitlines islinebreak_str output). exact Hall.
Qed.

Lemma Forall2_right {A B} (R : A -> B -> Prop) (P : B -> Prop)
  (l : list A) (l' : list B) :
  (forall a b, R a b -> P b) -> Forall2 R l l' -> Forall P l'.
Proof. intros HR. induction 1; constructor; eauto. Qed.

(** The files that [get_changed_files()] builds belong to the commit and
    have a mode of six characters: [regular()] and [symlink()] return on
    them and are never both true, and [owner_can_execute()] raises nothing
    but a value error, for a mode whose fourth character is no digit. *)
Theorem changed_files_have_modes (s s1 : state Commit.t)
  (files : list CommittedFile.t) :
  Commit.changed_files (self s) = None ->
  Commit.get_changed_files s = (Ok files, s1) ->
  Forall (fun f =>
            CommittedFile.commit f = Some (Commit.ref (self s)) /\
            CommittedFile.content f = None /\
            (exists r l,
                CommittedFile.regular f = Ok r /\
                CommittedFile.symlink f = Ok l /\ r && l = false) /\
            (forall e, CommittedFile.owner_can_execute f = Raise e ->
                       e = ValueError))
         files.
Proof.
  intros Hnone Hcall.
  destruct (get_changed_files_fresh s s1 files Hnone Hcall)
    as [_ [lines Hall]].
  apply (Forall2_right _ _ lines files) with (2 := Hall).
  intros line f (marker & m & id1 & id2 & st & p & _ & _ & Hlen & ->).
  cbn [CommittedFile.commit CommittedFile.content].
  split; [reflexivity|]. split; [reflexivity|]. split.
  - exists (eqb_seq (firstn 2 m) (lit "10")),
           (eqb_seq (firstn 2 m) (lit "12")).
    split; [reflexivity|]. split; [reflexivity|].
    destruct (eqb_seq (firstn 2 m) (lit "10")) eqn:Hreg; [|reflexivity].
    apply eqb_seq_eq in Hreg. rewrite Hreg. reflexivity.
  - intros e. unfold CommittedFile.owner_can_execute.
    cbn [CommittedFile.mode].
    destruct m as [|c1 [|c2 [|c3 [|c4 [|c5 [|c6 [|c7 m]]]]]]];
      try discriminate Hlen.
    cbn [item_from_end rev app Nat.sub nth_error rbind].
    unfold CommittedFile.int_of_char.
    destruct (str_decimal c4); cbn [rbind]; [discriminate|].
    intros [= <-]. reflexivity.
Qed.

(** After [get_changed_files()] has returned, [changed()] of a file of the
    commit runs no command and compares paths: it is true exactly when the
    path of the file is the path of one of the changed files. *)
Theorem changed_iff_path_listed (s s1 : state Commit.t)
  (files : list CommittedFile.t) (g : CommittedFile.t) :
  Commit.changed_files (self s) = None ->
  Commit.get_changed_files s = (Ok files, s1) ->
  CommittedFile.commit g = Some (Commit.ref (self s1)) ->
  changed g s1
  = (Ok (existsb (fun f => eqb_seq (CommittedFile.path f)
                             (CommittedFile.path g)) files), s1).
Proof.
  intros Hnone Hcall Hcommit.
  destruct (get_changed_files_fresh s s1 files Hnone Hcall)
    as [Hstate [lines Hall]].
  unfold changed. rewrite Hcommit.
  unfold Commit.get_changed_files. method.
  rewrite (get_changed_files_cached s files s1 Hcall).
  f_equal. f_equal.
  assert (Href : Commit.ref (self s1) = Commit.ref (self s))
    by (rewrite Hstate; reflexivity).
  assert (Hfiles : Forall (fun f => CommittedFile.commit f
                                    = Some (Commit.ref (self s))) files).
  { apply (Forall2_right _ _ lines files) with (2 := Hall).
    intros line f (marker & m & id1 & id2 & st & p & _ & _ & _ & ->).
    reflexivity. }
  clear Hall Hcall Hstate. induction Hfiles as [|f files Hf _ IH];
    [reflexivity|].
  cbn [existsb]. rewrite IH. f_equal.
  unfold CommittedFile.__eq__. rewrite Hf, Hcommit, Href.
  replace (CommittedFile.commit_eq (Some (Commit.ref (self s)))
             (Some (Commit.ref (self s)))) with true
    by (symmetry; apply commit_eq_eq; reflexivity).
  apply andb_true_r.
Qed.

(** A commit whose id is bytes, as the parents that [get_parents()] gives
    are: the files that [get_changed_files()] builds for it cannot be
    read, [get_content()] and [get_symlink_target()] raise a type error
    before any command. *)
Theorem files_of_bytes_commit_unreadable (s s1 : state Commit.t)
  (files : list CommittedFile.t) (id : bytes) :
  Commit.commit_id (self s) = PBytes id ->
  Commit.changed_files (self s) = None ->
  Commit.get_changed_files s = (Ok files, s1) ->
  Forall (fun f =>
            forall log,
              CommittedFile.get_content (mkState f log)
              = (Raise TypeError, mkState f log) /\
              CommittedFile.get_symlink_target (mkState f log)
              = (Raise TypeError, mkState f log))
         files.
Proof.
  intros Hid Hnone Hcall.
  destruct (get_changed_files_fresh s s1 files Hnone Hcall)
    as [_ [lines Hall]].
  apply (Forall2_right _ _ lines files) with (2 := Hall).
  intros line f (marker & m & id1 & id2 & st & p & _ & _ & _ & ->) log.
  assert (Hcontent :
            CommittedFile.get_content
              (mkState (CommittedFile.mk p (Some (Commit.ref (self s)))
                          (Some m) None (PStr id2) false None) log)
            = (Raise TypeError,
               mkState (CommittedFile.mk p (Some (Commit.ref (self s)))
                          (Some m) None (PStr id2) false None) log)).
  { unfold CommittedFile.get_content, CommittedFile.revision_path. method.
    cbn [CommittedFile.content CommittedFile.commit Commit.ref
           ref_commit_id].
    rewrite Hid. reflexivity. }
  split; [exact Hcontent|].
  unfold CommittedFile.get_symlink_target. unfold bind at 1.
  rewrite Hcontent. reflexivity.
Qed.

End Changed_files.

Lemma changed_files_have_modes_witness :
  Forall (fun f =>
            CommittedFile.commit f = Some (Commit.ref example_commit) /\
            CommittedFile.content f = None /\
            (exists r l,
                CommittedFile.regular f = Ok r /\
                CommittedFile.symlink f = Ok l /\ r && l = false) /\
            (forall e,
                @CommittedFile.owner_can_execute (example_env one_added_file) f
                = Raise e -> e = ValueError))
         [example_file "8a1f3c5e7b9d0f2a4c6e8b0d2f4a6c8e0b1d3f5a" "README"
            "100644" "e69de29"].
Proof.
  exact (@changed_files_have_modes (example_env one_added_file)
           (mkState example_commit []) listed_commit
           [example_file "8a1f3c5e7b9d0f2a4c6e8b0d2f4a6c8e0b1d3f5a" "README"
              "100644" "e69de29"]
           eq_refl ltac:(vm_compute; reflexivity)).
Defined.

Lemma changed_iff_path_listed_witness :
  @changed (example_env one_added_file)
    (example_file "8a1f3c5e7b9d0f2a4c6e8b0d2f4a6c8e0b1d3f5a" "README"
       "100644" "e69de29") listed_commit
  = (Ok true, listed_commit).
Proof.
  exact (@changed_iff_path_listed (example_env one_added_file)
           (mkState example_commit []) listed_commit
           [example_file "8a1f3c5e7b9d0f2a4c6e8b0d2f4a6c8e0b1d3f5a" "README"
              "100644" "e69de29"]
           (example_file "8a1f3c5e7b9d0f2a4c6e8b0d2f4a6c8e0b1d3f5a" "README"
              "100644" "e69de29")
           eq_refl ltac:(vm_compute; reflexivity)
           ltac:(vm_compute; reflexivity)).
Defined.

Lemma files_of_bytes_commit_unreadable_witness :
  Forall (fun f =>
            forall log,
              @CommittedFile.get_content (example_env one_added_file)
                (mkState f log)
              = (Raise TypeError, mkState f log) /\
              @CommittedFile.get_symlink_target (example_env one_added_file)
                (mkState f log)
              = (Raise TypeError, mkState f log))
         [CommittedFile.mk (lit "README") (Some (Commit.ref parent_commit))
            (Some (lit "100644")) None (PStr (lit "e69de29")) false None].
Proof.
  exact (@files_of_bytes_commit_unreadable (example_env one_added_file)
           (mkState parent_commit [])
           (snd (@Commit.get_changed_files (example_env one_added_file)
                   (mkState parent_commit [])))
           [CommittedFile.mk (lit "README") (Some (Commit.ref parent_commit))
              (Some (lit "100644")) None (PStr (lit "e69de29")) false None]
           (lit "1111111111111111111111111111111111111111")
           eq_refl eq_refl ltac:(vm_compute; reflexivity)).
Defined.

(** ** Methods of a file *)

Section File_methods.
Context `{Env}.

(** [owner_can_execute()] looks at the character third from the end of the
    mode: it is true exactly when the digit there is odd. *)
Theorem owner_can_execute_odd_digit (f : CommittedFile.t) (pre : str)
  (c x y : N) (d : Z) :
  CommittedFile.mode f = Some (pre ++ [c; x; y]) ->
  str_decimal c = Some d ->
  CommittedFile.owner_can_execute f = Ok (Z.odd d).
Proof.
  intros Hmode Hdigit. unfold CommittedFile.owner_can_execute, item_from_end.
  rewrite Hmode, rev_app_distr. cbn [rev app Nat.sub nth_error rbind].
  unfold CommittedFile.int_of_char. rewrite Hdigit. cbn [rbind].
  replace (Z.land d 1) with (d mod 2)%Z
    by (symmetry; apply (Z.land_ones d 1); lia).
  rewrite Zmod_odd. destruct (Z.odd d); reflexivity.
Qed.

(** [get_file_size()] turns any failure of the command into -1; what it
    can raise is a value error, for an output that is no integer. *)
Theorem get_file_size_swallows_command_errors (s : state CommittedFile.t) :
  (forall e,
      check_output (calls s) (CommittedFile.size_command (self s)) = Raise e ->
      fst (CommittedFile.get_file_size s) = Ok (-1)%Z) /\
  (forall out,
      check_output (calls s) (CommittedFile.size_command (self s)) = Ok out ->
      fst (CommittedFile.get_file_size s) = int_of_bytes out) /\
  (forall e, fst (CommittedFile.get_file_size s) = Raise e -> e = ValueError).
Proof.
  unfold CommittedFile.get_file_size. method.
  destruct (check_output (calls s) (CommittedFile.size_command (self s)))
    as [out|e0]; cbn [fst].
  - split; [discriminate|]. split; [intros ? [= <-]; reflexivity|].
    intros e. unfold int_of_bytes.
    match goal with
    | |- match ?parsed with _ => _ end = _ -> _ => destruct parsed
    end; [discriminate|]. intros [= <-]. reflexivity.
  - split; [reflexivity|]. split; discriminate.
Qed.

Lemma dropwhile_all (sp : N -> bool) (ws : list N) :
  Forall (fun c => sp c = true) ws -> dropwhile sp ws = [].
Proof.
  induction 1 as [|c ws Hc _ IH]; [reflexivity|].
  cbn [dropwhile]. rewrite Hc. exact IH.
Qed.

(** [get_shebang()] and [get_shebang_exe()] of a file that is not regular
    give [None] without reading the content. *)
Theorem get_shebang_only_of_regular (s : state CommittedFile.t) (m : str) :
  CommittedFile.mode (self s) = Some m ->
  firstn 2 m <> lit "10" ->
  CommittedFile.get_shebang s = (Ok None, s) /\
  CommittedFile.get_shebang_exe s = (Ok None, s).
Proof.
  intros Hmode Hkind.
  assert (Hshebang : CommittedFile.get_shebang s = (Ok None, s)).
  { unfold CommittedFile.get_shebang, CommittedFile.regular. method.
    rewrite Hmode, (eqb_seq_neq _ _ Hkind). reflexivity. }
  split; [exact Hshebang|].
  unfold CommittedFile.get_shebang_exe. unfold bind at 1.
  rewrite Hshebang. reflexivity.
Qed.

(** A regular file whose content is the marker [#!] followed by nothing
    but whitespace: [get_shebang()] and [get_shebang_exe()] raise an index
    error. *)
Theorem get_shebang_of_bare_marker (s : state CommittedFile.t) (m : str)
  (ws : bytes) :
  CommittedFile.mode (self s) = Some m ->
  firstn 2 m = lit "10" ->
  CommittedFile.content (self s) = Some (lit "#!" ++ ws) ->
  Forall (fun c => isspace_bytes c = true) ws ->
  CommittedFile.get_shebang s = (Raise IndexError, s) /\
  CommittedFile.get_shebang_exe s = (Raise IndexError, s).
Proof.
  intros Hmode Hkind Hcontent Hws.
  assert (Hshebang : CommittedFile.get_shebang s = (Raise IndexError, s)).
  { unfold CommittedFile.get_shebang, CommittedFile.regular.
    unfold bind at 1. unfold get_self at 1. unfold bind at 1.
    unfold lift at 1. rewrite Hmode, Hkind.
    cbn [eqb_seq N.eqb Pos.eqb andb negb lit].
    replace (negb (eqb_seq (lit "10") (lit "10"))) with false
      by reflexivity.
    unfold bind at 1.
    rewrite (get_content_of_cache s _ Hcontent).
    replace (startswith (lit "#!") (lit "#!" ++ ws)) with true
      by reflexivity.
    cbn [negb].
    replace (skipn (length (lit "#!")) (lit "#!" ++ ws)) with ws
      by reflexivity.
    unfold strip, lstrip, rstrip.
    rewrite (dropwhile_all _ ws Hws). reflexivity. }
  split; [exact Hshebang|].
  unfold CommittedFile.get_shebang_exe. unfold bind at 1.
  rewrite Hshebang. reflexivity.
Qed.

(** [get_filename()] and [get_path()] give the same text and never raise:
    the part of the path after its last slash, the whole path when it has
    none. *)
Theorem get_path_is_file_name (f : CommittedFile.t) :
  exists seg dir,
    CommittedFile.get_filename f = Ok seg /\
    CommittedFile.get_path f = Ok seg /\
    CommittedFile.path f = dir ++ seg /\ ~ In 47%N seg /\
    (dir = [] \/ exists d, dir = d ++ [47%N]).
Proof.
  destruct (rsplit_once_last 47%N (CommittedFile.path f))
    as (seg & dir & Hlast & Hpath & Hfree & Hdir).
  exists seg, dir. unfold CommittedFile.get_filename, CommittedFile.get_path.
  auto.
Qed.

(** [exists()] keeps nothing: [n] calls run the command [n] times and
    leave the file as it was; a call is true exactly when the command
    printed something. *)
Theorem exists_runs_every_time (n : nat) :
  forall (s : state CommittedFile.t) (c : CommitRef),
    CommittedFile.commit (self s) = Some c ->
    snd (repeatedly n CommittedFile.exists_ s)
    = mkState (self s)
        (calls s
         ++ repeat (CommittedFile.ls_tree_command (ref_commit_id c) (self s))
              n) /\
    forall out,
      check_output (calls s)
        (CommittedFile.ls_tree_command (ref_commit_id c) (self s)) = Ok out ->
      (fst (CommittedFile.exists_ s) = Ok true <-> out <> []) /\
      (fst (CommittedFile.exists_ s) = Ok false <-> out = []).
Proof.
  induction n as [|n IH]; intros s c Hcommit; split.
  - cbn. rewrite app_nil_r. destruct s; reflexivity.
  - intros out Hrun. unfold CommittedFile.exists_. method.
    rewrite Hcommit. method. rewrite Hrun.
    destruct out; cbn; split; split; congruence.
  - cbn [repeatedly repeat].
    assert (Hstep : snd (CommittedFile.exists_ s)
                    = mkState (self s)
                        (calls s
                         ++ [CommittedFile.ls_tree_command (ref_commit_id c)
                               (self s)])).
    { unfold CommittedFile.exists_. method. rewrite Hcommit. method.
      destruct (check_output _ _); reflexivity. }
    destruct (CommittedFile.exists_ s) as [r s1]. cbn [snd] in Hstep.
    destruct (IH s1 c) as [Hrest _]; [rewrite Hstep; exact Hcommit|].
    destruct (repeatedly n CommittedFile.exists_ s1) as [rs s2].
    cbn [snd] in *. rewrite Hrest, Hstep. cbn [self calls].
    rewrite <- app_assoc. reflexivity.
  - intros out Hrun. unfold CommittedFile.exists_. method.
    rewrite Hcommit. method. rewrite Hrun.
    destruct out; cbn; split; split; congruence.
Qed.

End File_methods.

(** ** The project name *)

Section Projects.
Context `{Env}.

(** The two copies of [get_projects()], of a commit and of a file, give
    the same result for the same remote listing or the same failure of the
    command, and log the same command. *)
Theorem get_projects_same_for_commit_and_file (c : Commit.t)
  (f : CommittedFile.t) (log : list argv) :
  Commit.project_fetched c = false ->
  CommittedFile.project_fetched f = false ->
  fst (Commit.get_projects (mkState c log))
  = fst (CommittedFile.get_projects (mkState f log)) /\
  calls (snd (Commit.get_projects (mkState c log)))
  = calls (snd (CommittedFile.get_projects (mkState f log))).
Proof.
  intros Hc Hf.
  destruct (check_output log remote_command) as [content|e] eqn:Hrun.
  - rewrite (Commit_get_projects_run c log content Hc Hrun),
      (CommittedFile_get_projects_run f log content Hf Hrun).
    destruct (project_of_remotes content); split; reflexivity.
  - unfold Commit.get_projects, Commit._get_project_info,
      CommittedFile.get_projects, CommittedFile._get_project_info.
    method. rewrite Hc, Hf. method. rewrite Hrun. split; reflexivity.
Qed.

Lemma push_lines_undecodable (lines : list bytes) :
  Exists (fun l => utf8.decode_points l = None) lines ->
  push_lines lines = Raise UnicodeDecodeError.
Proof.
  induction lines as [|l lines IH]; intros Hbad;
    [inversion Hbad|].
  cbn [push_lines]. unfold utf8.decode.
  destruct (utf8.decode_points l) as [d|] eqn:Hl; [|reflexivity].
  assert (Hrest : push_lines lines = Raise UnicodeDecodeError).
  { apply IH. inversion Hbad as [? ? Hhead|? ? Htail]; subst;
      [congruence | exact Htail]. }
  cbn [rbind]. rewrite Hrest.
  destruct (contains (lit "push") d); reflexivity.
Qed.

(** Every line of the remote listing is decoded as UTF-8, those without
    "push" too: when one line is not UTF-8, [get_projects()] of a commit
    and of a file raise a decoding error, whatever the other lines say. *)
Theorem undecodable_remote_line_fails_get_projects (c : Commit.t)
  (f : CommittedFile.t) (log : list argv) (content : bytes) :
  Commit.project_fetched c = false ->
  CommittedFile.project_fetched f = false ->
  check_output log remote_command = Ok content ->
  Exists (fun l => utf8.decode_points l = None)
         (splitlines islinebreak_bytes content) ->
  fst (Commit.get_projects (mkState c log)) = Raise UnicodeDecodeError /\
  fst (CommittedFile.get_projects (mkState f log))
  = Raise UnicodeDecodeError.
Proof.
  intros Hc Hf Hrun Hbad.
  assert (Hproject : project_of_remotes content = Raise UnicodeDecodeError).
  { unfold project_of_remotes.
    rewrite (push_lines_undecodable _ Hbad). reflexivity. }
  rewrite (Commit_get_projects_run c log content Hc Hrun),
    (CommittedFile_get_projects_run f log content Hf Hrun), Hproject.
  split; reflexivity.
Qed.

End Projects.

(** ** Targets of symbolic links *)

Section Normalised_targets.
Context `{Env}.

Lemma snoc_cases {A} (l : list A) :
  l = [] \/ exists l' x, l = l' ++ [x].
Proof. induction l using rev_ind; [left; reflexivity | right; eauto]. Qed.

Lemma snoc_match {A B} (l : list A) (x : A) (a b : B) :
  match l ++ [x] with [] => a | _ :: _ => b end = b.
Proof. destruct l; reflexivity. Qed.

Lemma Forall_removelast {A} (P : A -> Prop) (l : list A) :
  Forall P l -> Forall P (removelast l).
Proof.
  destruct (snoc_cases l) as [->|(l' & x & ->)]; [auto|].
  rewrite removelast_last. intros Hall.
  apply Forall_app in Hall. tauto.
Qed.

Lemma norm_step_climbs_first (i : nat) (found : list str) (comp : str) :
  climbs_first i found -> climbs_first i (posixpath.norm_step i found comp).
Proof.
  intros (k & names & Hfound & Hnames & Hroot). unfold posixpath.norm_step.
  destruct (eqb_seq comp [] || eqb_seq comp (lit "."));
    [exists k, names; auto|].
  destruct (eqb_seq comp (lit "..")) eqn:Hcomp; cbn [negb orb].
  - apply eqb_seq_eq in Hcomp. subst comp.
    destruct (snoc_cases names) as [->|(names' & n & ->)].
    + rewrite app_nil_r in Hfound. subst found. destruct k as [|k].
      * cbn [repeat rev]. destruct i as [|i]; cbn [Nat.eqb andb orb].
        -- exists 1, []. split; [reflexivity|]. split; [auto|].
           intros Hi; contradiction.
        -- exists 0, []. split; [reflexivity|]. split; [auto|]. reflexivity.
      * destruct i as [|i]; [|discriminate (Hroot (Nat.neq_succ_0 i))].
        assert (Hrev : rev (repeat (lit "..") (S k))
                       = lit ".." :: rev (repeat (lit "..") k))
          by (cbn [repeat]; rewrite repeat_cons; apply rev_unit).
        rewrite Hrev.
        replace (eqb_seq (lit "..") (lit "..")) with true by reflexivity.
        rewrite orb_true_r.
        exists (S (S k)), []. rewrite app_nil_r.
        split; [|split; [auto | intros Hi; contradiction]].
        symmetry. apply (repeat_cons (S k)).
    + assert (Hn : n <> lit "..")
        by (intros ->; apply Hnames, in_or_app; right; left; reflexivity).
      rewrite app_assoc in Hfound. subst found.
      rewrite rev_unit, !snoc_match, (eqb_seq_neq _ _ Hn), andb_false_r.
      cbn [orb]. rewrite removelast_last.
      exists k, names'. split; [reflexivity|]. split; [|exact Hroot].
      intros Hin. apply Hnames, in_or_app. left. exact Hin.
  - exists k, (names ++ [comp]). rewrite Hfound, app_assoc.
    split; [reflexivity|]. split; [|exact Hroot].
    intros Hin. apply in_app_or in Hin as [Hin|[Heq|[]]];
      [exact (Hnames Hin)|].
    rewrite Heq, eqb_seq_refl in Hcomp. discriminate.
Qed.

Lemma norm_step_Forall (P : str -> Prop) (i : nat) (found : list str)
  (comp : str) :
  Forall P found -> P comp -> Forall P (posixpath.norm_step i found comp).
Proof.
  intros Hfound Hcomp. unfold posixpath.norm_step.
  destruct (_ || _); [exact Hfound|].
  destruct (_ || _).
  - apply Forall_app. split; [exact Hfound | constructor; auto].
  - destruct found; [exact Hfound | apply Forall_removelast; exact Hfound].
Qed.

Lemma fold_norm_climbs_first (i : nat) (comps : list str) :
  forall found,
    climbs_first i found -> Forall (fun p => ~ In 47%N p) found ->
    Forall (fun p => ~ In 47%N p) comps ->
    climbs_first i (fold_left (posixpath.norm_step i) comps found) /\
    Forall (fun p => ~ In 47%N p)
           (fold_left (posixpath.norm_step i) comps found).
Proof.
  induction comps as [|c comps IH]; intros found Hshape Hfree Hcomps;
    [split; assumption|].
  cbn [fold_left]. apply IH.
  - apply norm_step_climbs_first; exact Hshape.
  - apply norm_step_Forall; [exact Hfree | exact (Forall_inv Hcomps)].
  - exact (Forall_inv_tail Hcomps).
Qed.

Lemma split_rooted (i : nat) (comps : list str) :
  Forall (fun p => ~ In 47%N p) comps -> ~ In (lit "..") comps ->
  ~ In (lit "..")
       (split_char 47 (concat (repeat (lit "/") (S i))
                       ++ Py.join (lit "/") comps)).
Proof.
  intros Hfree Hnames. induction i as [|i IH].
  - cbn [repeat concat app]. change (lit "/") with [47%N].
    cbn [app split_char N.eqb Pos.eqb].
    intros [Hin|Hin]; [discriminate Hin|].
    destruct comps as [|c comps].
    + cbn in Hin. destruct Hin as [Hin|[]]. discriminate Hin.
    + rewrite split_char_join in Hin by (discriminate || exact Hfree).
      exact (Hnames Hin).
  - cbn [repeat concat app] in *. change (lit "/") with [47%N] in *.
    cbn [app split_char N.eqb Pos.eqb] in *.
    intros [Hin|Hin]; [discriminate Hin|]. exact (IH Hin).
Qed.

Lemma normpath_without_dotdot (p : str) :
  startswith (lit "..") (posixpath.normpath p) = false ->
  ~ In (lit "..") (split_char 47 (posixpath.normpath p)).
Proof.
  unfold posixpath.normpath. destruct p as [|c p].
  - intros _ [Hin|[]]. discriminate Hin.
  - set (i := if startswith (lit "/") (c :: p)
              then if startswith (lit "//") (c :: p)
                      && negb (startswith (lit "///") (c :: p))
                   then 2 else 1
              else 0).
    destruct (fold_norm_climbs_first i (split_char 47 (c :: p)) [])
      as [(k & names & Hcomps & Hnames & Hroot) Hfree].
    { exists 0, []. split; [reflexivity|]. split; auto. }
    { constructor. }
    { apply split_char_parts. }
    set (found := fold_left (posixpath.norm_step i)
                    (split_char 47 (c :: p)) []) in *.
    destruct i as [|i].
    + cbn [repeat concat app].
      destruct (Py.join (lit "/") found) as [|x path] eqn:Hpath.
      * intros _ [Hin|[]]. discriminate Hin.
      * rewrite <- Hpath. intros Hstart.
        destruct k as [|k].
        -- cbn [repeat app] in Hcomps.
           assert (Hne : found <> [])
             by (intros Hnil; rewrite Hnil in Hpath; discriminate Hpath).
           change (lit "/") with [47%N].
           rewrite (split_char_join 47%N found Hne Hfree), Hcomps.
           exact Hnames.
        -- exfalso. rewrite Hcomps in Hstart. cbn [repeat app] in Hstart.
           destruct (join_head (lit "/") (lit "..")
                       (repeat (lit "..") k ++ names)) as [r Hjoin].
           rewrite Hjoin in Hstart. discriminate Hstart.
    + rewrite (Hroot (Nat.neq_succ_0 i)) in Hcomps.
      cbn [repeat app] in Hcomps.
      destruct (concat (repeat (lit "/") (S i)) ++ Py.join (lit "/") found)
        as [|x path] eqn:Hpath.
      * intros _ [Hin|[]]. discriminate Hin.
      * rewrite <- Hpath. intros _.
        apply split_rooted; [exact Hfree | rewrite Hcomps; exact Hnames].
Qed.

(** The target that [get_symlink_target()] returns is inside the
    repository in the sense that its path has no [..] component, whatever
    the path of the link and the content. *)
Theorem get_symlink_target_without_dotdot (s s1 : state CommittedFile.t)
  (target : CommittedFile.t) :
  CommittedFile.get_symlink_target s = (Ok (Some target), s1) ->
  Forall (fun comp => comp <> lit "..")
         (split_char 47 (CommittedFile.path target)).
Proof.
  intros Hcall. apply Forall_forall. intros comp Hin ->. revert Hcall Hin.
  destruct (CommittedFile.get_content s) as [[content|e] s2] eqn:Hcontent.
  - rewrite (get_symlink_target_run s s2 content Hcontent).
    destruct (posixpath.isabs content); [discriminate|].
    destruct (decode_str content) as [d|e]; [|discriminate].
    destruct (startswith (lit "..") _) eqn:Hstart; [discriminate|].
    intros [= <- _]. cbn [CommittedFile.path].
    apply normpath_without_dotdot. exact Hstart.
  - unfold CommittedFile.get_symlink_target. unfold bind at 1.
    rewrite Hcontent. discriminate.
Qed.

End Normalised_targets.

Lemma owner_can_execute_odd_digit_witness :
  @CommittedFile.owner_can_execute (example_env [])
    (example_file "8a1f3c5e7b9d0f2a4c6e8b0d2f4a6c8e0b1d3f5a" "run.sh"
       "100755" "e69de29")
  = Ok true.
Proof.
  exact (@owner_can_execute_odd_digit (example_env [])
           (example_file "8a1f3c5e7b9d0f2a4c6e8b0d2f4a6c8e0b1d3f5a" "run.sh"
              "100755" "e69de29")
           (lit "100") 55%N 53%N 53%N 7%Z eq_refl eq_refl).
Defined.

Lemma get_shebang_only_of_regular_witness :
  @CommittedFile.get_shebang (example_env []) (mkState link_file [])
  = (Ok None, mkState link_file []) /\
  @CommittedFile.get_shebang_exe (example_env []) (mkState link_file [])
  = (Ok None, mkState link_file []).
Proof.
  apply (@get_shebang_only_of_regular (example_env [])
           (mkState link_file []) (lit "120000") eq_refl).
  intros Heq. vm_compute in Heq. discriminate Heq.
Defined.

Lemma get_shebang_of_bare_marker_witness :
  @CommittedFile.get_shebang (example_env []) (mkState bare_marker_file [])
  = (Raise IndexError, mkState bare_marker_file []) /\
  @CommittedFile.get_shebang_exe (example_env [])
    (mkState bare_marker_file [])
  = (Raise IndexError, mkState bare_marker_file []).
Proof.
  apply (@get_shebang_of_bare_marker (example_env [])
           (mkState bare_marker_file []) (lit "100755") [10%N]
           eq_refl eq_refl eq_refl).
  repeat constructor.
Defined.

Lemma exists_runs_every_time_witness :
  snd (repeatedly 2 (@CommittedFile.exists_ (example_env (lit "docs/latest")))
         (mkState link_file []))
  = mkState link_file
      (repeat (@CommittedFile.ls_tree_command
                 (example_env (lit "docs/latest"))
                 (PStr (lit "8a1f3c5e7b9d0f2a4c6e8b0d2f4a6c8e0b1d3f5a"))
                 link_file) 2).
Proof.
  exact (proj1 (@exists_runs_every_time (example_env (lit "docs/latest")) 2
                  (mkState link_file [])
                  {| ref_commit_id :=
                       PStr (lit "8a1f3c5e7b9d0f2a4c6e8b0d2f4a6c8e0b1d3f5a") |}
                  eq_refl)).
Defined.

Lemma get_projects_same_for_commit_and_file_witness :
  fst (@Commit.get_projects (example_env dotted_remotes)
         (mkState example_commit []))
  = fst (@CommittedFile.get_projects (example_env dotted_remotes)
           (mkState link_file [])) /\
  calls (snd (@Commit.get_projects (example_env dotted_remotes)
                (mkState example_commit [])))
  = calls (snd (@CommittedFile.get_projects (example_env dotted_remotes)
                  (mkState link_file []))).
Proof.
  exact (@get_projects_same_for_commit_and_file (example_env dotted_remotes)
           example_commit link_file [] eq_refl eq_refl).
Defined.

Lemma undecodable_remote_line_fails_get_projects_witness :
  fst (@Commit.get_projects (example_env remotes_with_bad_line)
         (mkState example_commit [])) = Raise UnicodeDecodeError /\
  fst (@CommittedFile.get_projects (example_env remotes_with_bad_line)
         (mkState link_file [])) = Raise UnicodeDecodeError.
Proof.
  apply (@undecodable_remote_line_fails_get_projects
           (example_env remotes_with_bad_line) example_commit link_file []
           remotes_with_bad_line eq_refl eq_refl eq_refl).
  apply Exists_exists.
  exists (lit "backup" ++ [9%N; 255%N] ++ lit " (fetch)").
  split; [vm_compute; right; left; reflexivity | vm_compute; reflexivity].
Defined.

Lemma get_symlink_target_without_dotdot_witness :
  Forall (fun comp => comp <> lit "..") (split_char 47 (lit "releases/v3")).
Proof.
  exact (@get_symlink_target_without_dotdot (example_env [])
           (mkState link_file []) (mkState link_file [])
           (CommittedFile.mk (lit "releases/v3")
              (CommittedFile.commit link_file) None None PNone false None)
           ltac:(vm_compute; reflexivity)).
Defined.

Lemma failed_call_caches_nothing_witness :
  Commit.content_fetched
    (self (snd (@Commit.get_parents failing_env (mkState example_commit []))))
  = false /\
  calls (snd (@Commit.get_parents failing_env (mkState example_commit [])))
  = [] ++ [@Commit.cat_file_command failing_env example_commit].
Proof.
  apply (proj1 (@failed_call_caches_nothing failing_env
                  (mkState example_commit [])
                  (snd (@Commit.get_parents failing_env
                          (mkState example_commit [])))
                  (CalledProcessError 128)) eq_refl).
  left. vm_compute. reflexivity.
Defined.

Lemma parse_refuses_incomplete_line_witness :
  @Contributor.parse (example_env []) (lit "nobody 1700000000 +0000")
  = Raise ValueError.
Proof.
  apply (proj1 (@parse_refuses_incomplete_line (example_env []))).
  intros Hin. vm_compute in Hin. intuition discriminate.
Defined.

Lemma get_file_size_swallows_command_errors_witness :
  fst (@CommittedFile.get_file_size failing_env (mkState link_file []))
  = Ok (-1)%Z.
Proof.
  exact (proj1 (@get_file_size_swallows_command_errors failing_env
                  (mkState link_file []))
           (CalledProcessError 128) eq_refl).
Defined.
